(** * Application decision pipeline and cross-source reconciliation

    A shallow embedding of [app/agents/master_agent.py] (the pipeline
    orchestrator and result aggregator) and of
    [app/agents/validation_agent.py] (the reconciliation engine), with the
    helpers of [app/agents/base_agent.py] they rely on; of the document
    dispatch and consolidation of [app/agents/extraction_agent.py]; of the
    feature engineering and labelling rules of
    [app/agents/eligibility_agent.py]; and of what the endpoint of
    [app/api/main.py] hands to the pipeline and reads from its answer.

    Conventions of the embedding:
    - a Python [dict] is an association list in insertion order (iteration
      order is observable in [_resolve_field_conflict]);
    - Python exceptions are values of the error monad [exn];
    - Python floats are exact rationals ([Q]); statements about them are up
      to [Qeq] and do not speak about binary rounding;
    - the library functions [re.search], [float], [repr], the format
      specification [.1%] and, where observed values are normalized,
      [str.lower] and [str.strip] are parameters of the development, and so
      are the
      three agents the orchestrator drives: an agent is a function from its
      input payload to the result it returns or the exception it raises;
    - [int] on strings, [Path.exists] and the four file extractors of the
      extraction agent, which read files through PyPDF2, PIL, pytesseract
      and openpyxl, are parameters as well. *)

From Stdlib Require Import QArith Qminmax Qround Lqa.
From stdpp Require Import base option list strings pretty gmap.

Set Warnings "-register-all".

(** ** Python values *)

Inductive pyval : Type :=
| PyNone
| PyBool (b : bool)
| PyInt (n : Z)
| PyFloat (x : Q)
| PyStr (s : string)
| PyList (l : list pyval)
| PyDict (d : list (string * pyval)).

Abbreviation pydict := (list (string * pyval)).

(** [bool(v)]: the truth value used by [if v:] and [not v]. *)
Definition truthy (v : pyval) : bool :=
  match v with
  | PyNone => false
  | PyBool b => b
  | PyInt n => negb (n =? 0)%Z
  | PyFloat x => negb (Qeq_bool x 0)
  | PyStr s => negb (String.eqb s "")
  | PyList l => match l with [] => false | _ => true end
  | PyDict d => match d with [] => false | _ => true end
  end.

(** ** Exceptions *)

Inductive exn (A : Type) : Type :=
| Ok (a : A)
| Raise (msg : string).
Arguments Ok {A} a.
Arguments Raise {A} msg.

#[global] Instance exn_ret : MRet exn := fun A a => Ok a.
#[global] Instance exn_bind : MBind exn := fun A B f m =>
  match m with
  | Ok a => f a
  | Raise msg => Raise msg
  end.

(** [try: body except Exception as e: handler(str(e))] *)
Definition try_except {A} (body : exn A) (handler : string -> A) : A :=
  match body with
  | Ok a => a
  | Raise msg => handler msg
  end.

(** ** Dictionaries in insertion order *)

Module Dict.

Fixpoint get {V} (k : string) (d : list (string * V)) : option V :=
  match d with
  | [] => None
  | (k', v) :: d' => if String.eqb k k' then Some v else get k d'
  end.

(** [k in d] *)
Definition mem {V} (k : string) (d : list (string * V)) : bool :=
  match get k d with Some _ => true | None => false end.

(** [d[k] = v]: an existing key keeps its position, a new key goes last. *)
Fixpoint set {V} (k : string) (v : V) (d : list (string * V))
  : list (string * V) :=
  match d with
  | [] => [(k, v)]
  | (k', v') :: d' =>
      if String.eqb k k' then (k, v) :: d' else (k', v') :: set k v d'
  end.

(** [d.update(e)] *)
Definition update {V} (d e : list (string * V)) : list (string * V) :=
  fold_left (fun acc kv => set kv.1 kv.2 acc) e d.

Definition keys {V} (d : list (string * V)) : list string := d.*1.
Definition values {V} (d : list (string * V)) : list V := d.*2.

End Dict.

(** [v.get(k, dflt)] on an arbitrary object: only a dict has the
    method. [v.get(k)] is [py_get v k PyNone]. *)
Definition py_get (v : pyval) (k : string) (dflt : pyval) : exn pyval :=
  match v with
  | PyDict d => Ok (default dflt (Dict.get k d))
  | _ => Raise "AttributeError: object has no attribute 'get'"
  end.

(** [for x in v]: the items a [for] loop visits. *)
Definition py_iter (v : pyval) : exn (list pyval) :=
  match v with
  | PyList l => Ok l
  | PyDict d => Ok (PyStr <$> Dict.keys d)
  | PyStr s => Ok ((fun c => PyStr (String c EmptyString)) <$>
                     String.list_ascii_of_string s)
  | _ => Raise "TypeError: object is not iterable"
  end.

(** [str(v)]: a string is itself, anything else prints as its [repr],
    which is a parameter. *)
Definition py_str (py_repr : pyval -> string) (v : pyval) : string :=
  match v with
  | PyStr s => s
  | _ => py_repr v
  end.

(** ** String methods

    [s.lower()] and [s.strip()] on ASCII text: they serve where the source
    compares against names of its own (document kinds, file types) and
    trims what its patterns captured. *)

Definition ascii_lower (c : Ascii.ascii) : Ascii.ascii :=
  let n := Ascii.N_of_ascii c in
  if ((65 <=? n) && (n <=? 90))%N then Ascii.ascii_of_N (n + 32) else c.

Definition is_space (c : Ascii.ascii) : bool :=
  let n := Ascii.N_of_ascii c in
  (((9 <=? n) && (n <=? 13)) || ((28 <=? n) && (n <=? 32)))%N.

Fixpoint str_lower (s : string) : string :=
  match s with
  | EmptyString => EmptyString
  | String c s' => String (ascii_lower c) (str_lower s')
  end.

Fixpoint lstrip (l : list Ascii.ascii) : list Ascii.ascii :=
  match l with
  | c :: l' => if is_space c then lstrip l' else l
  | [] => []
  end.

Definition str_strip (s : string) : string :=
  String.string_of_list_ascii
    (rev (lstrip (rev (lstrip (String.list_ascii_of_string s))))).

(** [needle in hay] for two strings. *)
Fixpoint str_contains (needle hay : string) : bool :=
  String.prefix needle hay ||
  match hay with
  | EmptyString => false
  | String _ hay' => str_contains needle hay'
  end.

(** [s in l] for a list of strings [l]. *)
Definition str_in (s : string) (l : list string) : bool :=
  existsb (String.eqb s) l.

Definition comma : Ascii.ascii := Ascii.ascii_of_N 44.
Definition underscore : Ascii.ascii := Ascii.ascii_of_N 95.

(** [s.replace(old, new)] for a one-character [old]. *)
Fixpoint str_replace_char (old : Ascii.ascii) (new : string) (s : string) : string :=
  match s with
  | EmptyString => EmptyString
  | String c s' =>
      if Ascii.eqb c old then new +:+ str_replace_char old new s'
      else String c (str_replace_char old new s')
  end.

(** ** Result types

    [app/models/pydantic_models.py] is not part of the sources at hand; the
    two result models are taken from how the agents build and read them. *)

(** Modelled from the spec: the [ProcessingResult] model (stage contract
    [Result{success, data|error, confidence}] of section 6), with the field
    names the agents use. *)
Record ProcessingResult : Type := mkProcessingResult {
  success : bool;
  data : option pydict;
  error : option string;
  confidence_score : Q
}.

(** One entry of [ValidationResult.conflicts]: the dict
    [{'field': .., 'values': .., 'priority_sources': ..}] built in
    [_validate_information]. *)
Record ConflictRecord : Type := mkConflict {
  field : string;
  values : pydict;
  priority_sources : list string
}.

(** Modelled from the spec: the [ValidationResult] model (the
    ReconciliationResult of section 3: [is_valid], [conflicts],
    [resolved_data], [confidence_score]). *)
Record ValidationResult : Type := mkValidationResult {
  is_valid : bool;
  conflicts : list ConflictRecord;
  resolved_data : pydict;
  vr_confidence_score : Q
}.

Definition conflict_dict (c : ConflictRecord) : pyval :=
  PyDict [("field", PyStr (field c));
          ("values", PyDict (values c));
          ("priority_sources", PyList (PyStr <$> priority_sources c))].

(** [validation_result.dict()] *)
Definition ValidationResult_dict (r : ValidationResult) : pyval :=
  PyDict [("is_valid", PyBool (is_valid r));
          ("conflicts", PyList (conflict_dict <$> conflicts r));
          ("resolved_data", PyDict (resolved_data r));
          ("confidence_score", PyFloat (vr_confidence_score r))].

(** ** [BaseAgent] *)

Module BaseAgent.

Definition create_error_result (error_message : string) : ProcessingResult :=
  {| success := false; data := None; error := Some error_message;
     confidence_score := 0 |}.

Definition create_success_result (d : pydict) (confidence : Q)
  : ProcessingResult :=
  {| success := true; data := Some d; error := None;
     confidence_score := confidence |}.

End BaseAgent.

(** [max(0.0, min(1.0, x))] *)
Definition clamp01 (x : Q) : Q := Qmax 0 (Qmin 1 x).

(** ** [ValidationAgent]: the reconciliation engine *)

Module ValidationAgent.
Section WithPythonLibrary.

(** [re_search pattern text] is [re.search(pattern, text, re.IGNORECASE)]
    followed by [match.group(1)]; [None] when there is no match. *)
Variable re_search : string -> string -> option string.
(** [float(s)]; [None] stands for [ValueError]. *)
Variable py_float : string -> option Q.
(** [repr(v)] *)
Variable py_repr : pyval -> string.
(** [s.lower()] and [s.strip()] as the normalization of observed values
    calls them: on text of any script Python lower-cases and trims by the
    Unicode tables. *)
Variable py_lower : string -> string.
Variable py_strip : string -> string.

Definition field_priorities : list (string * list string) :=
  [("name", ["application_form"; "government_id"; "bank_statement"]);
   ("date_of_birth", ["government_id"; "application_form"; "bank_statement"]);
   ("income", ["bank_statement"; "pay_stub"; "tax_return"; "application_form"]);
   ("address", ["government_id"; "utility_bill"; "application_form"]);
   ("employment", ["pay_stub"; "application_form"; "bank_statement"])].

Definition name_patterns : list string :=
  ["Name:\s*([A-Za-z\s]+)";
   "Full Name:\s*([A-Za-z\s]+)";
   "Applicant:\s*([A-Za-z\s]+)"].

Definition dob_patterns : list string :=
  ["Date of Birth:\s*(\d{1,2}[/-]\d{1,2}[/-]\d{2,4})";
   "DOB:\s*(\d{1,2}[/-]\d{1,2}[/-]\d{2,4})";
   "Birth Date:\s*(\d{1,2}[/-]\d{1,2}[/-]\d{2,4})"].

Definition income_patterns : list string :=
  ["Monthly Income:\s*\$?([\d,]+\.?\d*)";
   "Income:\s*\$?([\d,]+\.?\d*)";
   "Salary:\s*\$?([\d,]+\.?\d*)"].

Definition address_patterns : list string :=
  ["Address:\s*([^\n]+)";
   "Street Address:\s*([^\n]+)";
   "Residence:\s*([^\n]+)"].

Definition employment_patterns : list string :=
  ["Employer:\s*([^\n]+)";
   "Company:\s*([^\n]+)";
   "Workplace:\s*([^\n]+)"].

(** The inner loop [for pattern in patterns]: the first pattern that
    matches and whose group [post] accepts decides; [post] returning
    [None] is the [continue] of the income extractor. *)
Fixpoint first_pattern (post : string -> option pyval)
    (patterns : list string) (text : string) : option pyval :=
  match patterns with
  | [] => None
  | pattern :: patterns' =>
      match re_search pattern text with
      | Some group1 =>
          match post group1 with
          | Some v => Some v
          | None => first_pattern post patterns' text
          end
      | None => first_pattern post patterns' text
      end
  end.

(** The outer loop [for text in text_content]; [re.search] raises on an
    item that is not a string. *)
Fixpoint scan_texts (post : string -> option pyval)
    (patterns : list string) (text_content : list pyval) : exn pyval :=
  match text_content with
  | [] => Ok PyNone
  | PyStr text :: rest =>
      match first_pattern post patterns text with
      | Some v => Ok v
      | None => scan_texts post patterns rest
      end
  | _ :: _ => Raise "TypeError: expected string or bytes-like object"
  end.

Definition all_text_content (extracted_data : pyval) : exn (list pyval) :=
  text_content ← py_get extracted_data "all_text_content" (PyList []);
  py_iter text_content.

Definition _extract_name_from_document (doc_type : string)
    (extracted_data : pyval) : exn pyval :=
  text_content ← all_text_content extracted_data;
  scan_texts (fun g => Some (PyStr (str_strip g))) name_patterns text_content.

Definition _extract_dob_from_document (doc_type : string)
    (extracted_data : pyval) : exn pyval :=
  text_content ← all_text_content extracted_data;
  scan_texts (fun g => Some (PyStr g)) dob_patterns text_content.

Definition _extract_income_from_document (doc_type : string)
    (extracted_data : pyval) : exn pyval :=
  text_content ← all_text_content extracted_data;
  scan_texts
    (fun g => PyFloat <$> py_float (str_replace_char comma "" g))
    income_patterns text_content.

Definition _extract_address_from_document (doc_type : string)
    (extracted_data : pyval) : exn pyval :=
  text_content ← all_text_content extracted_data;
  scan_texts (fun g => Some (PyStr (str_strip g)))
    address_patterns text_content.

Definition _extract_employment_from_document (doc_type : string)
    (extracted_data : pyval) : exn pyval :=
  text_content ← all_text_content extracted_data;
  scan_texts (fun g => Some (PyStr (str_strip g)))
    employment_patterns text_content.

(** The loop over [extracted_data.get('document_types', [])]: the first
    document whose type contains [doc_type] decides. *)
Fixpoint find_document (fld doc_type : string) (extracted_data : pyval)
    (document_types : list pyval) : exn pyval :=
  match document_types with
  | [] => Ok PyNone
  | PyStr doc :: rest =>
      if str_contains (str_lower doc_type) (str_lower doc) then
        if String.eqb fld "name" then
          _extract_name_from_document doc extracted_data
        else if String.eqb fld "date_of_birth" then
          _extract_dob_from_document doc extracted_data
        else if String.eqb fld "income" then
          _extract_income_from_document doc extracted_data
        else if String.eqb fld "address" then
          _extract_address_from_document doc extracted_data
        else if String.eqb fld "employment" then
          _extract_employment_from_document doc extracted_data
        else find_document fld doc_type extracted_data rest
      else find_document fld doc_type extracted_data rest
  | _ :: _ => Raise "AttributeError: object has no attribute 'lower'"
  end.

Definition _extract_field_from_documents (fld doc_type : string)
    (extracted_data : pyval) : pyval :=
  try_except
    (document_types ← py_get extracted_data "document_types" (PyList []);
     docs ← py_iter document_types;
     find_document fld doc_type extracted_data docs)
    (fun _ => PyNone).

(** The body of the loop over [field_priorities] up to the conflict
    check: the [field_values] dict of one field. *)
Definition add_document_value (fld : string) (extracted_data : pyval)
    (field_values : pydict) (doc_type : string) : pydict :=
  let doc_value := _extract_field_from_documents fld doc_type extracted_data in
  if truthy doc_value then Dict.set doc_type doc_value field_values
  else field_values.

Definition collect_field_values (fld : string) (sources : list string)
    (application_data extracted_data : pyval) : exn pydict :=
  app_value ← py_get application_data fld PyNone;
  let field_values :=
    if truthy app_value then [("application_form", app_value)] else [] in
  Ok (fold_left (add_document_value fld extracted_data) sources field_values).

(** [set(str(v).lower().strip() for v in field_values.values() if v)] *)
Definition normalize (v : pyval) : string :=
  py_strip (py_lower (py_str py_repr v)).

Definition unique_values (field_values : pydict) : gset string :=
  list_to_set (normalize <$> filter (fun v => truthy v) (Dict.values field_values)).

Definition check_conflicts (fld : string) (field_values : pydict)
    (sources : list string) : list ConflictRecord :=
  if (1 <? length field_values)%nat then
    if (1 <? size (unique_values field_values))%nat then
      [mkConflict fld field_values sources]
    else []
  else [].

(** The loop [for field, priority_sources in self.field_priorities.items()],
    threading [(conflicts, validated_data)]. *)
Fixpoint validate_fields (fields : list (string * list string))
    (application_data extracted_data : pyval)
    (acc : list ConflictRecord * pydict)
  : exn (list ConflictRecord * pydict) :=
  match fields with
  | [] => Ok acc
  | (fld, sources) :: fields' =>
      field_values ←
        collect_field_values fld sources application_data extracted_data;
      let field_conflicts := check_conflicts fld field_values sources in
      validate_fields fields' application_data extracted_data
        (acc.1 ++ field_conflicts,
         Dict.set fld (PyDict field_values) acc.2)
  end.

Definition _validate_information (application_data extracted_data : pyval)
  : exn ValidationResult :=
  '(conflicts, validated_data) ←
    validate_fields field_priorities application_data extracted_data ([], []);
  Ok {| is_valid := bool_decide (length conflicts = 0%nat);
        conflicts := conflicts;
        resolved_data := validated_data;
        vr_confidence_score := 0 |}.

(** [for source in priority_sources:
       if source in values and values[source]: return values[source]] *)
Fixpoint first_priority_value (vals : pydict) (sources : list string)
  : option pyval :=
  match sources with
  | [] => None
  | source :: sources' =>
      match Dict.get source vals with
      | Some v =>
          if truthy v then Some v else first_priority_value vals sources'
      | None => first_priority_value vals sources'
      end
  end.

Definition _resolve_field_conflict (fld : string) (vals : pydict)
    (sources : list string) : pyval :=
  match first_priority_value vals sources with
  | Some v => v
  | None =>
      match List.find truthy (Dict.values vals) with
      | Some v => v
      | None => PyNone
      end
  end.

Definition _resolve_conflicts (cs : list ConflictRecord)
    (extracted_data : pyval) : pydict :=
  fold_left
    (fun resolved c =>
       Dict.set (field c)
         (_resolve_field_conflict (field c) (values c) (priority_sources c))
         resolved)
    cs [].

Definition _calculate_overall_confidence (r : ValidationResult) : Q :=
  match conflicts r with
  | [] => 1
  | _ =>
      let base_confidence := 0.7 in
      let conflict_penalty :=
        Qmin (inject_Z (Z.of_nat (length (conflicts r))) * 0.1) 0.3 in
      let resolution_bonus :=
        match resolved_data r with [] => 0 | _ => 0.1 end in
      clamp01 (base_confidence - conflict_penalty + resolution_bonus)
  end%Q.

(** The reconciliation proper: the part of [process] from
    [_validate_information] to the confidence score. *)
Definition reconcile (application_data extracted_data : pyval)
  : exn ValidationResult :=
  validation_result ← _validate_information application_data extracted_data;
  let validation_result :=
    match conflicts validation_result with
    | [] => validation_result
    | cs =>
        let resolved := _resolve_conflicts cs extracted_data in
        {| is_valid := is_valid validation_result;
           conflicts := conflicts validation_result;
           resolved_data :=
             Dict.update (resolved_data validation_result) resolved;
           vr_confidence_score := vr_confidence_score validation_result |}
    end in
  let overall_confidence := _calculate_overall_confidence validation_result in
  Ok {| is_valid := is_valid validation_result;
        conflicts := conflicts validation_result;
        resolved_data := resolved_data validation_result;
        vr_confidence_score := overall_confidence |}.

Definition process (input_data : pydict) : ProcessingResult :=
  try_except
    (let application_data :=
       default (PyDict []) (Dict.get "application_data" input_data) in
     let extracted_data :=
       default (PyDict []) (Dict.get "extracted_data" input_data) in
     if negb (truthy application_data) || negb (truthy extracted_data) then
       Ok (BaseAgent.create_error_result
             "Missing application or extracted data")
     else
       validation_result ← reconcile application_data extracted_data;
       let overall_confidence := vr_confidence_score validation_result in
       Ok (BaseAgent.create_success_result
             [("validation_result", ValidationResult_dict validation_result);
              ("is_valid", PyBool (is_valid validation_result));
              ("confidence", PyFloat overall_confidence)]
             overall_confidence))
    (fun e => BaseAgent.create_error_result ("Validation failed: " +:+ e)).

End WithPythonLibrary.
End ValidationAgent.

(** ** More of Python's object protocol, as the orchestrator uses it *)

(** [k in v] for a string [k] *)
Definition py_in (k : string) (v : pyval) : exn bool :=
  match v with
  | PyDict d => Ok (Dict.mem k d)
  | PyList l =>
      Ok (existsb (fun x => match x with
                            | PyStr s => String.eqb k s
                            | _ => false
                            end) l)
  | PyStr s => Ok (str_contains k s)
  | _ => Raise "TypeError: argument is not iterable"
  end.

(** [v[k]] for a string [k] *)
Definition py_getitem (v : pyval) (k : string) : exn pyval :=
  match v with
  | PyDict d =>
      match Dict.get k d with
      | Some x => Ok x
      | None => Raise ("KeyError: " +:+ k)
      end
  | _ => Raise "TypeError: object is not subscriptable by a string"
  end.

(** The number a value stands for in arithmetic and comparisons. *)
Definition py_num (v : pyval) : exn Q :=
  match v with
  | PyBool b => Ok (if b then 1%Q else 0%Q)
  | PyInt n => Ok (inject_Z n)
  | PyFloat x => Ok x
  | _ => Raise "TypeError: unsupported operand type(s)"
  end.

(** [workflow_state['results'][step_name] = step_result.data] stores the
    payload, or [None] when the result carries none. *)
Definition data_value (r : ProcessingResult) : pyval :=
  match data r with
  | Some d => PyDict d
  | None => PyNone
  end.

(** ** [MasterAgent]: the pipeline orchestrator *)

Module MasterAgent.

Record ErrorRecord : Type := mkError {
  step : string;
  err : option string;
  timestamp : string
}.

(** One invocation of a stage's [process]: a ghost record, kept to state
    which stages ran and on what input. *)
Record Call : Type := mkCall {
  call_step : string;
  call_input : pydict;
  call_outcome : exn ProcessingResult
}.

(** The [workflow_state] dict, with the ghost list [calls]. *)
Record WorkflowState : Type := mkState {
  workflow_id : string;
  start_time : string;
  end_time : option string;
  current_step : nat;
  total_steps : nat;
  results : pydict;
  errors : list ErrorRecord;
  status : string;
  calls : list Call
}.

Definition set_position (i : nat) (s : string) (st : WorkflowState) :=
  mkState (workflow_id st) (start_time st) (end_time st) i (total_steps st)
    (results st) (errors st) s (calls st).
Definition set_status (s : string) (st : WorkflowState) :=
  mkState (workflow_id st) (start_time st) (end_time st) (current_step st)
    (total_steps st) (results st) (errors st) s (calls st).
Definition set_result (k : string) (v : pyval) (st : WorkflowState) :=
  mkState (workflow_id st) (start_time st) (end_time st) (current_step st)
    (total_steps st) (Dict.set k v (results st)) (errors st) (status st)
    (calls st).
Definition append_error (e : ErrorRecord) (st : WorkflowState) :=
  mkState (workflow_id st) (start_time st) (end_time st) (current_step st)
    (total_steps st) (results st) (errors st ++ [e]) (status st) (calls st).
Definition append_call (c : Call) (st : WorkflowState) :=
  mkState (workflow_id st) (start_time st) (end_time st) (current_step st)
    (total_steps st) (results st) (errors st) (status st) (calls st ++ [c]).
Definition set_end_time (t : string) (st : WorkflowState) :=
  mkState (workflow_id st) (start_time st) (Some t) (current_step st)
    (total_steps st) (results st) (errors st) (status st) (calls st).

Definition workflow_steps : list string :=
  ["extraction"; "validation"; "eligibility"].

Definition _should_continue_after_error (step_name error_msg : string)
  : bool :=
  let critical_steps := ["extraction"] in
  if str_in step_name critical_steps then false else true.

Definition _determine_final_status (st : WorkflowState) : string :=
  if String.eqb (status st) "failed" then "failed"
  else match errors st with
       | _ :: _ => "completed_with_errors"
       | [] =>
           if (length (results st) =? length workflow_steps)%nat
           then "completed_successfully"
           else "incomplete"
       end.

Definition _prepare_input_for_next_step (step_name : string)
    (step_result : ProcessingResult) (current_input : pydict) : exn pydict :=
  let next_input :=
    Dict.set (step_name +:+ "_result") (data_value step_result)
      current_input in
  if String.eqb step_name "extraction" && success step_result then
    Ok (Dict.set "extracted_data" (data_value step_result) next_input)
  else if String.eqb step_name "validation" && success step_result then
    let next_input :=
      Dict.set "validation_result" (data_value step_result) next_input in
    has_resolved ← py_in "resolved_data" (data_value step_result);
    if has_resolved : bool then
      resolved ← py_getitem (data_value step_result) "resolved_data";
      Ok (Dict.set "validated_application_data" resolved next_input)
    else Ok next_input
  else if String.eqb step_name "eligibility" && success step_result then
    Ok (Dict.set "eligibility_result" (data_value step_result) next_input)
  else Ok next_input.

Definition _prepare_step_input (step_name : string) (input_data : pydict)
    (st : WorkflowState) : pydict :=
  let step_input :=
    fold_left
      (fun step_input '(prev_step, result) =>
         if Dict.mem prev_step step_input
         then Dict.set (prev_step +:+ "_result") result step_input
         else Dict.set prev_step result step_input)
      (results st) input_data in
  Dict.set "workflow_context"
    (PyDict [("workflow_id", PyStr (workflow_id st));
             ("current_step", PyStr step_name);
             ("previous_results", PyDict (results st))])
    step_input.

Definition _describe_factor (factor : string) : string :=
  let factor_descriptions :=
    [("monthly_income", "monthly income level");
     ("employment_length_months", "employment stability");
     ("family_size", "family size");
     ("dependents", "number of dependents");
     ("income_stability", "income stability");
     ("employment_stability", "employment stability");
     ("debt_to_income_ratio", "debt-to-income ratio");
     ("credit_score", "credit score");
     ("monthly_balance_consistency", "financial consistency")] in
  default (str_replace_char underscore " " factor)
    (Dict.get factor factor_descriptions).

Definition _generate_recommendations (decision_data : pyval)
  : exn (list string) :=
  prediction ← py_get decision_data "prediction" (PyStr "unknown");
  match prediction with
  | PyStr "soft_decline" =>
      Ok ["Consider improving credit score through timely bill payments";
          "Reduce existing debt to improve debt-to-income ratio";
          "Provide additional employment verification documents";
          "Consider applying for smaller loan amounts initially"]
  | PyStr "hard_decline" =>
      Ok ["Focus on building credit history";
          "Improve employment stability";
          "Reduce monthly expenses";
          "Consider financial counseling services"]
  | PyStr "approve" =>
      Ok ["Maintain current financial practices";
          "Continue building positive credit history";
          "Consider setting up automatic payments"]
  | _ => Ok []
  end.

Section WithAgents.

(** [repr(v)] *)
Variable py_repr : pyval -> string.
(** [f"{x:.1%}"] *)
Variable format_percent : Q -> string.
(** The [process] methods of the three registered agents. *)
Variables extraction_agent validation_agent eligibility_agent
  : pydict -> exn ProcessingResult.
(** [str(uuid.uuid4())] and [datetime.utcnow().isoformat()]; every
    reading of the clock is the one value [utcnow], and nothing below
    depends on time. *)
Variables (uuid4 utcnow : string).

Definition agents : list (string * (pydict -> exn ProcessingResult)) :=
  [("extraction", extraction_agent);
   ("validation", validation_agent);
   ("eligibility", eligibility_agent)].

(** [sorted(items, key=lambda x: x[1], reverse=True)]: stable, largest
    first. *)
Fixpoint insert_desc (x : string * Q) (l : list (string * Q))
  : list (string * Q) :=
  match l with
  | [] => [x]
  | y :: l' => if Qle_bool x.2 y.2 then y :: insert_desc x l' else x :: l
  end.

Definition sorted_desc (l : list (string * Q)) : list (string * Q) :=
  fold_left (fun acc x => insert_desc x acc) l [].

Definition _generate_decision_explanation (decision_data : pyval)
  : exn string :=
  prediction ← py_get decision_data "prediction" (PyStr "unknown");
  confidence ← py_get decision_data "confidence" (PyFloat 0);
  shap_values ← py_get decision_data "shap_values" (PyDict []);
  confidence ← py_num confidence;
  let explanation :=
    "Based on the analysis, the application has been " +:+
    py_str py_repr prediction +:+ " " +:+
    "with " +:+ format_percent confidence +:+ " confidence. " in
  if truthy shap_values then
    items ← match shap_values with
            | PyDict d => Ok d
            | _ => Raise "AttributeError: object has no attribute 'items'"
            end;
    weights ← mapM (fun '(factor, v) => w ← py_num v; Ok (factor, w)) items;
    let sorted_factors := take 3 (sorted_desc weights) in
    let factor_descriptions :=
      (fun '(factor, importance) =>
         _describe_factor factor +:+ " (" +:+
         format_percent importance +:+ ")") <$> sorted_factors in
    Ok (explanation +:+ "The top contributing factors are: " +:+
        String.concat ", " factor_descriptions +:+ ".")
  else Ok explanation.

Definition error_dict (e : ErrorRecord) : pyval :=
  PyDict [("step", PyStr (step e));
          ("error", match err e with Some m => PyStr m | None => PyNone end);
          ("timestamp", PyStr (timestamp e))].

Definition _aggregate_workflow_results (st : WorkflowState) : exn pydict :=
  let aggregated_result :=
    [("workflow_id", PyStr (workflow_id st));
     ("status", PyStr (status st));
     ("start_time", PyStr (start_time st));
     ("end_time", PyStr (default "" (end_time st)));
     ("total_steps", PyInt (Z.of_nat (total_steps st)));
     ("completed_steps", PyInt (Z.of_nat (length (results st))));
     ("errors", PyList (error_dict <$> errors st))] in
  let aggregated_result :=
    fold_left
      (fun agg '(step_name, result) =>
         Dict.set (step_name +:+ "_result") result agg)
      (results st) aggregated_result in
  if Dict.mem "eligibility_result" (results st) then
    eligibility_data ← py_getitem (PyDict (results st)) "eligibility_result";
    has_decision ← py_in "decision" eligibility_data;
    if has_decision : bool then
      decision_data ← py_getitem eligibility_data "decision";
      decision ← py_getitem decision_data "prediction";
      confidence ← py_getitem decision_data "confidence";
      explanation ← _generate_decision_explanation decision_data;
      recommendations ← _generate_recommendations decision_data;
      Ok (Dict.set "final_decision"
            (PyDict [("decision", decision);
                     ("confidence", confidence);
                     ("explanation", PyStr explanation);
                     ("recommendations", PyList (PyStr <$> recommendations))])
            aggregated_result)
    else Ok aggregated_result
  else Ok aggregated_result.

(** The loop of [_calculate_workflow_confidence]:
    [(total_confidence, step_count)] over the stored stage payloads. *)
Fixpoint sum_confidences (rs : pydict) (acc : Q * nat) : exn (Q * nat) :=
  match rs with
  | [] => Ok acc
  | (step_name, result) :: rs' =>
      has_confidence ← py_in "confidence" result;
      if has_confidence : bool then
        c ← py_getitem result "confidence";
        c ← py_num c;
        sum_confidences rs' ((acc.1 + c)%Q, S acc.2)
      else sum_confidences rs' acc
  end.

Definition error_penalty (st : WorkflowState) : Q :=
  Qmin (inject_Z (Z.of_nat (length (errors st))) * 0.1) 0.3.

Definition _calculate_workflow_confidence (st : WorkflowState) : exn Q :=
  match results st with
  | [] => Ok 0%Q
  | _ =>
      '(total_confidence, step_count) ← sum_confidences (results st) (0%Q, 0%nat);
      if (step_count =? 0)%nat then Ok 0%Q
      else
        let avg_confidence :=
          (total_confidence / inject_Z (Z.of_nat step_count))%Q in
        let final_confidence := (avg_confidence - error_penalty st)%Q in
        Ok (clamp01 final_confidence)
  end.

Definition _execute_agent_step (step_name : string) (input_data : pydict)
    (st : WorkflowState) : ProcessingResult * WorkflowState :=
  match Dict.get step_name agents with
  | None =>
      (BaseAgent.create_error_result
         ("Agent " +:+ step_name +:+ " not found"), st)
  | Some agent =>
      let step_input := _prepare_step_input step_name input_data st in
      let outcome := agent step_input in
      (try_except outcome
         (fun e => BaseAgent.create_error_result
                     ("Step execution failed: " +:+ e)),
       append_call (mkCall step_name step_input outcome) st)
  end.

(** Recording an error and consulting the fail-fast policy; the flag
    says whether the loop is left ([break]). *)
Definition record_error (step_name : string) (msg : option string)
    (policy_arg : string) (st : WorkflowState) : WorkflowState * bool :=
  let st := append_error (mkError step_name msg utcnow) st in
  if negb (_should_continue_after_error step_name policy_arg)
  then (set_status "failed" st, true)
  else (st, false).

(** One iteration of the loop over [workflow_steps], [try]/[except]
    included. *)
Definition run_step (step_idx : nat) (step_name : string)
    (input_data : pydict) (st : WorkflowState)
  : pydict * WorkflowState * bool :=
  let st := set_position (step_idx + 1) ("processing_" +:+ step_name) st in
  let '(step_result, st) := _execute_agent_step step_name input_data st in
  let '(st, stop) :=
    if success step_result
    then (set_result step_name (data_value step_result) st, false)
    else record_error step_name (error step_result)
           (default "" (error step_result)) st in
  if stop : bool then (input_data, st, true)
  else
    match _prepare_input_for_next_step step_name step_result input_data with
    | Ok next_input => (next_input, st, false)
    | Raise e =>
        let error_msg :=
          "Unexpected error in step " +:+ step_name +:+ ": " +:+ e in
        let '(st, stop) :=
          record_error step_name (Some error_msg) error_msg st in
        (input_data, st, stop)
    end.

Fixpoint run_steps (steps : list (nat * string)) (input_data : pydict)
    (st : WorkflowState) : pydict * WorkflowState :=
  match steps with
  | [] => (input_data, st)
  | (step_idx, step_name) :: steps' =>
      let '(input_data, st, stop) :=
        run_step step_idx step_name input_data st in
      if stop : bool then (input_data, st)
      else run_steps steps' input_data st
  end.

(** [enumerate(l)] *)
Definition enumerate {A} (l : list A) : list (nat * A) :=
  zip (seq 0 (length l)) l.

Definition initial_state : WorkflowState :=
  {| workflow_id := uuid4; start_time := utcnow; end_time := None;
     current_step := 0; total_steps := length workflow_steps;
     results := []; errors := []; status := "processing"; calls := [] |}.

(** The workflow state when [process] reaches "Aggregate results". *)
Definition final_state (input_data : pydict) : WorkflowState :=
  let '(_, st) := run_steps (enumerate workflow_steps) input_data
                    initial_state in
  let st := set_end_time utcnow st in
  set_status (_determine_final_status st) st.

Definition process (input_data : pydict) : ProcessingResult :=
  try_except
    (let st := final_state input_data in
     final_result ← _aggregate_workflow_results st;
     if str_in (status st) ["failed"; "completed_with_errors"] then
       Ok (BaseAgent.create_error_result
             ("Workflow completed with errors: " +:+ status st))
     else
       confidence ← _calculate_workflow_confidence st;
       Ok (BaseAgent.create_success_result final_result confidence))
    (fun e => BaseAgent.create_error_result
                ("Workflow execution failed: " +:+ e)).

End WithAgents.

End MasterAgent.


(** ** [ExtractionAgent]: consolidation of the per-document payloads *)

Module ExtractionAgent.

(** The ['content_type'] entries the four extractors ([_extract_from_pdf],
    [_extract_from_image], [_extract_from_excel], [_extract_from_text])
    put in their payloads. *)
Definition content_types : list string := ["pdf"; "image"; "excel"; "text"].

(** The [consolidated] dict while the loop of [_consolidate_data] runs;
    ['total_documents'] is fixed before the loop. *)
Record Consolidated : Type := mkConsolidated {
  document_types : list pyval;
  all_text_content : list pyval;
  structured_data : list (string * list pyval);
  confidence_scores : list pyval
}.

(** [for key, value in data['structured_data'].items()] *)
Definition merge_structured (items : pydict)
    (merged : list (string * list pyval)) : list (string * list pyval) :=
  fold_left
    (fun merged '(key, value) =>
       let current := default [] (Dict.get key merged) in
       Dict.set key
         (match value with
          | PyList l => current ++ l
          | _ => current ++ [value]
          end)
         merged)
    items merged.

(** The body of the loop [for data in extracted_data]. *)
Definition consolidate_one (acc : Consolidated) (data : pyval)
  : exn Consolidated :=
  content_type ← py_get data "content_type" (PyStr "unknown");
  raw_text ← py_get data "raw_text" (PyStr "");
  confidence ← py_get data "confidence" (PyFloat 0);
  has_structured ← py_in "structured_data" data;
  merged ←
    (if has_structured : bool then
       structured ← py_getitem data "structured_data";
       match structured with
       | PyDict items => Ok (merge_structured items (structured_data acc))
       | _ => Raise "AttributeError: object has no attribute 'items'"
       end
     else Ok (structured_data acc));
  Ok {| document_types := document_types acc ++ [content_type];
        all_text_content := all_text_content acc ++ [raw_text];
        structured_data := merged;
        confidence_scores := confidence_scores acc ++ [confidence] |}.

Fixpoint consolidate_all (acc : Consolidated) (extracted_data : list pyval)
  : exn Consolidated :=
  match extracted_data with
  | [] => Ok acc
  | data :: rest =>
      acc' ← consolidate_one acc data;
      consolidate_all acc' rest
  end.

Definition _consolidate_data (extracted_data : list pyval) : exn pydict :=
  acc ← consolidate_all (mkConsolidated [] [] [] []) extracted_data;
  Ok [("total_documents", PyInt (Z.of_nat (length extracted_data)));
      ("document_types", PyList (document_types acc));
      ("all_text_content", PyList (all_text_content acc));
      ("structured_data",
       PyDict ((fun kv => (kv.1, PyList kv.2)) <$> structured_data acc));
      ("confidence_scores", PyList (confidence_scores acc))].

Section WithExtractors.

Variable py_repr : pyval -> string.
(** [Path(file_path).exists()]; it raises on a value that is no path. *)
Variable path_exists : pyval -> exn bool.
(** The four extractors read the file with PyPDF2, PIL, pytesseract and
    openpyxl; each catches its own exceptions and returns a result. *)
Variable _extract_from_pdf : pyval -> ProcessingResult.
Variable _extract_from_image : pyval -> ProcessingResult.
Variable _extract_from_excel : pyval -> ProcessingResult.
Variable _extract_from_text : pyval -> ProcessingResult.

Definition _process_document (document : pyval) : ProcessingResult :=
  try_except
    (file_path ← py_get document "file_path" PyNone;
     file_type ← py_get document "file_type" (PyStr "");
     file_type ←
       match file_type with
       | PyStr s => Ok (str_lower s)
       | _ => Raise "AttributeError: object has no attribute 'lower'"
       end;
     missing ←
       (if negb (truthy file_path) then Ok true
        else found ← path_exists file_path; Ok (negb found));
     if missing : bool then
       Ok (BaseAgent.create_error_result
             ("File not found: " +:+ py_str py_repr file_path))
     else if String.eqb file_type "pdf" then
       Ok (_extract_from_pdf file_path)
     else if str_in file_type ["png"; "jpg"; "jpeg"] then
       Ok (_extract_from_image file_path)
     else if str_in file_type ["xlsx"; "xls"] then
       Ok (_extract_from_excel file_path)
     else if String.eqb file_type "txt" then
       Ok (_extract_from_text file_path)
     else
       Ok (BaseAgent.create_error_result
             ("Unsupported file type: " +:+ file_type)))
    (fun e =>
       BaseAgent.create_error_result
         ("Document processing failed: " +:+ e)).

(** The loop [for doc in documents]: the payloads of the documents
    that were processed and the sum of their confidences. *)
Definition process_documents (documents : list pyval)
  : list pyval * Q :=
  fold_left
    (fun '(extracted_data, total_confidence) doc =>
       let doc_result := _process_document doc in
       if success doc_result
       then (extracted_data ++ [data_value doc_result],
             (total_confidence + confidence_score doc_result)%Q)
       else (extracted_data, total_confidence))
    documents ([], 0%Q).

Definition process (input_data : pydict) : ProcessingResult :=
  try_except
    (let documents :=
       default (PyList []) (Dict.get "documents" input_data) in
     if negb (truthy documents) then
       Ok (BaseAgent.create_error_result "No documents provided")
     else
       documents ← py_iter documents;
       let '(extracted_data, total_confidence) :=
         process_documents documents in
       match extracted_data with
       | [] =>
           Ok (BaseAgent.create_error_result
                 "Failed to extract data from any documents")
       | _ =>
           let avg_confidence :=
             (total_confidence
              / inject_Z (Z.of_nat (length extracted_data)))%Q in
           consolidated_data ← _consolidate_data extracted_data;
           Ok (BaseAgent.create_success_result consolidated_data
                 avg_confidence)
       end)
    (fun e => BaseAgent.create_error_result ("Extraction failed: " +:+ e)).

End WithExtractors.

End ExtractionAgent.

(** ** [EligibilityAgent]: feature engineering and labelling rules *)

Module EligibilityAgent.

(** [v >= bound] on numbers. *)
Definition at_least (bound v : Q) : bool := Qle_bool bound v.

Definition _calculate_income_stability (data : pydict) : exn Q :=
  employment_length ←
    py_num (default (PyInt 0) (Dict.get "employment_length_months" data));
  Ok (if at_least 24 employment_length then 0.2
      else if at_least 12 employment_length then 0.5
      else 0.8)%Q.

Definition _calculate_employment_stability (data : pydict) : exn Q :=
  employment_length ←
    py_num (default (PyInt 0) (Dict.get "employment_length_months" data));
  Ok (if at_least 36 employment_length then 0.1
      else if at_least 18 employment_length then 0.3
      else if at_least 6 employment_length then 0.6
      else 0.9)%Q.

(** [data.get('family_size', 1) * 200] repeats a string or a list; the
    product is then no number and the division raises when it is
    reached. *)
Definition _calculate_debt_to_income_ratio (data : pydict) : exn Q :=
  let monthly_income := default (PyInt 1) (Dict.get "monthly_income" data) in
  let family_size := default (PyInt 1) (Dict.get "family_size" data) in
  estimated_monthly_debt ←
    match family_size with
    | PyStr _ | PyList _ => Ok None
    | _ => size ← py_num family_size; Ok (Some (size * 200)%Q)
    end;
  income ← py_num monthly_income;
  if negb (Qle_bool income 0) then
    match estimated_monthly_debt with
    | Some debt => Ok (Qmin (debt / income) 1)
    | None => Raise "TypeError: unsupported operand type(s) for /"
    end
  else Ok 1%Q.

Definition _estimate_credit_score (data : pydict) : exn Z :=
  let base_score := 650%Z in
  employment_length ←
    py_num (default (PyInt 0) (Dict.get "employment_length_months" data));
  let base_score :=
    (if at_least 24 employment_length then base_score + 50
     else if at_least 12 employment_length then base_score + 25
     else base_score)%Z in
  monthly_income ←
    py_num (default (PyInt 0) (Dict.get "monthly_income" data));
  let base_score :=
    (if at_least 4000 monthly_income then base_score + 30
     else if at_least 2500 monthly_income then base_score + 15
     else base_score)%Z in
  Ok (Z.max 300 (Z.min 850 base_score)).

Definition _calculate_balance_consistency (data : pydict) : exn Q :=
  employment_length ←
    py_num (default (PyInt 0) (Dict.get "employment_length_months" data));
  Ok (if at_least 24 employment_length then 0.8
      else if at_least 12 employment_length then 0.6
      else 0.4)%Q.

(** One row of the feature matrix, in the order of [feature_names]. *)
Record Features : Type := mkFeatures {
  monthly_income : Q;
  employment_length_months : Q;
  family_size : Q;
  dependents : Q;
  income_stability : Q;
  employment_stability : Q;
  debt_to_income_ratio : Q;
  credit_score : Q;
  monthly_balance_consistency : Q
}.

(** The body of the loop of [_generate_labels] for one row. *)
Definition rule_score (features : Features) : Z :=
  let score := 0%Z in
  let score :=
    (if at_least 2500 (monthly_income features) then score + 2
     else if at_least 1500 (monthly_income features) then score + 1
     else score)%Z in
  let score :=
    (if at_least 24 (employment_length_months features) then score + 2
     else if at_least 12 (employment_length_months features) then score + 1
     else score)%Z in
  let score :=
    (if at_least 700 (credit_score features) then score + 2
     else if at_least 600 (credit_score features) then score + 1
     else score)%Z in
  let score :=
    (if negb (at_least 0.3 (debt_to_income_ratio features)) then score + 2
     else if negb (at_least 0.5 (debt_to_income_ratio features))
          then score + 1
     else score)%Z in
  let score :=
    (if negb (Qle_bool (monthly_balance_consistency features) 0.7)
     then score + 1 else score)%Z in
  score.

Definition label (features : Features) : Z :=
  let score := rule_score features in
  if (6 <=? score)%Z then 2
  else if (4 <=? score)%Z then 1
  else 0.

Definition _generate_labels (X : list Features) : list Z := label <$> X.

Section WithConversions.

(** [float(s)] and [int(s)] on a string; [None] stands for
    [ValueError]. *)
Variable py_float : string -> option Q.
Variable py_int : string -> option Z.

Definition float_of (v : pyval) : exn Q :=
  match v with
  | PyStr s =>
      match py_float s with
      | Some x => Ok x
      | None => Raise "ValueError: could not convert string to float"
      end
  | PyBool _ | PyInt _ | PyFloat _ => py_num v
  | _ => Raise "TypeError: float() argument must be a string or a real number"
  end.

Definition int_of (v : pyval) : exn Z :=
  match v with
  | PyStr s =>
      match py_int s with
      | Some n => Ok n
      | None => Raise "ValueError: invalid literal for int() with base 10"
      end
  | PyBool b => Ok (if b then 1 else 0)%Z
  | PyInt n => Ok n
  | PyFloat x => Ok (Z.quot (Qnum x) (Z.pos (Qden x)))
  | _ => Raise "TypeError: int() argument must be a string, a bytes-like object or a real number"
  end.

Definition _engineer_features (input_data : pydict) : exn Features :=
  monthly_income ←
    float_of (default (PyInt 0) (Dict.get "monthly_income" input_data));
  employment_length_months ←
    int_of (default (PyInt 0)
              (Dict.get "employment_length_months" input_data));
  family_size ←
    int_of (default (PyInt 1) (Dict.get "family_size" input_data));
  dependents ←
    int_of (default (PyInt 0) (Dict.get "dependents" input_data));
  income_stability ← _calculate_income_stability input_data;
  employment_stability ← _calculate_employment_stability input_data;
  debt_to_income_ratio ← _calculate_debt_to_income_ratio input_data;
  credit_score ← _estimate_credit_score input_data;
  monthly_balance_consistency ←
    _calculate_balance_consistency input_data;
  Ok {| monthly_income := monthly_income;
        employment_length_months := inject_Z employment_length_months;
        family_size := inject_Z family_size;
        dependents := inject_Z dependents;
        income_stability := income_stability;
        employment_stability := employment_stability;
        debt_to_income_ratio := debt_to_income_ratio;
        credit_score := inject_Z credit_score;
        monthly_balance_consistency := monthly_balance_consistency |}.

End WithConversions.

End EligibilityAgent.

(** ** The application endpoint: what it hands to the pipeline and what it
    reads from the result *)

Module Api.

(** The form fields of [ingest_application]. *)
Record ApplicationForm : Type := mkForm {
  first_name : string;
  last_name : string;
  date_of_birth : string;
  email : string;
  phone : string;
  street_address : string;
  city : string;
  state : string;
  postal_code : string;
  country : string;
  monthly_income : Q;
  employment_status : string;
  employer_name : option string;
  employment_length_months : option Z;
  family_size : Z;
  dependents : Z
}.

Definition optional {A} (f : A -> pyval) (o : option A) : pyval :=
  match o with
  | Some a => f a
  | None => PyNone
  end.

Definition processing_data (form : ApplicationForm) (documents : list pyval)
  : pydict :=
  [("application_data",
    PyDict
      [("first_name", PyStr (first_name form));
       ("last_name", PyStr (last_name form));
       ("date_of_birth", PyStr (date_of_birth form));
       ("email", PyStr (email form));
       ("phone", PyStr (phone form));
       ("street_address", PyStr (street_address form));
       ("city", PyStr (city form));
       ("state", PyStr (state form));
       ("postal_code", PyStr (postal_code form));
       ("country", PyStr (country form));
       ("monthly_income", PyFloat (monthly_income form));
       ("employment_status", PyStr (employment_status form));
       ("employer_name", optional PyStr (employer_name form));
       ("employment_length_months",
        optional PyInt (employment_length_months form));
       ("family_size", PyInt (family_size form));
       ("dependents", PyInt (dependents form))]);
   ("documents", PyList documents)].

(** [value == s] for a string literal [s]. *)
Definition is_str (s : string) (v : pyval) : bool :=
  match v with
  | PyStr s' => String.eqb s' s
  | _ => false
  end.

Definition workflow_has_errors (workflow_result : ProcessingResult)
  : exn bool :=
  final_status ← py_get (data_value workflow_result) "final_status" PyNone;
  if is_str "failed" final_status then Ok true else
  final_status ← py_get (data_value workflow_result) "final_status" PyNone;
  if is_str "completed_with_errors" final_status then Ok true else
  total_errors ← py_get (data_value workflow_result) "total_errors" (PyInt 0);
  total_errors ← py_num total_errors;
  Ok (negb (Qle_bool total_errors 0)).

(** The ["decision"] entry of the response when the workflow completed
    without errors; [None] when the endpoint falls back to its own
    checks. *)
Definition reported_decision (workflow_result : ProcessingResult)
  : exn (option pyval) :=
  has_errors ← workflow_has_errors workflow_result;
  if success workflow_result && negb has_errors then
    final_decision ←
      py_get (data_value workflow_result) "final_decision" (PyDict []);
    decision ← py_get final_decision "decision" (PyStr "unknown");
    Ok (Some decision)
  else Ok None.

End Api.

(** * Vocabulary of the specification *)

Module Vocabulary.
Import MasterAgent.

(** A stage fails when its [process] raises or returns [success = False]. *)
Definition stage_fails (o : exn ProcessingResult) : bool :=
  match o with
  | Ok r => negb (success r)
  | Raise _ => true
  end.

(** Whether stage [s] was invoked in the run and succeeded or failed. *)
Definition stage_succeeded (s : string) (st : WorkflowState) : bool :=
  existsb (fun c => String.eqb (call_step c) s && negb (stage_fails (call_outcome c)))
    (calls st).
Definition stage_failed (s : string) (st : WorkflowState) : bool :=
  existsb (fun c => String.eqb (call_step c) s && stage_fails (call_outcome c))
    (calls st).

(** The stages invoked, in order. *)
Definition invoked (st : WorkflowState) : list string :=
  call_step <$> calls st.

(** [sum(cs) / len(cs)], summed from the left as the loop does. *)
Definition mean (cs : list Q) : Q :=
  (fold_left Qplus cs 0 / inject_Z (Z.of_nat (length cs)))%Q.

(** The confidence a stored stage payload carries in its ['confidence']
    entry, if it has one. *)
Definition payload_confidence (result : pyval) : option Q :=
  match result with
  | PyDict d =>
      match Dict.get "confidence" d with
      | Some c => match py_num c with Ok q => Some q | Raise _ => None end
      | None => None
      end
  | _ => None
  end.

Definition payload_confidences (st : WorkflowState) : list Q :=
  omap payload_confidence (Dict.values (results st)).

(** The confidences the completed stages reported in their results
    ([ProcessingResult.confidence_score]). *)
Definition stage_confidence (c : Call) : option Q :=
  match call_outcome c with
  | Ok r => if success r then Some (confidence_score r) else None
  | Raise _ => None
  end.

Definition stage_confidences (st : WorkflowState) : list Q :=
  omap stage_confidence (calls st).

(** The pipeline confidence as the specification words it, over a list of
    reported confidences. *)
Definition penalised_mean (cs : list Q) (st : WorkflowState) : Q :=
  match cs with
  | [] => 0
  | _ => clamp01 (mean cs - error_penalty st)
  end.


(** A validation stage whose successful payloads have no top-level
    ['resolved_data'] entry. *)
Definition keeps_resolved_data_nested
    (validation_agent : pydict -> exn ProcessingResult) : Prop :=
  forall x r d,
    validation_agent x = Ok r -> data r = Some d ->
    Dict.get "resolved_data" d = None.

(** The payloads stage [s] was invoked on, in order. *)
Definition stage_inputs (s : string) (st : WorkflowState) : list pydict :=
  call_input <$> filter (fun c => call_step c = s) (calls st).

(** [v[k1][k2]...], [None] when a key is missing on the way. *)
Fixpoint lookup_path (path : list string) (v : pyval) : option pyval :=
  match path with
  | [] => Some v
  | k :: path' =>
      match v with
      | PyDict d =>
          match Dict.get k d with
          | Some v' => lookup_path path' v'
          | None => None
          end
      | _ => None
      end
  end.

Section Reconciliation.

Context (re_search : string -> string -> option string).
Context (py_float : string -> option Q).

(** What the extractor of a field finds in the shared
    ['all_text_content'] list; the document it is asked about plays no
    part, so it is called here on the empty document name. *)
Definition shared_extraction (fld : string) (extracted_data : pyval)
  : exn pyval :=
  if String.eqb fld "name" then
    ValidationAgent._extract_name_from_document re_search "" extracted_data
  else if String.eqb fld "date_of_birth" then
    ValidationAgent._extract_dob_from_document re_search "" extracted_data
  else if String.eqb fld "income" then
    ValidationAgent._extract_income_from_document re_search py_float ""
      extracted_data
  else if String.eqb fld "address" then
    ValidationAgent._extract_address_from_document re_search ""
      extracted_data
  else if String.eqb fld "employment" then
    ValidationAgent._extract_employment_from_document re_search ""
      extracted_data
  else Ok PyNone.

Definition extracted_value (fld : string) (extracted_data : pyval) : pyval :=
  try_except (shared_extraction fld extracted_data) (fun _ => PyNone).

(** The declared value of a field: [application_data.get(field)]. *)
Definition declared_value (fld : string) (application_data : pydict)
  : pyval :=
  default PyNone (Dict.get fld application_data).

(** The observations of one field in a reconciliation run: the
    [field_values] dict [_validate_information] builds for it. *)
Definition observations (fld : string) (sources : list string)
    (application_data : pydict) (extracted_data : pyval) : pydict :=
  fold_left
    (ValidationAgent.add_document_value re_search py_float fld
       extracted_data)
    sources
    (if truthy (declared_value fld application_data)
     then [("application_form", declared_value fld application_data)]
     else []).

Context (py_repr : pyval -> string).
Context (py_lower py_strip : string -> string).

(** The conflict records and the per-field dicts of a run over the
    fields [fields]. *)
Definition run_conflicts (fields : list (string * list string))
    (application_data : pydict) (extracted_data : pyval)
  : list ConflictRecord :=
  flat_map
    (fun '(fld, sources) =>
       ValidationAgent.check_conflicts py_repr py_lower py_strip fld
         (observations fld sources application_data extracted_data) sources)
    fields.

Definition run_validated (fields : list (string * list string))
    (application_data : pydict) (extracted_data : pyval) (acc : pydict)
  : pydict :=
  fold_left
    (fun acc fs =>
       Dict.set fs.1
         (PyDict (observations fs.1 fs.2 application_data extracted_data))
         acc)
    fields acc.

(** Normalization as the specification words it: the value is converted
    to a string, case-folded and trimmed of surrounding whitespace. *)
Definition normalized_value (v : pyval) : string :=
  py_strip (py_lower (py_str py_repr v)).

(** The distinct normalized values over the observations of a field,
    empty values excluded, each listed once. *)
Definition distinct_normalized_values (obs : pydict) : list string :=
  remove_dups (normalized_value <$> List.filter truthy (Dict.values obs)).

End Reconciliation.

(** The conflict records of one field. *)
Definition conflicts_of (fld : string) (cs : list ConflictRecord)
  : list ConflictRecord :=
  filter (fun c => field c = fld) cs.

(** Resolution as the specification words it: the value of the first source
    of the priority order that has a non-empty value; failing that the first
    non-empty observed value; failing that [None]. *)
Definition has_value (vals : pydict) (source : string) : bool :=
  match Dict.get source vals with
  | Some v => truthy v
  | None => false
  end.

Definition resolved_by_priority (vals : pydict) (sources : list string)
  : pyval :=
  match List.find (has_value vals) sources with
  | Some source => default PyNone (Dict.get source vals)
  | None => default PyNone (List.find truthy (Dict.values vals))
  end.

(** ** Further vocabulary: reconciliation *)

(** The fields of the priority table, in table order. *)
Definition field_names : list string := ValidationAgent.field_priorities.*1.

(** Whether the document type [doc] matches the source [doc_type]: the
    test [doc_type.lower() in doc.lower()] of
    [_extract_field_from_documents]. *)
Definition mentions (doc_type doc : string) : bool :=
  str_contains (str_lower doc_type) (str_lower doc).

(** The observations of a field that is declared (or not) and found in no
    document. *)
Definition declared_only (fld : string) (a : pydict) : pydict :=
  if truthy (declared_value fld a)
  then [("application_form", declared_value fld a)] else [].

(** Every source named in the priority table. *)
Definition table_sources : list string :=
  ["application_form"; "government_id"; "bank_statement"; "pay_stub";
   "tax_return"; "utility_bill"].

(** ** Further vocabulary: the pipeline *)

(** The entries the orchestrator itself writes into a stage's input. *)
Definition orchestrator_keys : list string :=
  ["workflow_context"; "extraction"; "extraction_result"; "extracted_data";
   "validation"; "validation_result"; "validated_application_data"].

(** ** Further vocabulary: extraction *)

(** The content type [_consolidate_data] records for a payload. *)
Definition recorded_type (data : pyval) : pyval :=
  match data with
  | PyDict d => default (PyStr "unknown") (Dict.get "content_type" d)
  | _ => PyNone
  end.

(** An extractor whose successful results carry a payload tagged with the
    content type [ct]. *)
Definition tags_payloads (extractor : pyval -> ProcessingResult)
    (ct : string) : Prop :=
  forall path, success (extractor path) = true ->
    exists d, data (extractor path) = Some d /\
              Dict.get "content_type" d = Some (PyStr ct).

(** The results of the documents that were processed successfully. *)
Definition processed (process_document : pyval -> ProcessingResult)
    (documents : list pyval) : list ProcessingResult :=
  List.filter success (process_document <$> documents).

(** ** Further vocabulary: eligibility features *)

(** The entries of the input the feature engineering reads. *)
Definition feature_keys : list string :=
  ["monthly_income"; "employment_length_months"; "family_size"; "dependents"].

(** The feature row of an input without any of the [feature_keys]. *)
Definition default_features : EligibilityAgent.Features :=
  EligibilityAgent.mkFeatures 0 0 1 0 0.8 0.9 1 650 0.4.

(** The value a feature helper reads under [key], as a number. *)
Definition reading (key : string) (dflt : Z) (data : pydict) : exn Q :=
  py_num (default (PyInt dflt) (Dict.get key data)).

(** [f'] is at least as good as [f] in each of the five features the
    labelling rules read. *)
Definition at_least_as_good (f f' : EligibilityAgent.Features) : Prop :=
  (EligibilityAgent.monthly_income f
   <= EligibilityAgent.monthly_income f')%Q /\
  (EligibilityAgent.employment_length_months f
   <= EligibilityAgent.employment_length_months f')%Q /\
  (EligibilityAgent.credit_score f <= EligibilityAgent.credit_score f')%Q /\
  (EligibilityAgent.debt_to_income_ratio f'
   <= EligibilityAgent.debt_to_income_ratio f)%Q /\
  (EligibilityAgent.monthly_balance_consistency f
   <= EligibilityAgent.monthly_balance_consistency f')%Q.

End Vocabulary.

(** * Sample instances

    Concrete stand-ins for the library parameters and for the agents, used
    to run the definitions on examples. The matcher covers the shape the
    fifteen patterns of the reconciliation engine have: a literal prefix,
    then character classes with greedy bounded repetition, the last ones
    forming group 1. *)

Module Sample.

(** A character class with its repetition bounds [{lo,hi}]. *)
Definition item : Type := (Ascii.ascii -> bool) * nat * option nat.

Definition code (c : Ascii.ascii) : N := Ascii.N_of_ascii c.

Definition is_digit (c : Ascii.ascii) : bool :=
  ((48 <=? code c) && (code c <=? 57))%N.
Definition is_alpha (c : Ascii.ascii) : bool :=
  (((65 <=? code c) && (code c <=? 90))
   || ((97 <=? code c) && (code c <=? 122)))%N.
Definition is_char (n : N) (c : Ascii.ascii) : bool := (code c =? n)%N.

Definition once (p : Ascii.ascii -> bool) : item := (p, 1, Some 1).
Definition optional (p : Ascii.ascii -> bool) : item := (p, 0, Some 1).
Definition star (p : Ascii.ascii -> bool) : item := (p, 0, None).
Definition plus (p : Ascii.ascii -> bool) : item := (p, 1, None).
Definition between (lo hi : nat) (p : Ascii.ascii -> bool) : item :=
  (p, lo, Some hi).

(** A literal under [re.IGNORECASE]. *)
Definition literal (s : string) : list item :=
  (fun c => once (fun x => Ascii.eqb (ascii_lower x) (ascii_lower c)))
    <$> String.list_ascii_of_string s.

(** Greedy repetition with backtracking: take one more character when
    allowed, and fall back to stopping here. *)
Fixpoint repetition {R} (p : Ascii.ascii -> bool) (lo : nat)
    (hi : option nat) (s : list Ascii.ascii)
    (k : list Ascii.ascii -> option R) : option R :=
  let stop := match lo with O => k s | S _ => None end in
  match s with
  | c :: s' =>
      if p c && match hi with Some O => false | _ => true end then
        match repetition p (pred lo) (pred <$> hi) s' k with
        | Some r => Some r
        | None => stop
        end
      else stop
  | [] => stop
  end.

Fixpoint sequence {R} (items : list item) (s : list Ascii.ascii)
    (k : list Ascii.ascii -> option R) : option R :=
  match items with
  | [] => k s
  | (p, lo, hi) :: items' =>
      repetition p lo hi s (fun s' => sequence items' s' k)
  end.

(** A match of [prefix] followed by [group] that starts here; the text of
    the group. *)
Definition match_here (prefix group : list item) (s : list Ascii.ascii)
  : option string :=
  sequence prefix s (fun s1 =>
    sequence group s1 (fun s2 =>
      Some (String.string_of_list_ascii
              (take (length s1 - length s2) s1)))).

(** The leftmost match. *)
Fixpoint search (prefix group : list item) (s : list Ascii.ascii)
  : option string :=
  match match_here prefix group s with
  | Some g => Some g
  | None =>
      match s with
      | [] => None
      | _ :: s' => search prefix group s'
      end
  end.

Definition compiled (prefixes : list string) (patterns : list string)
    (before group : list item)
  : list (string * (list item * list item)) :=
  (fun '(pattern, prefix) =>
     (pattern, (literal prefix ++ star is_space :: before, group)))
    <$> zip patterns prefixes.

Definition date_group : list item :=
  [between 1 2 is_digit; once (fun c => is_char 47 c || is_char 45 c);
   between 1 2 is_digit; once (fun c => is_char 47 c || is_char 45 c);
   between 2 4 is_digit].

Definition amount_group : list item :=
  [plus (fun c => is_digit c || is_char 44 c); optional (is_char 46);
   star is_digit].

Definition line_group : list item := [plus (fun c => negb (is_char 10 c))].

Definition pattern_table : list (string * (list item * list item)) :=
  compiled ["Name:"; "Full Name:"; "Applicant:"]
    ValidationAgent.name_patterns []
    [plus (fun c => is_alpha c || is_space c)]
  ++ compiled ["Date of Birth:"; "DOB:"; "Birth Date:"]
       ValidationAgent.dob_patterns [] date_group
  ++ compiled ["Monthly Income:"; "Income:"; "Salary:"]
       ValidationAgent.income_patterns [optional (is_char 36)] amount_group
  ++ compiled ["Address:"; "Street Address:"; "Residence:"]
       ValidationAgent.address_patterns [] line_group
  ++ compiled ["Employer:"; "Company:"; "Workplace:"]
       ValidationAgent.employment_patterns [] line_group.

Definition re_search (pattern text : string) : option string :=
  match Dict.get pattern pattern_table with
  | Some (prefix, group) =>
      search prefix group (String.list_ascii_of_string text)
  | None => None
  end.

(** [float(s)] on plain decimals: digits with at most one point. *)
Fixpoint decimal (s : list Ascii.ascii) (num : Z) (scale : option positive)
    (seen_digit : bool) : option Q :=
  match s with
  | [] =>
      if seen_digit then Some (Qred (Qmake num (default 1%positive scale)))
      else None
  | c :: s' =>
      if is_digit c then
        decimal s' (10 * num + Z.of_N (code c - 48))
          ((fun p => (10 * p)%positive) <$> scale) true
      else if is_char 46 c then
        match scale with
        | None => decimal s' num (Some 1%positive) seen_digit
        | Some _ => None
        end
      else None
  end.

Definition py_float (s : string) : option Q :=
  decimal (String.list_ascii_of_string s) 0 None false.

(** [repr(v)], exact on [None], booleans, integers and floats with an
    integer value. *)
Definition py_repr (v : pyval) : string :=
  match v with
  | PyNone => "None"
  | PyBool true => "True"
  | PyBool false => "False"
  | PyInt n => pretty n
  | PyFloat x =>
      match Qred x with
      | Qmake n 1 => pretty n +:+ ".0"
      | Qmake n d => pretty n +:+ "/" +:+ pretty (Zpos d)
      end
  | PyStr s => "'" +:+ s +:+ "'"
  | PyList _ => "[...]"
  | PyDict _ => "{...}"
  end.

(** [f"{x:.1%}"], rounding half up. *)
Definition format_percent (x : Q) : string :=
  let tenths := Qfloor (x * 1000 + 0.5)%Q in
  pretty (tenths / 10)%Z +:+ "." +:+ pretty (tenths mod 10)%Z +:+ "%".

(** Agents with a fixed answer. *)
(** [s.lower()] and [s.strip()], exact on ASCII text. *)
Definition py_lower : string -> string := str_lower.
Definition py_strip : string -> string := str_strip.

Definition returns (r : ProcessingResult) : pydict -> exn ProcessingResult :=
  fun _ => Ok r.
Definition raises (msg : string) : pydict -> exn ProcessingResult :=
  fun _ => Raise msg.

(** The repository's validation agent as a stage. *)
Definition validation_agent (input_data : pydict) : exn ProcessingResult :=
  Ok (ValidationAgent.process re_search py_float py_repr py_lower py_strip
        input_data).

(** An extraction payload in the shape
    [ExtractionAgent._consolidate_data] builds, for one document tagged
    as a bank statement. *)
Definition bank_statement : pydict :=
  [("total_documents", PyInt 1);
   ("document_types", PyList [PyStr "bank_statement"]);
   ("all_text_content",
    PyList [PyStr "Name: John Doe, Monthly Income: $4,800"]);
   ("structured_data", PyDict []);
   ("confidence_scores", PyList [PyFloat 0])].

(** An eligibility payload in the shape [EligibilityAgent.process]
    returns on success. *)
Definition approval : pydict :=
  [("decision",
    PyDict [("prediction", PyStr "approve");
            ("confidence", PyFloat 0.8);
            ("probability_scores", PyDict [("approve", PyFloat 0.8)]);
            ("features", PyList [PyStr "monthly_income"]);
            ("shap_values", PyDict [("monthly_income", PyFloat 0.5)])]);
   ("model_version", PyStr "1.0.0");
   ("features_used", PyList [PyStr "monthly_income"])].

(** The declared record: the name agrees with the statement, the income
    does not, and the address is observed nowhere else. *)
Definition declared : pydict :=
  [("name", PyStr "John Doe");
   ("income", PyInt 5000);
   ("address", PyStr "12 Main Street")].

Definition application : pydict :=
  [("application_data", PyDict declared);
   ("documents", PyList [PyDict [("file_path", PyStr "statement.pdf");
                                 ("file_type", PyStr "pdf")]])].

Definition extracted : pydict -> exn ProcessingResult :=
  returns (BaseAgent.create_success_result bank_statement 0.9).
Definition no_documents : pydict -> exn ProcessingResult :=
  returns (BaseAgent.create_error_result "No documents provided").
Definition approved : pydict -> exn ProcessingResult :=
  returns (BaseAgent.create_success_result approval 0.8).
Definition model_failure : pydict -> exn ProcessingResult :=
  raises "model file is corrupt".

Definition final_state
    (extraction_agent eligibility_agent : pydict -> exn ProcessingResult)
    (input_data : pydict) : MasterAgent.WorkflowState :=
  MasterAgent.final_state extraction_agent validation_agent
    eligibility_agent "workflow-1" "2024-01-01T00:00:00" input_data.

Definition process
    (extraction_agent eligibility_agent : pydict -> exn ProcessingResult)
    (input_data : pydict) : ProcessingResult :=
  MasterAgent.process py_repr format_percent extraction_agent
    validation_agent eligibility_agent "workflow-1" "2024-01-01T00:00:00"
    input_data.

Definition reconcile (application_data : pydict) (extracted_data : pydict)
  : exn ValidationResult :=
  ValidationAgent.reconcile re_search py_float py_repr py_lower py_strip
    (PyDict application_data) (PyDict extracted_data).

Definition observations (fld : string) (sources : list string) : pydict :=
  Vocabulary.observations re_search py_float fld sources declared
    (PyDict bank_statement).

(** A declared record whose name differs from the statement's in case
    and surrounding blanks only. *)
Definition shouted : pydict :=
  [("name", PyStr "  JOHN DOE ")].

(** Two conflict records as a caller of the resolver may build them: in
    the first no source of the priority order has a value and a stray
    source has one, in the second every value is empty. *)
Definition stray_record : ConflictRecord :=
  mkConflict "address"
    [("application_form", PyStr ""); ("pay_stub", PyStr "");
     ("bank_statement", PyStr "5 Side Road");
     ("tax_return", PyStr "7 Back Lane")]
    ["government_id"; "utility_bill"; "application_form"].
Definition blank_record : ConflictRecord :=
  mkConflict "address"
    [("application_form", PyStr ""); ("pay_stub", PyNone)]
    ["government_id"; "utility_bill"; "application_form"].

Definition name_sources : list string :=
  ["application_form"; "government_id"; "bank_statement"].
Definition income_sources : list string :=
  ["bank_statement"; "pay_stub"; "tax_return"; "application_form"].
Definition address_sources : list string :=
  ["government_id"; "utility_bill"; "application_form"].

End Sample.


(** * Sample uploads and applicants

    Two readable files (a text file and a PDF), one upload that is missing
    on disk and one of an unsupported type; the image and spreadsheet
    extractors fail as they do when their libraries cannot open the
    file. *)

Module Upload.

Definition path_exists (path : pyval) : exn bool :=
  match path with
  | PyStr s => Ok (str_in s ["uploads/statement.txt"; "uploads/id.pdf";
                             "uploads/notes.docx"; "uploads/scan.png"])
  | _ => Raise "TypeError: expected str, bytes or os.PathLike object"
  end.

Definition text_payload : pydict :=
  [("content_type", PyStr "text");
   ("raw_text", PyStr "Name: John Doe, Monthly Income: $4,800");
   ("structured_data",
    PyDict [("names", PyList [PyStr "John Doe"]);
            ("amounts", PyList [PyStr "4,800"])]);
   ("text_analysis", PyDict [("relevance_score", PyInt 60)])].

Definition pdf_payload : pydict :=
  [("content_type", PyStr "pdf");
   ("raw_text", PyStr "Name: John Doe");
   ("structured_data",
    PyDict [("names", PyList [PyStr "John Doe"]);
            ("dates", PyStr "1990-01-01")]);
   ("pages", PyInt 1);
   ("pdf_analysis", PyDict [("relevance_score", PyInt 40)])].

Definition _extract_from_text (path : pyval) : ProcessingResult :=
  BaseAgent.create_success_result text_payload 0.9.
Definition _extract_from_pdf (path : pyval) : ProcessingResult :=
  BaseAgent.create_success_result pdf_payload 0.9.
Definition _extract_from_image (path : pyval) : ProcessingResult :=
  BaseAgent.create_error_result
    "Image processing failed: cannot identify image file".
Definition _extract_from_excel (path : pyval) : ProcessingResult :=
  BaseAgent.create_error_result
    "Excel extraction failed: File is not a zip file".

Definition statement : pyval :=
  PyDict [("file_path", PyStr "uploads/statement.txt");
          ("file_type", PyStr "txt")].
Definition identity_card : pyval :=
  PyDict [("file_path", PyStr "uploads/id.pdf"); ("file_type", PyStr "PDF")].
Definition lost : pyval :=
  PyDict [("file_path", PyStr "uploads/lost.pdf");
          ("file_type", PyStr "pdf")].
Definition notes : pyval :=
  PyDict [("file_path", PyStr "uploads/notes.docx");
          ("file_type", PyStr "docx")].
Definition scan : pyval :=
  PyDict [("file_path", PyStr "uploads/scan.png");
          ("file_type", PyStr "png")].

Definition documents : list pyval :=
  [statement; lost; identity_card; notes; scan].

Definition input : pydict := [("documents", PyList documents)].

Definition _process_document : pyval -> ProcessingResult :=
  ExtractionAgent._process_document Sample.py_repr path_exists
    _extract_from_pdf _extract_from_image _extract_from_excel
    _extract_from_text.

Definition process : pydict -> ProcessingResult :=
  ExtractionAgent.process Sample.py_repr path_exists
    _extract_from_pdf _extract_from_image _extract_from_excel
    _extract_from_text.

(** The repository's extraction agent as a stage. *)
Definition extraction_agent (input_data : pydict) : exn ProcessingResult :=
  Ok (process input_data).

(** A payload whose only document has an unmatched type. *)
Definition text_only : pydict :=
  [("total_documents", PyInt 1);
   ("document_types", PyList [PyStr "text"]);
   ("all_text_content",
    PyList [PyStr "Name: John Doe, Monthly Income: $4,800"]);
   ("structured_data", PyDict []);
   ("confidence_scores", PyList [PyFloat 0.9])].

(** [int(s)] on the numerals the samples use. *)
Definition py_int (s : string) : option Z :=
  if String.eqb s "30" then Some 30%Z
  else if String.eqb s "3" then Some 3%Z
  else None.

(** An input of the feature engineering with its entries at the top
    level, and a second one with a longer employment and a higher
    income. *)
Definition applicant : pydict :=
  [("monthly_income", PyInt 2600);
   ("employment_length_months", PyInt 14);
   ("family_size", PyInt 3);
   ("dependents", PyInt 1)].

Definition established_applicant : pydict :=
  [("monthly_income", PyFloat 4800);
   ("employment_length_months", PyInt 30);
   ("family_size", PyInt 3);
   ("dependents", PyInt 1);
   ("application_data", PyDict Sample.declared)].

Definition _engineer_features : pydict -> exn EligibilityAgent.Features :=
  EligibilityAgent._engineer_features Sample.py_float py_int.

(** Two rows of a feature matrix. *)
Definition modest_row : EligibilityAgent.Features :=
  EligibilityAgent.mkFeatures 2600 14 3 1 0.5 0.6 0.4 690 0.6.
Definition strong_row : EligibilityAgent.Features :=
  EligibilityAgent.mkFeatures 4800 30 3 1 0.2 0.3 0.125 730 0.8.

(** A submitted form. *)
Definition form : Api.ApplicationForm :=
  Api.mkForm "John" "Doe" "1990-01-01" "john@example.org" "5550100100"
    "12 Main Street" "Springfield" "IL" "62701" "US" 4800 "employed"
    (Some "Acme") (Some 30%Z) 3 1.

End Upload.
(** * Facts about insertion-ordered dictionaries *)

Module DictFacts.
Section Facts.

Context {V : Type}.
Implicit Types (d : list (string * V)) (k : string) (v : V).

Lemma get_set k k' v d :
  Dict.get k (Dict.set k' v d)
  = if String.eqb k k' then Some v else Dict.get k d.
Proof.
  induction d as [|[k0 v0] d IH]; cbn.
  - by destruct (String.eqb k k').
  - destruct (String.eqb_spec k' k0) as [->|Hne]; cbn.
    + by destruct (String.eqb k k0).
    + rewrite IH. destruct (String.eqb_spec k k0) as [->|]; [|done].
      destruct (String.eqb_spec k0 k'); congruence.
Qed.

Lemma get_set_eq k v d : Dict.get k (Dict.set k v d) = Some v.
Proof. by rewrite get_set, String.eqb_refl. Qed.

Lemma get_set_ne k k' v d :
  k <> k' -> Dict.get k (Dict.set k' v d) = Dict.get k d.
Proof. intros. rewrite get_set. by destruct (String.eqb_spec k k'). Qed.

Lemma elem_of_set k v d kv :
  kv ∈ Dict.set k v d -> kv = (k, v) \/ kv ∈ d.
Proof.
  induction d as [|[k0 v0] d IH]; cbn.
  - intros ->%list_elem_of_singleton. by left.
  - destruct (String.eqb k k0).
    + intros [->| ?]%elem_of_cons; [by left|]. right. by right.
    + intros [->| ?]%elem_of_cons; [right; by left|].
      destruct IH as [?|?]; [done|by left|]. right. by right.
Qed.

(** Assigning a list of keys in turn: a key ends up with the value of its
    last assignment, and keeps its old value if it is never assigned. *)
Lemma get_fold_set {X} (key : X -> string) (val : X -> V) xs d k :
  Dict.get k (fold_left (fun acc x => Dict.set (key x) (val x) acc) xs d)
  = match last (filter (fun x => key x = k) xs) with
    | Some x => Some (val x)
    | None => Dict.get k d
    end.
Proof.
  revert d. induction xs as [|x xs IH]; intros d; [done|].
  cbn [fold_left]. rewrite IH, filter_cons. destruct (decide (key x = k)) as [<-|Hne].
  - rewrite last_cons. destruct (last _); [done|]. apply get_set_eq.
  - destruct (last _); [done|]. by apply get_set_ne.
Qed.

Lemma get_None_not_key k d : k ∉ Dict.keys d -> Dict.get k d = None.
Proof.
  unfold Dict.keys. induction d as [|[k0 v0] d IH]; cbn; [done|].
  intros [Hne Hnin]%not_elem_of_cons.
  destruct (String.eqb_spec k k0); [done|auto].
Qed.

Lemma keys_set k v d :
  Dict.keys (Dict.set k v d)
  = if Dict.mem k d then Dict.keys d else Dict.keys d ++ [k].
Proof.
  unfold Dict.mem, Dict.keys. induction d as [|[k0 v0] d IH]; cbn; [done|].
  destruct (String.eqb_spec k k0) as [->|]; cbn; [done|].
  rewrite IH. by destruct (Dict.get k d).
Qed.

Lemma mem_false_not_key k d : Dict.mem k d = false -> k ∉ Dict.keys d.
Proof.
  unfold Dict.mem, Dict.keys. induction d as [|[k0 v0] d IH]; cbn.
  - intros _. apply not_elem_of_nil.
  - destruct (String.eqb_spec k k0); [done|].
    intros. apply not_elem_of_cons. auto.
Qed.

Lemma NoDup_keys_set k v d :
  NoDup (Dict.keys d) -> NoDup (Dict.keys (Dict.set k v d)).
Proof.
  intros Hd. rewrite keys_set. destruct (Dict.mem k d) eqn:Hk; [done|].
  apply NoDup_app. split_and!; [done| |apply NoDup_singleton].
  intros k' Hk' ->%list_elem_of_singleton.
  by apply mem_false_not_key in Hk.
Qed.

Lemma NoDup_keys_fold_set {X} (key : X -> string) (val : X -> V) xs d :
  NoDup (Dict.keys d) ->
  NoDup (Dict.keys
           (fold_left (fun acc x => Dict.set (key x) (val x) acc) xs d)).
Proof.
  revert d. induction xs as [|x xs IH]; intros d Hd; [done|].
  cbn [fold_left]. by apply IH, NoDup_keys_set.
Qed.

(** [d.update(e)]: the entries of [e] win. *)
Lemma get_update k d e :
  NoDup (Dict.keys e) ->
  Dict.get k (Dict.update d e)
  = match Dict.get k e with
    | Some v => Some v
    | None => Dict.get k d
    end.
Proof.
  unfold Dict.update, Dict.keys. revert d.
  induction e as [|[k0 v0] e IH]; intros d; [done|].
  intros [Hk0 He]%NoDup_cons. cbn [fold_left fst snd Dict.get].
  rewrite IH by done. destruct (String.eqb_spec k k0) as [->|Hne].
  - rewrite (get_None_not_key k0 e) by done. apply get_set_eq.
  - destruct (Dict.get k e); [done|]. by apply get_set_ne.
Qed.

End Facts.
End DictFacts.

(** * Properties of the reconciliation engine *)

Module ReconciliationProperties.
Import ValidationAgent Vocabulary DictFacts.

(** The resolution function computes what the specification words: the two
    loops of [_resolve_field_conflict] are the two searches of
    [resolved_by_priority]. *)
Lemma resolution_follows_priority fld vals sources :
  _resolve_field_conflict fld vals sources = resolved_by_priority vals sources.
Proof.
  unfold _resolve_field_conflict, resolved_by_priority.
  assert (first_priority_value vals sources
          = (fun s => default PyNone (Dict.get s vals))
              <$> List.find (has_value vals) sources) as ->.
  { induction sources as [|s sources IH]; cbn; [done|].
    unfold has_value at 1.
    destruct (Dict.get s vals) as [v|] eqn:Hs; [|done].
    destruct (truthy v); [|done]. cbn. by rewrite Hs. }
  destruct (List.find (has_value vals) sources); cbn; [done|].
  by destruct (List.find truthy (Dict.values vals)).
Qed.

Section Engine.

Context (re_search : string -> string -> option string).
Context (py_float : string -> option Q).
Context (py_repr : pyval -> string).
Context (py_lower py_strip : string -> string).

Local Abbreviation observations := (observations re_search py_float).
Local Abbreviation run_conflicts :=
  (run_conflicts re_search py_float py_repr py_lower py_strip).
Local Abbreviation run_validated := (run_validated re_search py_float).
Local Abbreviation check_conflicts :=
  (check_conflicts py_repr py_lower py_strip).
Local Abbreviation unique_values := (unique_values py_repr py_lower py_strip).
Local Abbreviation reconcile :=
  (reconcile re_search py_float py_repr py_lower py_strip).
Local Abbreviation normalized_value :=
  (normalized_value py_repr py_lower py_strip).
Local Abbreviation distinct_normalized_values :=
  (distinct_normalized_values py_repr py_lower py_strip).

(** A set built from a list has at most as many elements as the list. *)
Lemma size_list_to_set_le (l : list string) :
  size (list_to_set l : gset string) <= length l.
Proof.
  induction l as [|x l IH]; cbn; [by rewrite size_empty|].
  rewrite size_union_alt, size_singleton.
  assert (size (list_to_set l ∖ {[x]} : gset string)
          <= size (list_to_set l : gset string)).
  { apply subseteq_size. intros y [Hy _]%elem_of_difference. exact Hy. }
  lia.
Qed.

Lemma size_unique_values_le (obs : pydict) :
  size (unique_values obs) <= length obs.
Proof.
  unfold ValidationAgent.unique_values, Dict.values.
  etrans; [apply size_list_to_set_le|].
  rewrite length_fmap. etrans; [apply length_filter|]. by rewrite length_fmap.
Qed.

(** The conflict check of one field yields the field's record exactly
    when its normalized values are not all the same. *)
Lemma check_conflicts_cases fld obs sources :
  check_conflicts fld obs sources
  = if decide (1 < size (unique_values obs))
    then [mkConflict fld obs sources] else [].
Proof.
  unfold ValidationAgent.check_conflicts.
  pose proof (size_unique_values_le obs).
  destruct (decide _) as [Hgt|Hle].
  - assert ((1 <? length obs)%nat = true) as -> by (apply Nat.ltb_lt; lia).
    by assert ((1 <? size (unique_values obs))%nat = true) as ->
      by (by apply Nat.ltb_lt).
  - assert ((1 <? size (unique_values obs))%nat = false) as ->
      by (by apply Nat.ltb_ge; lia).
    by destruct (1 <? length obs)%nat.
Qed.

Lemma conflicts_of_check fld fld' obs sources :
  conflicts_of fld (check_conflicts fld' obs sources)
  = if decide (fld' = fld) then check_conflicts fld' obs sources else [].
Proof.
  rewrite check_conflicts_cases. unfold conflicts_of.
  destruct (decide (1 < _)); [|by destruct (decide (fld' = fld))].
  rewrite filter_cons. cbn. by destruct (decide (fld' = fld)).
Qed.

Lemma conflicts_of_other fld fields a ed :
  fld ∉ fields.*1 -> conflicts_of fld (run_conflicts fields a ed) = [].
Proof.
  unfold conflicts_of, Vocabulary.run_conflicts.
  induction fields as [|[f s] fields IH]; cbn; [done|].
  intros [Hne Hnin]%not_elem_of_cons. rewrite filter_app, IH by done.
  fold (conflicts_of fld (check_conflicts f (observations f s a ed) s)).
  rewrite conflicts_of_check. by destruct (decide (f = fld)).
Qed.

(** In a run over fields with distinct names, the records of a field are
    the outcome of that field's own check. *)
Lemma conflicts_of_run fld sources fields a ed :
  NoDup fields.*1 ->
  (fld, sources) ∈ fields ->
  conflicts_of fld (run_conflicts fields a ed)
  = check_conflicts fld (observations fld sources a ed) sources.
Proof.
  induction fields as [|[f s] fields IH]; [by intros _ ?%elem_of_nil|].
  cbn [fmap list_fmap fst]. intros [Hf Hnd]%NoDup_cons Hin.
  unfold conflicts_of, Vocabulary.run_conflicts. cbn [flat_map].
  rewrite filter_app.
  fold (conflicts_of fld (check_conflicts f (observations f s a ed) s)).
  fold (run_conflicts fields a ed).
  fold (conflicts_of fld (run_conflicts fields a ed)).
  rewrite conflicts_of_check.
  apply elem_of_cons in Hin as [[= <- <-]|Hin].
  - rewrite decide_True by done.
    rewrite conflicts_of_other by done. apply app_nil_r.
  - rewrite decide_False.
    + by rewrite IH.
    + intros ->. apply Hf. by apply (list_elem_of_fmap_2 fst) in Hin.
Qed.

Lemma validate_fields_dict fields a ed cs vd :
  validate_fields re_search py_float py_repr py_lower py_strip fields
    (PyDict a) ed (cs, vd)
  = Ok (cs ++ run_conflicts fields a ed, run_validated fields a ed vd).
Proof.
  revert cs vd. induction fields as [|[f s] fields IH]; intros cs vd.
  - cbn. by rewrite app_nil_r.
  - cbn [validate_fields]. unfold collect_field_values.
    cbn [py_get mbind exn_bind fst snd]. rewrite IH.
    unfold Vocabulary.run_conflicts. cbn [flat_map]. by rewrite app_assoc.
Qed.

Lemma field_names_NoDup : NoDup field_priorities.*1.
Proof. by apply (bool_decide_unpack (NoDup _)). Qed.

Lemma filter_none {X} (P : X -> Prop) `{forall x, Decision (P x)} l :
  (forall x, x ∈ l -> ~ P x) -> filter P l = [].
Proof.
  induction l as [|x l IH]; intros Hl; [done|].
  rewrite filter_cons_False by (apply Hl; by left).
  apply IH. intros y Hy. apply Hl. by right.
Qed.

Lemma last_filter_key {X} (fields : list (string * X)) fld x :
  NoDup fields.*1 ->
  (fld, x) ∈ fields ->
  last (filter (fun fs => fs.1 = fld) fields) = Some (fld, x).
Proof.
  induction fields as [|[f y] fields IH]; [by intros _ ?%elem_of_nil|].
  cbn [fmap list_fmap fst]. intros [Hf Hnd]%NoDup_cons Hin.
  rewrite filter_cons. cbn [fst].
  apply elem_of_cons in Hin as [[= <- <-]|Hin].
  - rewrite decide_True by done.
    assert (filter (fun fs : string * X => fs.1 = fld) fields = []) as ->;
      [|done].
    apply filter_none. intros [f' y'] Hin' Heq.
    cbn in Heq. subst f'. apply Hf.
    by apply (list_elem_of_fmap_2 fst) in Hin'.
  - rewrite decide_False.
    + by apply IH.
    + intros ->. apply Hf. by apply (list_elem_of_fmap_2 fst) in Hin.
Qed.

(** What a reconciliation run over a declared record returns. *)
Lemma reconcile_dict a ed :
  exists vr,
    reconcile (PyDict a) ed = Ok vr /\
    conflicts vr = run_conflicts field_priorities a ed /\
    forall k,
      Dict.get k (resolved_data vr)
      = match last (conflicts_of k (conflicts vr)) with
        | Some c =>
            Some (_resolve_field_conflict (field c) (values c)
                    (priority_sources c))
        | None => Dict.get k (run_validated field_priorities a ed [])
        end.
Proof.
  unfold ValidationAgent.reconcile, _validate_information.
  rewrite validate_fields_dict. cbn [mbind exn_bind app conflicts].
  set (cs := run_conflicts field_priorities a ed).
  set (vd := run_validated field_priorities a ed []).
  eexists. split; [reflexivity|]. cbn [conflicts resolved_data].
  assert (forall k,
    Dict.get k (_resolve_conflicts cs ed)
    = match last (conflicts_of k cs) with
      | Some c => Some (_resolve_field_conflict (field c) (values c)
                          (priority_sources c))
      | None => None
      end) as Hres.
  { intros k. unfold _resolve_conflicts.
    by rewrite (get_fold_set field
                  (fun c => _resolve_field_conflict (field c) (values c)
                              (priority_sources c))). }
  destruct cs as [|c cs'] eqn:Hcs; cbn [conflicts resolved_data].
  - done.
  - split; [done|]. intros k. rewrite get_update.
    + rewrite Hres. by destruct (last _).
    + apply (NoDup_keys_fold_set field
               (fun c => _resolve_field_conflict (field c) (values c)
                           (priority_sources c))).
      apply NoDup_nil_2.
Qed.

Lemma validated_get fld sources a ed :
  (fld, sources) ∈ field_priorities ->
  Dict.get fld (run_validated field_priorities a ed [])
  = Some (PyDict (observations fld sources a ed)).
Proof.
  intros Hin. unfold Vocabulary.run_validated.
  rewrite (get_fold_set fst
             (fun fs => PyDict (observations fs.1 fs.2 a ed))).
  by rewrite (last_filter_key _ fld sources)
    by auto using field_names_NoDup.
Qed.

Lemma elem_of_run_conflicts c fields a ed :
  c ∈ run_conflicts fields a ed ->
  exists sources,
    (field c, sources) ∈ fields /\
    1 < size (unique_values (observations (field c) sources a ed)) /\
    c = mkConflict (field c) (observations (field c) sources a ed) sources.
Proof.
  unfold Vocabulary.run_conflicts.
  intros ([f s] & Hfs & Hc)%list_elem_of_In%in_flat_map.
  apply list_elem_of_In in Hfs, Hc. rewrite check_conflicts_cases in Hc.
  destruct (decide _) as [Hgt|]; [|by apply elem_of_nil in Hc].
  apply list_elem_of_singleton in Hc as ->. by exists s.
Qed.

Lemma filter_truthy (l : list pyval) :
  filter (fun v => truthy v) l = List.filter truthy l.
Proof.
  induction l as [|v l IH]; [done|].
  rewrite filter_cons. cbn [List.filter]. rewrite IH.
  by destruct (truthy v).
Qed.

(** The set the code builds has as many elements as there are distinct
    normalized values in the specification's sense: the code converts
    with [str], lower-cases and strips, in this order, and leaves the
    empty values out. *)
Lemma size_unique_values (obs : pydict) :
  size (unique_values obs) = length (distinct_normalized_values obs).
Proof.
  unfold ValidationAgent.unique_values, Vocabulary.distinct_normalized_values.
  rewrite filter_truthy.
  change (ValidationAgent.normalize py_repr py_lower py_strip)
    with normalized_value.
  set (l := normalized_value <$> List.filter truthy (Dict.values obs)).
  assert ((list_to_set l : gset string) = list_to_set (remove_dups l))
    as ->.
  { apply set_eq. intros x.
    by rewrite !elem_of_list_to_set, elem_of_remove_dups. }
  apply size_list_to_set, NoDup_remove_dups.
Qed.

(** C5. In a reconciliation run, a field has a ConflictRecord exactly
    when there is more than one distinct normalized value (converted to
    a string, case-folded, trimmed; empty values left out) over its
    observations, and no field has more than one ConflictRecord. *)
Theorem conflict_iff_distinct_normalized_values a ed fld sources :
  (fld, sources) ∈ field_priorities ->
  exists vr,
    reconcile (PyDict a) ed = Ok vr /\
    ((exists c, c ∈ conflicts vr /\ field c = fld)
     <-> 1 < length (distinct_normalized_values
                       (observations fld sources a ed))) /\
    length (conflicts_of fld (conflicts vr)) <= 1.
Proof.
  intros Hin. destruct (reconcile_dict a ed) as (vr & Hvr & Hcs & _).
  exists vr. split; [done|]. rewrite <-size_unique_values.
  assert (conflicts_of fld (conflicts vr)
          = check_conflicts fld (observations fld sources a ed) sources)
    as Hof.
  { rewrite Hcs. by apply conflicts_of_run; auto using field_names_NoDup. }
  rewrite check_conflicts_cases in Hof. split.
  - split.
    + intros (c & Hc & Hfld).
      assert (c ∈ conflicts_of fld (conflicts vr)) as Hc'
        by (by apply list_elem_of_filter).
      rewrite Hof in Hc'. destruct (decide _); [done|].
      by apply elem_of_nil in Hc'.
    + intros Hgt. rewrite decide_True in Hof by done.
      exists (mkConflict fld (observations fld sources a ed) sources).
      assert (mkConflict fld (observations fld sources a ed) sources
                ∈ conflicts_of fld (conflicts vr)) as Hc
        by (rewrite Hof; by left).
      by apply list_elem_of_filter in Hc as [_ ?].
  - rewrite Hof. destruct (decide _); cbn; lia.
Qed.

(** What [_resolve_conflicts] stores for a field: the resolution of the
    last record of that field. *)
Lemma resolve_conflicts_get cs ed k :
  Dict.get k (_resolve_conflicts cs ed)
  = match last (conflicts_of k cs) with
    | Some c => Some (_resolve_field_conflict (field c) (values c)
                        (priority_sources c))
    | None => None
    end.
Proof.
  unfold _resolve_conflicts.
  by rewrite (get_fold_set field
                (fun c => _resolve_field_conflict (field c) (values c)
                            (priority_sources c))).
Qed.

(** C6. For every ConflictRecord, whatever its values and its priority
    order, the resolved value is the value of the first source of the
    priority order whose observed value is present and non-empty; when
    no priority source has one, the first non-empty value in the
    iteration order of the observations; [None] when all are empty.
    This is the value [_resolve_conflicts] stores under the record's
    field, for any list of records; and in a reconciliation run every
    record carries the priority order of its field in the table and
    [resolved_data] holds the resolved value for it. *)
Theorem conflicts_resolved_by_priority a ed :
  (forall c : ConflictRecord,
     _resolve_field_conflict (field c) (values c) (priority_sources c)
     = resolved_by_priority (values c) (priority_sources c)) /\
  (forall cs c,
     last (conflicts_of (field c) cs) = Some c ->
     Dict.get (field c) (_resolve_conflicts cs ed)
     = Some (resolved_by_priority (values c) (priority_sources c))) /\
  exists vr,
    reconcile (PyDict a) ed = Ok vr /\
    forall c, c ∈ conflicts vr ->
      (field c, priority_sources c) ∈ field_priorities /\
      Dict.get (field c) (resolved_data vr)
      = Some (resolved_by_priority (values c) (priority_sources c)).
Proof.
  split; [intros c; apply resolution_follows_priority|].
  split.
  { intros cs c Hlast. rewrite resolve_conflicts_get, Hlast.
    by rewrite resolution_follows_priority. }
  destruct (reconcile_dict a ed) as (vr & Hvr & Hcs & Hget).
  exists vr. split; [done|]. intros c Hc.
  pose proof Hc as Hc'. rewrite Hcs in Hc'.
  apply elem_of_run_conflicts in Hc' as (sources & Hin & Hgt & Heq).
  assert (priority_sources c = sources) as Hsrc by (by rewrite Heq).
  split; [by rewrite Hsrc|].
  rewrite Hget, Hcs.
  rewrite (conflicts_of_run (field c) sources)
    by auto using field_names_NoDup.
  rewrite check_conflicts_cases, decide_True by done. cbn [last].
  rewrite <-Heq. by rewrite resolution_follows_priority.
Qed.

(** C9, as the code has it. A field with exactly one non-empty
    observation gets no ConflictRecord, and [resolved_data] stores for it
    the one-entry dict from the observation's source to its value. *)
Theorem single_observation_kept_with_its_source a ed fld sources src v :
  (fld, sources) ∈ field_priorities ->
  observations fld sources a ed = [(src, v)] ->
  exists vr,
    reconcile (PyDict a) ed = Ok vr /\
    Dict.get fld (resolved_data vr) = Some (PyDict [(src, v)]) /\
    conflicts_of fld (conflicts vr) = [].
Proof.
  intros Hin Hobs. destruct (reconcile_dict a ed) as (vr & Hvr & Hcs & Hget).
  exists vr. split; [done|].
  assert (conflicts_of fld (conflicts vr) = []) as Hnone.
  { rewrite Hcs, (conflicts_of_run fld sources)
      by auto using field_names_NoDup.
    rewrite check_conflicts_cases, decide_False; [done|].
    pose proof (size_unique_values_le (observations fld sources a ed)).
    rewrite Hobs in *. cbn in *. lia. }
  split; [|done].
  by rewrite Hget, Hnone, (validated_get fld sources), Hobs.
Qed.

Local Abbreviation extracted_value := (extracted_value re_search py_float).
Local Abbreviation shared_extraction :=
  (shared_extraction re_search py_float).
Local Abbreviation normalize := (normalize py_repr py_lower py_strip).

(** Looking a field up in the documents of one type either finds no such
    document, or fails, or returns what the field's extractor finds in the
    shared text list, whatever the type asked for. *)
Lemma find_document_cases fld doc_type ed docs :
  find_document re_search py_float fld doc_type ed docs = Ok PyNone \/
  (exists msg,
     find_document re_search py_float fld doc_type ed docs = Raise msg) \/
  find_document re_search py_float fld doc_type ed docs
  = shared_extraction fld ed.
Proof.
  induction docs as [|doc docs IH]; cbn [find_document]; [by left|].
  destruct doc; try (right; left; by eexists).
  destruct (str_contains _ _); [|done].
  unfold Vocabulary.shared_extraction in *. revert IH.
  repeat (destruct (String.eqb fld _); [intros _; by right; right|]).
  by intros.
Qed.

Lemma extract_field_cases fld doc_type ed :
  _extract_field_from_documents re_search py_float fld doc_type ed = PyNone
  \/ _extract_field_from_documents re_search py_float fld doc_type ed
     = extracted_value fld ed.
Proof.
  unfold _extract_field_from_documents, Vocabulary.extracted_value.
  destruct (py_get ed "document_types" _) as [dts|]; cbn; [|by left].
  destruct (py_iter dts) as [docs|]; cbn; [|by left].
  destruct (find_document_cases fld doc_type ed docs)
    as [-> | [[msg ->] | ->]]; auto.
Qed.

(** Every observation is non-empty, and is either the declared value
    under [application_form] or the value extracted from the shared text
    list. *)
Lemma observations_origin fld sources a ed s v :
  (s, v) ∈ observations fld sources a ed ->
  truthy v = true /\
  (v = extracted_value fld ed \/
   s = "application_form" /\ v = declared_value fld a).
Proof.
  unfold Vocabulary.observations.
  set (P := fun obs : pydict => forall s v, (s, v) ∈ obs ->
    truthy v = true /\
    (v = extracted_value fld ed \/
     s = "application_form" /\ v = declared_value fld a)).
  enough (forall obs, P obs ->
            P (fold_left (add_document_value re_search py_float fld ed)
                 sources obs)) as Hfold.
  { apply Hfold. intros s' v'.
    destruct (truthy (declared_value fld a)) eqn:Hdecl.
    - intros [= -> ->]%list_elem_of_singleton. auto.
    - by intros ?%elem_of_nil. }
  induction sources as [|doc_type sources IH]; intros obs Hobs; [done|].
  cbn [fold_left]. apply IH. unfold add_document_value.
  destruct (truthy _) eqn:Htruthy; [|done].
  intros s' v' [[= -> ->]|Hin]%elem_of_set; [|by apply Hobs].
  split; [done|]. left.
  destruct (extract_field_cases fld doc_type ed) as [Heq|Heq]; [|done].
  by rewrite Heq in Htruthy.
Qed.

Lemma elem_of_unique_values n obs :
  n ∈ unique_values obs ->
  exists s v, (s, v) ∈ obs /\ truthy v = true /\ normalize v = n.
Proof.
  unfold ValidationAgent.unique_values, Dict.values.
  rewrite elem_of_list_to_set, list_elem_of_fmap.
  intros (v & -> & [Hv ([s v'] & -> & Hin)%list_elem_of_fmap]%list_elem_of_filter).
  exists s, v'. split_and!; [done| |done]. by apply Is_true_true.
Qed.

(** C10. All observations of a field attributed to a document source
    carry one and the same value, the one its extractor finds in the
    shared text list; and when the normalized values of a field are not
    all the same, the declared value is observed under [application_form],
    the extracted value is observed too, the two differ after
    normalization, and there is no third value. *)
Theorem document_sources_carry_one_value a ed fld sources :
  let obs := observations fld sources a ed in
  (forall s v, (s, v) ∈ obs -> s <> "application_form" ->
     v = extracted_value fld ed) /\
  (1 < size (unique_values obs) ->
     ("application_form", declared_value fld a) ∈ obs /\
     (exists s, (s, extracted_value fld ed) ∈ obs) /\
     normalize (declared_value fld a) <> normalize (extracted_value fld ed)
     /\
     forall s v, (s, v) ∈ obs ->
       v = declared_value fld a \/ v = extracted_value fld ed).
Proof.
  intros obs. split.
  { intros s v Hin Hs.
    destruct (observations_origin _ _ _ _ _ _ Hin) as [_ [?|[? _]]]; done. }
  intros Hgt.
  set (nd := normalize (declared_value fld a)).
  set (ne := normalize (extracted_value fld ed)).
  assert (forall n, n ∈ unique_values obs -> n = nd \/ n = ne) as Hsub.
  { intros n (s & v & Hin & _ & <-)%elem_of_unique_values.
    destruct (observations_origin _ _ _ _ _ _ Hin) as [_ [->|[_ ->]]]; auto. }
  assert (forall n, (forall m, m ∈ unique_values obs -> m = n) -> False)
    as Hnot1.
  { intros n Hall.
    assert (unique_values obs ⊆ {[n]}) as Hsubset.
    { intros m Hm. apply elem_of_singleton. auto. }
    apply subseteq_size in Hsubset. rewrite size_singleton in Hsubset. lia. }
  assert (nd <> ne) as Hne.
  { intros Heq. apply (Hnot1 nd). intros m [->| ->]%Hsub; done. }
  assert (nd ∈ unique_values obs) as Hd.
  { destruct (decide (nd ∈ unique_values obs)) as [|Hnin]; [done|].
    destruct (Hnot1 ne). intros m Hm.
    destruct (Hsub m Hm) as [->| ->]; done. }
  assert (ne ∈ unique_values obs) as He.
  { destruct (decide (ne ∈ unique_values obs)) as [|Hnin]; [done|].
    destruct (Hnot1 nd). intros m Hm.
    destruct (Hsub m Hm) as [->| ->]; done. }
  split_and!.
  - apply elem_of_unique_values in Hd as (s & v & Hin & _ & Hn).
    destruct (observations_origin _ _ _ _ _ _ Hin) as [_ [->|[-> ->]]];
      [|done].
    by destruct Hne.
  - apply elem_of_unique_values in He as (s & v & Hin & _ & Hn).
    destruct (observations_origin _ _ _ _ _ _ Hin) as [_ [->|[-> ->]]];
      [by exists s|].
    by destruct Hne.
  - done.
  - intros s v Hin.
    destruct (observations_origin _ _ _ _ _ _ Hin) as [_ [->|[_ ->]]]; auto.
Qed.

End Engine.

(** ** The engine on the sample record *)

Lemma income_in_table : ("income", Sample.income_sources) ∈ field_priorities.
Proof. do 2 apply list_elem_of_further. apply list_elem_of_here. Defined.

Lemma address_in_table :
  ("address", Sample.address_sources) ∈ field_priorities.
Proof. do 3 apply list_elem_of_further. apply list_elem_of_here. Defined.

Lemma name_in_table : ("name", Sample.name_sources) ∈ field_priorities.
Proof. apply list_elem_of_here. Defined.

(** The declared income 5000 and the statement's 4800.0 make the only
    conflict of the sample run; a name that differs from the statement's
    in case and surrounding blanks only makes none. *)
Lemma conflict_iff_distinct_normalized_values_witness :
  (("income", Sample.income_sources) ∈ field_priorities /\
   exists vr,
     Sample.reconcile Sample.declared Sample.bank_statement = Ok vr /\
     ((exists c, c ∈ conflicts vr /\ field c = "income")
      <-> 1 < length (distinct_normalized_values Sample.py_repr
                        Sample.py_lower Sample.py_strip
                        (Sample.observations "income" Sample.income_sources)))
     /\ length (conflicts_of "income" (conflicts vr)) <= 1) /\
  (("name", Sample.name_sources) ∈ field_priorities /\
   exists vr,
     Sample.reconcile Sample.shouted Sample.bank_statement = Ok vr /\
     ((exists c, c ∈ conflicts vr /\ field c = "name")
      <-> 1 < length (distinct_normalized_values Sample.py_repr
                        Sample.py_lower Sample.py_strip
                        (observations Sample.re_search Sample.py_float
                           "name" Sample.name_sources Sample.shouted
                           (PyDict Sample.bank_statement))))
     /\ length (conflicts_of "name" (conflicts vr)) <= 1).
Proof.
  split.
  - split; [exact income_in_table|].
    exact (conflict_iff_distinct_normalized_values Sample.re_search
             Sample.py_float Sample.py_repr Sample.py_lower Sample.py_strip
             Sample.declared (PyDict Sample.bank_statement) "income"
             Sample.income_sources income_in_table).
  - split; [exact name_in_table|].
    exact (conflict_iff_distinct_normalized_values Sample.re_search
             Sample.py_float Sample.py_repr Sample.py_lower Sample.py_strip
             Sample.shouted (PyDict Sample.bank_statement) "name"
             Sample.name_sources name_in_table).
Defined.

Example income_values_are_distinct :
  distinct_normalized_values Sample.py_repr Sample.py_lower Sample.py_strip
    (Sample.observations "income" Sample.income_sources)
  = ["5000"; "4800.0"].
Proof. vm_compute. reflexivity. Qed.

Example name_values_agree_up_to_case_and_blanks :
  observations Sample.re_search Sample.py_float "name" Sample.name_sources
    Sample.shouted (PyDict Sample.bank_statement)
  = [("application_form", PyStr "  JOHN DOE ");
     ("bank_statement", PyStr "John Doe")] /\
  distinct_normalized_values Sample.py_repr Sample.py_lower Sample.py_strip
    (observations Sample.re_search Sample.py_float "name" Sample.name_sources
       Sample.shouted (PyDict Sample.bank_statement))
  = ["john doe"] /\
  exists vr,
    Sample.reconcile Sample.shouted Sample.bank_statement = Ok vr /\
    conflicts vr = [].
Proof.
  split; [vm_compute; reflexivity|].
  split; [vm_compute; reflexivity|].
  eexists. split; vm_compute; reflexivity.
Qed.

(** The income conflict of the sample run is settled in favour of the bank
    statement, the first source of the income priority order; a record
    none of whose priority sources has a value is settled by its first
    non-empty value, and a record without any non-empty value by
    [None]. *)
Lemma conflicts_resolved_by_priority_witness :
  (exists vr,
     Sample.reconcile Sample.declared Sample.bank_statement = Ok vr /\
     mkConflict "income"
       [("application_form", PyInt 5000); ("bank_statement", PyFloat 4800)]
       Sample.income_sources ∈ conflicts vr /\
     Dict.get "income" (resolved_data vr) = Some (PyFloat 4800)) /\
  _resolve_field_conflict (field Sample.stray_record)
    (values Sample.stray_record) (priority_sources Sample.stray_record)
  = PyStr "5 Side Road" /\
  Dict.get (field Sample.stray_record)
    (_resolve_conflicts [Sample.blank_record; Sample.stray_record]
       (PyDict Sample.bank_statement))
  = Some (PyStr "5 Side Road") /\
  _resolve_field_conflict (field Sample.blank_record)
    (values Sample.blank_record) (priority_sources Sample.blank_record)
  = PyNone.
Proof.
  destruct (conflicts_resolved_by_priority Sample.re_search Sample.py_float
              Sample.py_repr Sample.py_lower Sample.py_strip Sample.declared
              (PyDict Sample.bank_statement))
    as (Hrecord & Hstored & vr & Hvr & Hall).
  split; [|split_and!].
  2:{ rewrite (Hrecord Sample.stray_record). vm_compute. reflexivity. }
  2:{ rewrite (Hstored [Sample.blank_record; Sample.stray_record]
                 Sample.stray_record); vm_compute; reflexivity. }
  2:{ rewrite (Hrecord Sample.blank_record). vm_compute. reflexivity. }
  exists vr. split; [exact Hvr|].
  assert (mkConflict "income"
            [("application_form", PyInt 5000); ("bank_statement", PyFloat 4800)]
            Sample.income_sources ∈ conflicts vr) as Hc.
  { vm_compute in Hvr. injection Hvr as <-. apply list_elem_of_here. }
  split; [exact Hc|].
  destruct (Hall _ Hc) as [_ Hget]. cbn [field values priority_sources] in Hget.
  rewrite Hget. vm_compute. reflexivity.
Defined.

Example income_resolved_to_bank_statement :
  resolved_by_priority (Sample.observations "income" Sample.income_sources)
    Sample.income_sources
  = PyFloat 4800.
Proof. vm_compute. reflexivity. Qed.

(** C9 as stated fails: the declared address is the only observation of
    its field, yet [resolved_data] does not hold that value for the field
    but a dict around it. *)
Lemma single_observation_is_not_stored_bare :
  Sample.observations "address" Sample.address_sources
    = [("application_form", PyStr "12 Main Street")] /\
  exists vr,
    Sample.reconcile Sample.declared Sample.bank_statement = Ok vr /\
    Dict.get "address" (resolved_data vr)
      = Some (PyDict [("application_form", PyStr "12 Main Street")]) /\
    Dict.get "address" (resolved_data vr) <> Some (PyStr "12 Main Street").
Proof.
  split; [vm_compute; reflexivity|].
  eexists. split; [vm_compute; reflexivity|].
  split; [vm_compute; reflexivity|].
  vm_compute. discriminate.
Qed.

Lemma single_observation_kept_with_its_source_witness :
  ("address", Sample.address_sources) ∈ field_priorities /\
  Sample.observations "address" Sample.address_sources
    = [("application_form", PyStr "12 Main Street")] /\
  exists vr,
    Sample.reconcile Sample.declared Sample.bank_statement = Ok vr /\
    Dict.get "address" (resolved_data vr)
      = Some (PyDict [("application_form", PyStr "12 Main Street")]) /\
    conflicts_of "address" (conflicts vr) = [].
Proof.
  split; [exact address_in_table|].
  split; [vm_compute; reflexivity|].
  apply (single_observation_kept_with_its_source Sample.re_search
           Sample.py_float Sample.py_repr Sample.py_lower Sample.py_strip
           Sample.declared
           (PyDict Sample.bank_statement) "address" Sample.address_sources
           "application_form" (PyStr "12 Main Street") address_in_table).
  vm_compute. reflexivity.
Defined.

Lemma document_sources_carry_one_value_witness :
  let obs := Sample.observations "income" Sample.income_sources in
  1 < size (unique_values Sample.py_repr Sample.py_lower Sample.py_strip
              obs) /\
  ("application_form", PyInt 5000) ∈ obs /\
  (forall s v, (s, v) ∈ obs -> s <> "application_form" -> v = PyFloat 4800).
Proof.
  destruct (document_sources_carry_one_value Sample.re_search Sample.py_float
              Sample.py_repr Sample.py_lower Sample.py_strip Sample.declared
              (PyDict Sample.bank_statement)
              "income" Sample.income_sources) as [Hdocs Hconflict].
  assert (1 < size (unique_values Sample.py_repr Sample.py_lower
                      Sample.py_strip
                      (Sample.observations "income" Sample.income_sources)))
    as Hgt by (vm_compute; constructor).
  split; [exact Hgt|]. split.
  - exact (proj1 (Hconflict Hgt)).
  - exact Hdocs.
Defined.

Example income_values_differ :
  1 < size (unique_values Sample.py_repr Sample.py_lower Sample.py_strip
              (Sample.observations "income" Sample.income_sources)).
Proof. vm_compute. lia. Qed.

End ReconciliationProperties.
(** * Properties of the pipeline orchestrator *)

Module PipelineProperties.
Import MasterAgent Vocabulary.

Section Pipeline.

Context (py_repr : pyval -> string) (format_percent : Q -> string).
Context (extraction_agent validation_agent eligibility_agent
         : pydict -> exn ProcessingResult).
Context (uuid4 utcnow : string).

Local Abbreviation final_state :=
  (final_state extraction_agent validation_agent eligibility_agent
     uuid4 utcnow).
Local Abbreviation process :=
  (process py_repr format_percent extraction_agent validation_agent
     eligibility_agent uuid4 utcnow).
Local Abbreviation extraction_input input :=
  (_prepare_step_input "extraction" input (initial_state uuid4 utcnow)).

(** Running the three steps symbolically: unfold the loop and split on
    what each agent did (the payload it was given is kept abstract), and
    on whether the validation payload has a ['resolved_data'] entry. *)
Ltac split_outcome a x :=
  let inp := fresh "inp" in
  let ok := fresh "ok" in
  set (inp := x) in *; clearbody inp;
  repeat match goal with H : context [a inp] |- _ => revert H end;
  destruct (a inp) as [[ok ? ? ?]|?]; [destruct ok|].
Ltac run_pipeline :=
  unfold stage_succeeded, stage_failed, invoked;
  match goal with
  | |- context [MasterAgent.final_state ?e ?v ?g ?u ?t ?i] =>
      let st := fresh "st" in
      let Hst := fresh "Hst" in
      remember (MasterAgent.final_state e v g u t i) as st eqn:Hst;
      revert Hst
  end;
  unfold MasterAgent.final_state, enumerate;
  cbn -[run_step];
  repeat (first
    [ match goal with
      | |- context [extraction_agent ?x] =>
          split_outcome extraction_agent x
      | |- context [validation_agent ?x] =>
          split_outcome validation_agent x
      | |- context [eligibility_agent ?x] =>
          split_outcome eligibility_agent x
      | |- context [data_value (mkProcessingResult _ ?d _ _)] =>
          is_var d; destruct d
      | |- context [Dict.mem "resolved_data" ?d] =>
          unfold Dict.mem; destruct (Dict.get "resolved_data" d)
      end
    | unfold run_step at 1, _execute_agent_step ];
    cbn -[run_step]);
  intros; simplify_eq; cbn in *.

(** The branch at the end of [process]: a run that ends [failed] or
    [completed_with_errors] is answered with an error result. *)
Lemma process_reports_failure input :
  str_in (status (final_state input)) ["failed"; "completed_with_errors"]
    = true ->
  success (process input) = false.
Proof.
  intros Hst. unfold MasterAgent.process.
  destruct (_aggregate_workflow_results _ _ _) as [agg|msg]; [|done].
  unfold mbind, exn_bind. by rewrite Hst.
Qed.

(** The defensive status [incomplete] is never reached: every step leaves
    either a result or an error behind. *)
Lemma final_status_cases input :
  status (final_state input) = "failed" \/
  status (final_state input) = "completed_with_errors" \/
  status (final_state input) = "completed_successfully".
Proof. run_pipeline; auto. Qed.

(** C1. When the extraction stage fails (it raises, or its result has
    [success = False]), the workflow ends with status [failed], extraction
    is the only stage that was invoked, and [results] has no entry for
    validation or eligibility. *)
Theorem extraction_failure_aborts input :
  stage_fails (extraction_agent (extraction_input input)) = true ->
  let st := final_state input in
  status st = "failed" /\
  invoked st = ["extraction"] /\
  Dict.get "validation" (results st) = None /\
  Dict.get "eligibility" (results st) = None.
Proof. intros Hfails. cbn in Hfails. cbv zeta. run_pipeline; done. Qed.

(** C3. When extraction succeeds and validation or eligibility fails, all
    three stages are invoked in order, the workflow ends with status
    [completed_with_errors], and [process] answers with an error result. *)
Theorem soft_failure_completes_with_errors input :
  let st := final_state input in
  stage_succeeded "extraction" st = true ->
  stage_failed "validation" st || stage_failed "eligibility" st = true ->
  invoked st = workflow_steps /\
  status st = "completed_with_errors" /\
  success (process input) = false.
Proof.
  intros st Hext Hsoft.
  assert (invoked st = workflow_steps /\
          status st = "completed_with_errors") as [Hinv Hst].
  { revert Hext Hsoft. subst st. run_pipeline; done. }
  split_and!; [done..|].
  apply process_reports_failure. fold st. by rewrite Hst.
Qed.

(** C4. A run whose terminal status is not [completed_successfully] is
    answered with an error result. *)
Theorem non_success_status_is_reported_as_failure input :
  status (final_state input) <> "completed_successfully" ->
  success (process input) = false.
Proof.
  intros Hne. apply process_reports_failure.
  destruct (final_status_cases input) as [-> | [-> | ?]]; done.
Qed.

(** The result payload of a run never has a ['final_decision'] entry:
    [results] is keyed by step name, so the test for an
    ['eligibility_result'] key in it is never true. *)
Lemma aggregate_without_final_decision input :
  exists agg,
    _aggregate_workflow_results py_repr format_percent (final_state input)
      = Ok agg /\
    Dict.get "final_decision" agg = None.
Proof.
  run_pipeline; (eexists; split; [reflexivity|]); vm_compute; reflexivity.
Qed.

Lemma sum_confidences_spec rs total count total' count' :
  sum_confidences rs (total, count) = Ok (total', count') ->
  total' = fold_left Qplus (omap payload_confidence rs.*2) total /\
  count' = (count + length (omap payload_confidence rs.*2))%nat.
Proof.
  revert total count. induction rs as [|[k v] rs IH]; intros total count.
  - cbn. intros [= <- <-]. split; [done|lia].
  - cbn [sum_confidences fmap list_fmap omap list_omap snd].
    destruct v as [| | | |s|l|d]; cbn; try done.
    + destruct (str_contains "confidence" s); cbn; [done|apply IH].
    + destruct (existsb _ l); cbn; [done|apply IH].
    + unfold Dict.mem. destruct (Dict.get "confidence" d) as [c|]; cbn.
      * destruct (py_num c) as [q|]; cbn; [|done].
        intros H. apply IH in H as [-> ->]. split; [done|lia].
      * apply IH.
Qed.

Lemma workflow_confidence_spec st q :
  _calculate_workflow_confidence st = Ok q ->
  q = penalised_mean (payload_confidences st) st.
Proof.
  unfold _calculate_workflow_confidence, payload_confidences, Dict.values.
  destruct (results st) as [|kv rs] eqn:Hrs; [by intros [= <-]|].
  destruct (sum_confidences _ _) as [[total count]|] eqn:Hsum; [|done].
  apply sum_confidences_spec in Hsum as [-> ->]. cbn [mbind exn_bind].
  unfold penalised_mean, mean.
  destruct (omap _ _) as [|c cs]; cbn; [by intros [= <-]|].
  by intros [= <-].
Qed.

(** C7, as the code has it. The confidence of a successful run is the
    mean of the ['confidence'] entries of the stored stage payloads that
    have one, minus [min(0.1 * errors, 0.3)], clamped to [0, 1]; it is 0
    when no stored payload has such an entry, in particular when no stage
    completed. *)
Theorem overall_confidence_from_payload_entries input :
  success (process input) = true ->
  confidence_score (process input)
  = penalised_mean (payload_confidences (final_state input))
      (final_state input).
Proof.
  unfold MasterAgent.process.
  destruct (_aggregate_workflow_results _ _ _) as [agg|]; [|done].
  cbn [mbind exn_bind]. destruct (str_in _ _); [done|].
  destruct (_calculate_workflow_confidence _) as [q|] eqn:Hq; [|done].
  intros _. cbn. by apply workflow_confidence_spec.
Qed.

End Pipeline.
(** ** The hand-over from validation to eligibility *)

Section HandOver.

Context (extraction_agent validation_agent eligibility_agent
         : pydict -> exn ProcessingResult).
Context (uuid4 utcnow : string).

Local Abbreviation final_state :=
  (final_state extraction_agent validation_agent eligibility_agent
     uuid4 utcnow).

Local Abbreviation keeps_resolved_data_nested :=
  (keeps_resolved_data_nested validation_agent).

Ltac split_stage a x :=
  let ok := fresh "ok" in
  let Hcall := fresh "Hcall" in
  destruct (a x) as [[ok [?|] ? ?]|?] eqn:Hcall; [destruct ok| destruct ok|].

(** With such a validation stage, the payload handed to the eligibility
    stage has a ['validated_application_data'] entry only if the caller's
    own payload had one, and then it is the caller's. *)
Lemma eligibility_input_without_promotion input c :
  keeps_resolved_data_nested ->
  c ∈ calls (final_state input) ->
  call_step c = "eligibility" ->
  Dict.get "validated_application_data" (call_input c)
  = Dict.get "validated_application_data" input.
Proof.
  intros Hnested. revert c.
  unfold MasterAgent.final_state, enumerate. cbn -[run_step].
  repeat (first
    [ match goal with
      | |- context [extraction_agent ?x] =>
          let inp := fresh "inp" in
          set (inp := x) in *; clearbody inp;
          split_stage extraction_agent inp
      | |- context [validation_agent ?x] =>
          let inp := fresh "inp" in
          set (inp := x) in *; clearbody inp;
          split_stage validation_agent inp
      | |- context [eligibility_agent ?x] =>
          split_stage eligibility_agent x
      | H : validation_agent ?x = Ok (mkProcessingResult _ (Some ?d) _ _)
        |- context [Dict.mem "resolved_data" ?d] =>
          unfold Dict.mem; rewrite (Hnested _ _ _ H eq_refl)
      end
    | unfold run_step at 1, _execute_agent_step ];
    cbn -[run_step]).
  all: intros c Hc Hstep.
  all: repeat (apply elem_of_cons in Hc as [->|Hc]; [try done|]).
  all: try by apply elem_of_nil in Hc.
  all: cbn [call_input].
  all: rewrite DictFacts.get_set_ne by done.
  all: repeat
         (match goal with
          | |- context [if ?b then _ else _] => destruct b
          end;
          rewrite ?DictFacts.get_set_ne by (vm_compute; congruence)).
  all: done.
Qed.

End HandOver.

(** The repository's validation agent returns the reconciliation result
    under the key ['validation_result']: its payload has no top-level
    ['resolved_data'] entry. *)
Lemma repository_validation_nests re_search py_float py_repr py_lower
    py_strip :
  keeps_resolved_data_nested
    (fun x => Ok (ValidationAgent.process re_search py_float py_repr py_lower
                    py_strip x)).
Proof.
  intros x r d [= <-]. unfold ValidationAgent.process.
  destruct (negb _ || negb _); [done|].
  destruct (ValidationAgent.reconcile _ _ _ _ _ _ _) as [vr|]; [|done].
  cbn. by intros [= <-].
Qed.

(** With the repository's validation agent in the pipeline, no run hands a
    promoted ['validated_application_data'] entry to the eligibility stage. *)
Lemma resolved_data_never_promoted re_search py_float py_repr py_lower
    py_strip extraction_agent eligibility_agent uuid4 utcnow input c :
  c ∈ calls (final_state extraction_agent
               (fun x => Ok (ValidationAgent.process re_search py_float
                               py_repr py_lower py_strip x))
               eligibility_agent uuid4 utcnow input) ->
  call_step c = "eligibility" ->
  Dict.get "validated_application_data" (call_input c)
  = Dict.get "validated_application_data" input.
Proof.
  apply eligibility_input_without_promotion, repository_validation_nests.
Qed.

(** ** The pipeline on the sample application *)

Lemma extraction_failure_aborts_witness :
  stage_fails
    (Sample.no_documents
       (_prepare_step_input "extraction" Sample.application
          (initial_state "workflow-1" "2024-01-01T00:00:00"))) = true /\
  let st := Sample.final_state Sample.no_documents Sample.approved
              Sample.application in
  status st = "failed" /\
  invoked st = ["extraction"] /\
  Dict.get "validation" (results st) = None /\
  Dict.get "eligibility" (results st) = None.
Proof.
  split; [reflexivity|].
  apply (extraction_failure_aborts Sample.no_documents
           Sample.validation_agent Sample.approved).
  reflexivity.
Defined.

Lemma soft_failure_completes_with_errors_witness :
  let st := Sample.final_state Sample.extracted Sample.model_failure
              Sample.application in
  stage_succeeded "extraction" st = true /\
  stage_failed "validation" st || stage_failed "eligibility" st = true /\
  invoked st = workflow_steps /\
  status st = "completed_with_errors" /\
  success (Sample.process Sample.extracted Sample.model_failure
             Sample.application) = false.
Proof.
  split; [vm_compute; reflexivity|].
  split; [vm_compute; reflexivity|].
  apply (soft_failure_completes_with_errors Sample.py_repr
           Sample.format_percent Sample.extracted Sample.validation_agent
           Sample.model_failure);
    vm_compute; reflexivity.
Defined.

Lemma non_success_status_is_reported_as_failure_witness :
  status (Sample.final_state Sample.extracted Sample.model_failure
            Sample.application) <> "completed_successfully" /\
  success (Sample.process Sample.extracted Sample.model_failure
             Sample.application) = false.
Proof.
  split; [vm_compute; discriminate|].
  apply (non_success_status_is_reported_as_failure Sample.py_repr
           Sample.format_percent Sample.extracted Sample.validation_agent
           Sample.model_failure).
  vm_compute. discriminate.
Defined.

(** C2 on the sample run. All three stages succeed and the eligibility
    payload has a ['decision'] entry, yet the result payload of the run has
    no ['final_decision'] entry. *)
Theorem final_decision_missing_from_result :
  let r := Sample.process Sample.extracted Sample.approved
             Sample.application in
  success r = true /\
  lookup_path ["status"] (PyDict (default [] (data r)))
    = Some (PyStr "completed_successfully") /\
  lookup_path ["eligibility_result"; "decision"; "prediction"]
    (PyDict (default [] (data r))) = Some (PyStr "approve") /\
  lookup_path ["final_decision"] (PyDict (default [] (data r))) = None.
Proof. vm_compute. done. Qed.

(** C7 as stated fails: on the sample run the three completed stages
    report 0.9, 0.7 and 0.8, whose mean is 0.8, while the run returns 0.7,
    the ['confidence'] entry of the validation payload, the only stage
    payload that has one. *)
Lemma overall_confidence_is_not_mean_of_stage_confidences :
  let r := Sample.process Sample.extracted Sample.approved
             Sample.application in
  let st := Sample.final_state Sample.extracted Sample.approved
              Sample.application in
  success r = true /\
  errors st = [] /\
  Forall2 Qeq (stage_confidences st) [0.9; 0.7; 0.8]%Q /\
  (penalised_mean (stage_confidences st) st == 0.8)%Q /\
  (confidence_score r == 0.7)%Q /\
  ~ (confidence_score r == penalised_mean (stage_confidences st) st)%Q.
Proof.
  vm_compute. split_and!; first [done | by repeat constructor].
Qed.

Lemma overall_confidence_from_payload_entries_witness :
  success (Sample.process Sample.extracted Sample.approved
             Sample.application) = true /\
  confidence_score (Sample.process Sample.extracted Sample.approved
                      Sample.application)
  = penalised_mean
      (payload_confidences
         (Sample.final_state Sample.extracted Sample.approved
            Sample.application))
      (Sample.final_state Sample.extracted Sample.approved
         Sample.application).
Proof.
  split; [vm_compute; reflexivity|].
  apply (overall_confidence_from_payload_entries Sample.py_repr
           Sample.format_percent Sample.extracted Sample.validation_agent
           Sample.approved).
  vm_compute. reflexivity.
Defined.

(** C8 on the sample run. Validation succeeds and its reconciliation
    produced [resolved_data] (the income settled to 4800.0), yet the payload
    the eligibility stage is invoked on has no
    ['validated_application_data'] entry. *)
Theorem validated_application_data_missing :
  let st := Sample.final_state Sample.extracted Sample.approved
              Sample.application in
  stage_succeeded "validation" st = true /\
  lookup_path ["validation"; "validation_result"; "resolved_data"; "income"]
    (PyDict (results st)) = Some (PyFloat 4800) /\
  Dict.get "validated_application_data" <$> stage_inputs "eligibility" st
  = [None].
Proof. vm_compute. done. Qed.

End PipelineProperties.

(** * Further properties of the reconciliation engine *)

Module ReconciliationExtras.
Import ValidationAgent Vocabulary DictFacts ReconciliationProperties.

Section Engine.

Context (re_search : string -> string -> option string).
Context (py_float : string -> option Q).
Context (py_repr : pyval -> string).
Context (py_lower py_strip : string -> string).

Local Abbreviation observations := (observations re_search py_float).
Local Abbreviation run_conflicts :=
  (run_conflicts re_search py_float py_repr py_lower py_strip).
Local Abbreviation run_validated := (run_validated re_search py_float).
Local Abbreviation reconcile :=
  (reconcile re_search py_float py_repr py_lower py_strip).
Local Abbreviation unique_values := (unique_values py_repr py_lower py_strip).
Local Abbreviation normalize := (normalize py_repr py_lower py_strip).
Local Abbreviation extracted_value := (extracted_value re_search py_float).

Lemma keys_update_within (d e : pydict) :
  (forall k, k ∈ Dict.keys e -> Dict.mem k d = true) ->
  Dict.keys (Dict.update d e) = Dict.keys d.
Proof.
  unfold Dict.update. revert d.
  induction e as [|[k v] e IH]; intros d He; [done|].
  cbn [fold_left fst snd]. rewrite IH.
  - rewrite keys_set, He; [done|]. by left.
  - intros k' Hk'. unfold Dict.mem. rewrite get_set.
    destruct (String.eqb k' k); [done|].
    apply He. by right.
Qed.

Lemma reconcile_result a ed :
  let cs := run_conflicts field_priorities a ed in
  let vd := run_validated field_priorities a ed [] in
  let rd := match cs with
            | [] => vd
            | _ => Dict.update vd (_resolve_conflicts cs ed)
            end in
  reconcile (PyDict a) ed
  = Ok {| is_valid := bool_decide (length cs = 0%nat);
          conflicts := cs;
          resolved_data := rd;
          vr_confidence_score :=
            _calculate_overall_confidence
              {| is_valid := bool_decide (length cs = 0%nat);
                 conflicts := cs; resolved_data := rd;
                 vr_confidence_score := 0 |} |}.
Proof.
  intros cs vd rd. unfold ValidationAgent.reconcile, _validate_information.
  rewrite validate_fields_dict. cbn [mbind exn_bind app conflicts].
  fold cs vd. subst rd. by destruct cs.
Qed.

Lemma run_validated_keys a ed :
  Dict.keys (run_validated field_priorities a ed []) = field_names.
Proof. reflexivity. Qed.

Lemma resolve_conflicts_keys cs ed k :
  k ∈ Dict.keys (_resolve_conflicts cs ed) -> k ∈ field <$> cs.
Proof.
  unfold _resolve_conflicts.
  enough (forall acc,
            k ∈ Dict.keys
                  (fold_left
                     (fun resolved c =>
                        Dict.set (field c)
                          (_resolve_field_conflict (field c) (values c)
                             (priority_sources c)) resolved) cs acc) ->
            k ∈ Dict.keys acc \/ k ∈ field <$> cs) as Hgen.
  { intros Hk. destruct (Hgen [] Hk) as [Hnil|]; [|done].
    by apply elem_of_nil in Hnil. }
  induction cs as [|c cs IH]; intros acc Hk; [by left|].
  cbn [fold_left] in Hk. apply IH in Hk as [Hk|Hk].
  - rewrite keys_set in Hk. destruct (Dict.mem (field c) acc).
    + by left.
    + apply elem_of_app in Hk as [?|Hk]; [by left|].
      apply list_elem_of_singleton in Hk as ->. right. by left.
  - right. by right.
Qed.

Lemma run_conflicts_fields fields a ed c :
  c ∈ run_conflicts fields a ed -> field c ∈ fields.*1.
Proof.
  intros (sources & Hin & _)%elem_of_run_conflicts.
  by apply (list_elem_of_fmap_2 fst) in Hin.
Qed.

Lemma mem_of_key (d : pydict) k : k ∈ Dict.keys d -> Dict.mem k d = true.
Proof.
  unfold Dict.mem, Dict.keys. induction d as [|[k0 v0] d IH]; cbn.
  - by intros ?%elem_of_nil.
  - destruct (String.eqb_spec k k0); [done|].
    intros [?|?]%elem_of_cons; [done|auto].
Qed.

Lemma clamp01_id x : (0 <= x <= 1)%Q -> (clamp01 x == x)%Q.
Proof.
  intros [H0 H1]. unfold clamp01.
  rewrite (Q.min_r 1 x) by done. by apply Q.max_r.
Qed.

Lemma reconciled_keys a ed :
  Dict.keys
    match run_conflicts field_priorities a ed with
    | [] => run_validated field_priorities a ed []
    | _ => Dict.update (run_validated field_priorities a ed [])
             (_resolve_conflicts (run_conflicts field_priorities a ed) ed)
    end
  = ["name"; "date_of_birth"; "income"; "address"; "employment"].
Proof.
  destruct (run_conflicts field_priorities a ed) as [|c cs] eqn:Hcs;
    [apply run_validated_keys|].
  rewrite keys_update_within; [apply run_validated_keys|].
  intros k Hk%resolve_conflicts_keys. apply mem_of_key.
  rewrite run_validated_keys.
  apply list_elem_of_fmap in Hk as (c' & -> & Hc').
  apply (run_conflicts_fields field_priorities a ed). by rewrite Hcs.
Qed.

(** X1. A reconciliation run over a declared record always returns, and
    [resolved_data] has exactly the five fields of the priority table as
    its keys, in table order, whatever was declared or extracted
    ([_validate_information] stores an entry for every field, and
    [_resolve_conflicts] only overwrites entries). *)
Theorem resolved_data_has_every_field a ed :
  exists vr,
    reconcile (PyDict a) ed = Ok vr /\
    Dict.keys (resolved_data vr)
    = ["name"; "date_of_birth"; "income"; "address"; "employment"].
Proof.
  eexists. split; [apply reconcile_result|]. apply reconciled_keys.
Qed.

Lemma confidence_cases a ed :
  exists vr,
    reconcile (PyDict a) ed = Ok vr /\
    (conflicts vr = [] ->
       is_valid vr = true /\ (vr_confidence_score vr == 1)%Q) /\
    (conflicts vr <> [] ->
       is_valid vr = false /\
       (vr_confidence_score vr
        == 0.8 - Qmin (inject_Z (Z.of_nat (length (conflicts vr))) * 0.1) 0.3)%Q
       /\ (0.5 <= vr_confidence_score vr <= 0.7)%Q).
Proof.
  pose proof (reconciled_keys a ed) as Hkeys.
  eexists. split; [apply reconcile_result|].
  cbn [conflicts is_valid vr_confidence_score resolved_data].
  revert Hkeys.
  generalize (run_validated field_priorities a ed []).
  generalize (_resolve_conflicts (run_conflicts field_priorities a ed) ed).
  generalize (run_conflicts field_priorities a ed).
  intros cs resolved vd Hkeys. split.
  - intros ->. done.
  - intros Hne. destruct cs as [|c cs']; [done|]. clear Hne.
    split; [done|].
    unfold _calculate_overall_confidence. cbn [conflicts resolved_data].
    revert Hkeys. destruct (Dict.update _ _) as [|kv rd]; [done|intros _].
    set (n := inject_Z (Z.of_nat (length (c :: cs')))).
    assert (1 <= n)%Q as Hn.
    { subst n. rewrite <-(Zle_Qle 1). cbn [length]. lia. }
    set (m := Qmin (n * 0.1) 0.3).
    assert (0.1 <= m <= 0.3)%Q as Hm.
    { split; [apply Q.min_glb; lra|apply Q.le_min_r]. }
    clearbody m. rewrite clamp01_id by lra. lra.
Qed.

(** X2. The confidence of a reconciliation run: without a conflict the
    result is valid with confidence 1; with [n > 0] conflicts it is
    invalid with confidence [0.8 - min(0.1 n, 0.3)], which lies between
    0.5 and 0.7 ([_calculate_overall_confidence]: the clamp to [0, 1] is
    never active and the [0.5] returned for an empty [resolved_data] is
    never reached). *)
Theorem reconciliation_confidence a ed :
  exists vr,
    reconcile (PyDict a) ed = Ok vr /\
    (conflicts vr = [] ->
       is_valid vr = true /\ (vr_confidence_score vr == 1)%Q) /\
    (conflicts vr <> [] ->
       is_valid vr = false /\
       (vr_confidence_score vr
        == 0.8 - Qmin (inject_Z (Z.of_nat (length (conflicts vr))) * 0.1) 0.3)%Q
       /\ (0.5 <= vr_confidence_score vr <= 0.7)%Q).
Proof. apply confidence_cases. Qed.

Lemma length_set_le (d : pydict) k v :
  length (Dict.set k v d) <= S (length d).
Proof.
  induction d as [|[k0 v0] d IH]; cbn; [lia|].
  destruct (String.eqb k k0); cbn; lia.
Qed.

Lemma fold_observations_inv fld ed sources init :
  NoDup (Dict.keys init) ->
  (forall s v, (s, v) ∈ init -> truthy v = true) ->
  let obs := fold_left (add_document_value re_search py_float fld ed)
               sources init in
  NoDup (Dict.keys obs) /\
  length obs <= length init + length sources /\
  forall s v, (s, v) ∈ obs ->
    truthy v = true /\ ((s, v) ∈ init \/ s ∈ sources).
Proof.
  cbv zeta. revert init.
  induction sources as [|doc_type sources IH]; intros init Hnd Hall.
  - cbn. split_and!; [done|lia|]. intros s v Hin. split; [eauto|by left].
  - cbn [fold_left length].
    set (init' := add_document_value re_search py_float fld ed init doc_type).
    assert (NoDup (Dict.keys init') /\ length init' <= S (length init) /\
            forall s v, (s, v) ∈ init' ->
              truthy v = true /\ ((s, v) ∈ init \/ s = doc_type))
      as (Hnd' & Hlen' & Hall').
    { subst init'. unfold add_document_value.
      destruct (truthy _) eqn:Htruthy.
      - split_and!; [by apply NoDup_keys_set|apply length_set_le|].
        intros s v [[= -> ->]|Hin]%elem_of_set; [by auto|].
        split; [eauto|by left].
      - split_and!; [done|lia|]. intros s v Hin. split; [eauto|by left]. }
    destruct (IH init' Hnd') as (Hnd'' & Hlen'' & Hall'').
    { intros s v Hin. by destruct (Hall' s v Hin). }
    split_and!; [done|lia|].
    intros s v Hin. destruct (Hall'' s v Hin) as [Ht [Hin'|Hs]].
    + destruct (Hall' s v Hin') as [_ [?| ->]]; [by auto|].
      split; [done|]. right. by left.
    + split; [done|]. right. by right.
Qed.

Lemma observations_invariant fld sources a ed :
  let obs := observations fld sources a ed in
  NoDup (Dict.keys obs) /\
  length obs <= S (length sources) /\
  forall s v, (s, v) ∈ obs ->
    truthy v = true /\ (s = "application_form" \/ s ∈ sources).
Proof.
  cbv zeta. unfold Vocabulary.observations.
  set (init := if truthy (declared_value fld a)
               then [("application_form", declared_value fld a)] else []).
  assert (NoDup (Dict.keys init) /\ length init <= 1 /\
          forall s v, (s, v) ∈ init ->
            truthy v = true /\ s = "application_form") as (Hnd & Hlen & Hall).
  { subst init. destruct (truthy (declared_value fld a)) eqn:Hd.
    - split_and!; [apply NoDup_singleton|done|].
      by intros s v [= -> ->]%list_elem_of_singleton.
    - split_and!; [apply NoDup_nil_2|cbn; lia|].
      by intros s v ?%elem_of_nil. }
  destruct (fold_observations_inv fld ed sources init Hnd)
    as (Hnd' & Hlen' & Hall').
  { intros s v Hin. by destruct (Hall s v Hin). }
  split_and!; [done|lia|].
  intros s v Hin. destruct (Hall' s v Hin) as [Ht [Hin'|Hs]].
  - destruct (Hall s v Hin'). auto.
  - auto.
Qed.

(** X3. The observations of a field ([field_values] in
    [_validate_information]): every source occurs at most once, there is
    at most one observation per priority source plus the application
    form, every observed value is truthy, and every source is
    [application_form] or a source of the field's priority list. *)
Theorem observations_well_formed fld sources a ed :
  let obs := observations fld sources a ed in
  NoDup (Dict.keys obs) /\
  length obs <= S (length sources) /\
  forall s v, (s, v) ∈ obs ->
    truthy v = true /\ (s = "application_form" \/ s ∈ sources).
Proof. apply observations_invariant. Qed.

Lemma get_in_values (d : pydict) k v :
  Dict.get k d = Some v -> (k, v) ∈ d.
Proof.
  induction d as [|[k0 v0] d IH]; cbn; [done|].
  destruct (String.eqb_spec k k0) as [->|].
  - intros [= ->]. by left.
  - intros. right. auto.
Qed.

Lemma elem_of_get (d : pydict) k v :
  (k, v) ∈ d -> exists v', Dict.get k d = Some v' /\ (k, v') ∈ d.
Proof.
  induction d as [|[k0 v0] d IH]; [by intros ?%elem_of_nil|].
  cbn. destruct (String.eqb_spec k k0) as [->|Hne].
  - intros _. exists v0. split; [done|by left].
  - intros [[= -> ->]|Hin]%elem_of_cons; [done|].
    destruct (IH Hin) as (v' & ? & ?). exists v'. split; [done|by right].
Qed.

Lemma first_priority_value_Some vals sources v :
  first_priority_value vals sources = Some v ->
  truthy v = true /\ exists s, s ∈ sources /\ Dict.get s vals = Some v.
Proof.
  induction sources as [|s sources IH]; cbn; [done|].
  destruct (Dict.get s vals) as [v'|] eqn:Hs.
  - destruct (truthy v') eqn:Hv'.
    + intros [= <-]. split; [done|]. exists s. split; [by left|done].
    + intros (? & s' & ? & ?)%IH. split; [done|].
      exists s'. split; [by right|done].
  - intros (? & s' & ? & ?)%IH. split; [done|].
    exists s'. split; [by right|done].
Qed.

Lemma first_priority_value_None vals sources s v :
  first_priority_value vals sources = None ->
  s ∈ sources -> Dict.get s vals = Some v -> truthy v = false.
Proof.
  induction sources as [|s0 sources IH]; cbn; [by intros _ ?%elem_of_nil|].
  intros Hnone [->|Hin]%elem_of_cons Hget.
  - rewrite Hget in Hnone. by destruct (truthy v).
  - apply IH; [|done..].
    destruct (Dict.get s0 vals) as [v0|]; [|done].
    by destruct (truthy v0).
Qed.

(** X4. [_resolve_field_conflict] never invents a value: if some observed
    value is truthy it returns a truthy value that is among the observed
    ones, and if every observed value is falsy it returns [None]. *)
Theorem resolution_returns_observed_value fld vals sources :
  let r := _resolve_field_conflict fld vals sources in
  ((exists v, v ∈ Dict.values vals /\ truthy v = true) ->
     truthy r = true /\ r ∈ Dict.values vals) /\
  ((forall v, v ∈ Dict.values vals -> truthy v = false) -> r = PyNone).
Proof.
  cbv zeta. unfold _resolve_field_conflict, Dict.values.
  destruct (first_priority_value vals sources) as [v|] eqn:Hfirst.
  - apply first_priority_value_Some in Hfirst as (Hv & s & _ & Hget).
    apply get_in_values in Hget.
    assert (v ∈ vals.*2) as Hin
      by (by apply (list_elem_of_fmap_2 snd) in Hget).
    split; [done|]. intros Hall. rewrite (Hall v Hin) in Hv. done.
  - destruct (List.find truthy vals.*2) as [v|] eqn:Hfind.
    + apply find_some in Hfind as [Hin%list_elem_of_In Hv].
      split; [done|]. intros Hall. rewrite (Hall v Hin) in Hv. done.
    + split; [|done]. intros (v & Hin%list_elem_of_In & Hv).
      by rewrite (find_none _ _ Hfind v Hin) in Hv.
Qed.

Lemma application_form_in_sources fld sources :
  (fld, sources) ∈ field_priorities -> "application_form" ∈ sources.
Proof.
  intros Hin. unfold field_priorities in Hin.
  repeat (apply elem_of_cons in Hin as [[= -> ->]|Hin];
          [repeat constructor|]).
  by apply elem_of_nil in Hin.
Qed.

(** X5. In a reconciliation run every conflict is settled by the first
    loop of [_resolve_field_conflict]: some source of the priority list
    carries a truthy value in the conflict's values, and
    [resolved_data[field]] is the value of the first such source; the
    fallback loop over the remaining values is never reached. *)
Theorem conflicts_resolved_from_priority_source a ed :
  exists vr,
    reconcile (PyDict a) ed = Ok vr /\
    forall c, c ∈ conflicts vr ->
      exists s v,
        s ∈ priority_sources c /\
        Dict.get s (values c) = Some v /\
        truthy v = true /\
        first_priority_value (values c) (priority_sources c) = Some v /\
        Dict.get (field c) (resolved_data vr) = Some v.
Proof.
  destruct (reconcile_dict re_search py_float py_repr py_lower py_strip a ed)
    as (vr & Hvr & Hcs & Hget).
  exists vr. split; [done|]. intros c Hc.
  pose proof Hc as Hc'. rewrite Hcs in Hc'.
  apply elem_of_run_conflicts in Hc' as (sources & Hin & Hgt & Heq).
  set (obs := observations (field c) sources a ed) in *.
  assert (values c = obs /\ priority_sources c = sources) as [Hvals Hsrc]
    by (by rewrite Heq).
  destruct (observations_invariant (field c) sources a ed)
    as (_ & _ & Hwf). fold obs in Hwf.
  assert (exists v, first_priority_value obs sources = Some v) as [v Hfirst].
  { destruct (first_priority_value obs sources) as [v|] eqn:Hfirst;
      [by eexists|].
    assert (0 < size (unique_values obs)) as Hpos by lia.
    apply size_pos_elem_of in Hpos as [n Hn].
    apply elem_of_unique_values in Hn as (s & v & Hsv & _ & _).
    apply elem_of_get in Hsv as (v' & Hget' & Hsv').
    destruct (Hwf s v' Hsv') as [Hv' Hs].
    assert (s ∈ sources) as Hs'.
    { destruct Hs as [->|]; [|done].
      by apply (application_form_in_sources (field c)). }
    by rewrite (first_priority_value_None _ _ _ _ Hfirst Hs' Hget') in Hv'. }
  destruct (first_priority_value_Some _ _ _ Hfirst) as (Hv & s & Hs & Hgets).
  exists s, v. rewrite Hvals, Hsrc. split_and!; [done..|].
  rewrite Hget, Hcs.
  rewrite (conflicts_of_run _ _ _ _ _ (field c) sources)
    by auto using field_names_NoDup.
  rewrite check_conflicts_cases, decide_True by done.
  cbn [last field values priority_sources].
  unfold _resolve_field_conflict. fold obs. by rewrite Hfirst.
Qed.

Lemma size_two (X : gset string) x y :
  x ∈ X -> y ∈ X -> x <> y -> 1 < size X.
Proof.
  intros Hx Hy Hne.
  assert (({[x]} ∪ {[y]} : gset string) ⊆ X) as Hsub.
  { intros z [Hz|Hz]%elem_of_union; apply elem_of_singleton in Hz;
      by subst z. }
  apply subseteq_size in Hsub.
  rewrite size_union, !size_singleton in Hsub; [lia|].
  apply disjoint_singleton_l. by intros ?%elem_of_singleton.
Qed.

Lemma unique_values_elem obs s v :
  (s, v) ∈ obs -> truthy v = true -> normalize v ∈ unique_values obs.
Proof.
  intros Hin Hv. unfold ValidationAgent.unique_values, Dict.values.
  apply elem_of_list_to_set, list_elem_of_fmap. exists v. split; [done|].
  apply list_elem_of_filter. split; [by apply Is_true_true|].
  by apply (list_elem_of_fmap_2 snd) in Hin.
Qed.

(** X6. The observations of a field hold more than one distinct
    normalized value exactly when the declared value is observed under
    [application_form], the value the field's extractor finds in the
    documents is observed under some source, and the two differ after
    normalization. *)
Theorem conflict_iff_declared_and_extracted_differ a ed fld sources :
  let obs := observations fld sources a ed in
  1 < size (unique_values obs) <->
  ("application_form", declared_value fld a) ∈ obs /\
  (exists s, (s, extracted_value fld ed) ∈ obs) /\
  normalize (declared_value fld a) <> normalize (extracted_value fld ed).
Proof.
  cbv zeta. set (obs := observations fld sources a ed).
  set (nd := normalize (declared_value fld a)).
  set (ne := normalize (extracted_value fld ed)).
  split.
  - intros Hgt.
    assert (forall n, n ∈ unique_values obs -> n = nd \/ n = ne) as Hsub.
    { intros n (s & v & Hin & _ & <-)%elem_of_unique_values.
      destruct (observations_origin _ _ _ _ _ _ _ _ Hin)
        as [_ [->|[_ ->]]]; auto. }
    assert (forall n, (forall m, m ∈ unique_values obs -> m = n) -> False)
      as Hnot1.
    { intros n Hall.
      assert (unique_values obs ⊆ {[n]}) as Hsubset.
      { intros m Hm. apply elem_of_singleton. auto. }
      apply subseteq_size in Hsubset.
      rewrite size_singleton in Hsubset. lia. }
    assert (nd <> ne) as Hne.
    { intros Heq. apply (Hnot1 nd). intros m [->| ->]%Hsub; done. }
    assert (nd ∈ unique_values obs) as Hd.
    { destruct (decide (nd ∈ unique_values obs)) as [|Hnin]; [done|].
      destruct (Hnot1 ne). intros m Hm.
      destruct (Hsub m Hm) as [->| ->]; done. }
    assert (ne ∈ unique_values obs) as He.
    { destruct (decide (ne ∈ unique_values obs)) as [|Hnin]; [done|].
      destruct (Hnot1 nd). intros m Hm.
      destruct (Hsub m Hm) as [->| ->]; done. }
    split_and!; [| |done].
    + apply elem_of_unique_values in Hd as (s & v & Hin & _ & Hn).
      destruct (observations_origin _ _ _ _ _ _ _ _ Hin)
        as [_ [->|[-> ->]]]; [|done].
      by destruct Hne.
    + apply elem_of_unique_values in He as (s & v & Hin & _ & Hn).
      destruct (observations_origin _ _ _ _ _ _ _ _ Hin)
        as [_ [->|[-> ->]]]; [by exists s|].
      by destruct Hne.
  - intros (Hd & [s He] & Hne).
    apply (size_two _ nd ne); [| |done].
    + destruct (observations_origin _ _ _ _ _ _ _ _ Hd) as [Ht _].
      by apply (unique_values_elem _ "application_form").
    + destruct (observations_origin _ _ _ _ _ _ _ _ He) as [Ht _].
      by apply (unique_values_elem _ s).
Qed.

Lemma find_document_no_match fld doc_type ed docs :
  Forall (fun doc => mentions doc_type doc = false) docs ->
  find_document re_search py_float fld doc_type ed (PyStr <$> docs)
  = Ok PyNone.
Proof.
  induction 1 as [|doc docs Hdoc _ IH]; [done|].
  cbn [fmap list_fmap find_document]. unfold mentions in Hdoc.
  by rewrite Hdoc.
Qed.

Lemma sources_in_table fld sources s :
  (fld, sources) ∈ field_priorities -> s ∈ sources -> s ∈ table_sources.
Proof.
  intros Hin. unfold field_priorities in Hin.
  repeat (apply elem_of_cons in Hin as [[= -> ->]|Hin];
          [intros Hs; repeat (apply elem_of_cons in Hs as [->|Hs];
                              [repeat constructor|]);
           by apply elem_of_nil in Hs|]).
  by apply elem_of_nil in Hin.
Qed.

Lemma observations_declared_only fld sources a ed :
  (forall s, s ∈ sources ->
     _extract_field_from_documents re_search py_float fld s ed = PyNone) ->
  observations fld sources a ed = declared_only fld a.
Proof.
  unfold Vocabulary.observations, declared_only.
  generalize (if truthy (declared_value fld a)
              then [("application_form", declared_value fld a)] else []).
  induction sources as [|s sources IH]; intros init Hnone; [done|].
  cbn [fold_left]. unfold add_document_value at 2.
  rewrite Hnone by (by left). cbn [truthy].
  apply IH. intros s' Hs'. apply Hnone. by right.
Qed.

Lemma no_match_no_conflict a d docs :
  default (PyList []) (Dict.get "document_types" d) = PyList (PyStr <$> docs) ->
  (forall s doc, s ∈ table_sources -> doc ∈ docs -> mentions s doc = false) ->
  exists vr,
    reconcile (PyDict a) (PyDict d) = Ok vr /\
    conflicts vr = [] /\
    is_valid vr = true /\
    (vr_confidence_score vr == 1)%Q /\
    forall fld sources, (fld, sources) ∈ field_priorities ->
      Dict.get fld (resolved_data vr) = Some (PyDict (declared_only fld a)).
Proof.
  intros Hdocs Hno.
  assert (forall fld sources, (fld, sources) ∈ field_priorities ->
            observations fld sources a (PyDict d) = declared_only fld a)
    as Hobs.
  { intros fld sources Hin. apply observations_declared_only.
    intros s Hs. unfold _extract_field_from_documents.
    cbn [py_get]. rewrite Hdocs. cbn [mbind exn_bind py_iter].
    rewrite find_document_no_match; [done|].
    apply Forall_forall. intros doc Hdoc. apply Hno; [|done].
    by apply (sources_in_table fld sources). }
  assert (run_conflicts field_priorities a (PyDict d) = []) as Hcs.
  { unfold Vocabulary.run_conflicts.
    assert (forall fields, (forall fs, fs ∈ fields -> fs ∈ field_priorities) ->
              flat_map
                (fun '(fld, sources) =>
                   check_conflicts py_repr py_lower py_strip fld
                     (observations fld sources a (PyDict d)) sources)
                fields = []) as Hall; [|by apply Hall].
    induction fields as [|[fld sources] fields IH]; intros Hsub; [done|].
    cbn [flat_map]. rewrite IH by (intros; apply Hsub; by right).
    rewrite app_nil_r, check_conflicts_cases, decide_False; [done|].
    rewrite Hobs by (apply Hsub; by left).
    pose proof (size_unique_values_le py_repr py_lower py_strip
                  (declared_only fld a)) as Hle.
    unfold declared_only in *.
    destruct (truthy (declared_value fld a)); cbn [length] in Hle; lia. }
  destruct (reconcile_dict re_search py_float py_repr py_lower py_strip a (PyDict d))
    as (vr & Hvr & Hcs' & Hget).
  exists vr. rewrite Hcs in Hcs'.
  destruct (confidence_cases a (PyDict d))
    as (vr' & Hvr' & Hvalid & _).
  rewrite Hvr in Hvr'. injection Hvr' as <-.
  destruct (Hvalid Hcs') as [? ?].
  split_and!; [done..|].
  intros fld sources Hin. rewrite Hget, Hcs'.
  unfold conflicts_of. rewrite filter_nil. cbn [last].
  rewrite (validated_get _ _ fld sources) by done. by rewrite Hobs.
Qed.

(** X7. When no entry of ['document_types'] mentions a source of the
    priority table (the substring test of
    [_extract_field_from_documents]), nothing is read from the documents:
    the run has no conflict, is valid with confidence 1, and
    [resolved_data[field]] is the one-entry dict of the declared value
    (the empty dict when the field was not declared). *)
Theorem unmatched_documents_leave_declared_values a d docs :
  default (PyList []) (Dict.get "document_types" d) = PyList (PyStr <$> docs) ->
  (forall s doc, s ∈ table_sources -> doc ∈ docs -> mentions s doc = false) ->
  exists vr,
    reconcile (PyDict a) (PyDict d) = Ok vr /\
    conflicts vr = [] /\
    is_valid vr = true /\
    (vr_confidence_score vr == 1)%Q /\
    forall fld sources, (fld, sources) ∈ field_priorities ->
      Dict.get fld (resolved_data vr) = Some (PyDict (declared_only fld a)).
Proof. apply no_match_no_conflict. Qed.

(** X8. [ValidationAgent.process] succeeds exactly when
    ['application_data'] is a non-empty dict and ['extracted_data'] is
    truthy; a failure carries no payload and confidence 0, a missing
    input is reported as "Missing application or extracted data", and a
    success carries the payload [validation_result], [is_valid],
    [confidence] with the run's confidence as its score. *)
Theorem validation_succeeds_iff_both_inputs_given input :
  let application_data :=
    default (PyDict []) (Dict.get "application_data" input) in
  let extracted_data :=
    default (PyDict []) (Dict.get "extracted_data" input) in
  let r := process re_search py_float py_repr py_lower py_strip input in
  (success r = true <->
     (exists a, application_data = PyDict a /\ a <> []) /\
     truthy extracted_data = true) /\
  (success r = false -> data r = None /\ (confidence_score r == 0)%Q) /\
  (truthy application_data = false \/ truthy extracted_data = false ->
     error r = Some "Missing application or extracted data") /\
  (success r = true ->
     exists vr,
       reconcile application_data extracted_data = Ok vr /\
       data r = Some [("validation_result", ValidationResult_dict vr);
                      ("is_valid", PyBool (is_valid vr));
                      ("confidence", PyFloat (vr_confidence_score vr))] /\
       confidence_score r = vr_confidence_score vr).
Proof.
  cbv zeta. unfold process.
  set (app := default (PyDict []) (Dict.get "application_data" input)).
  set (ed := default (PyDict []) (Dict.get "extracted_data" input)).
  clearbody app ed.
  destruct (truthy app) eqn:Happ; cbn [negb orb].
  2:{ cbn. split_and!; try done.
      split; [done|]. intros [(a & Heq & Hne) _].
      rewrite Heq in Happ. by destruct a. }
  destruct (truthy ed) eqn:Hed; cbn [negb orb].
  2:{ cbn. split_and!; try done. split; [done|]. by intros [_ ?]. }
  destruct app as [| | | | | |a]; cbn in Happ; try done.
  1-5: (cbn; split_and!;
        [split; [done|by intros [(a & ? & _) _]]|done|by intros [|]|done]).
  rewrite reconcile_result. cbn. split_and!; try done.
  - split; [|done]. intros _. split; [|done]. exists a. split; [done|].
    by destruct a.
  - by intros [|].
  - intros _. eexists. split; [reflexivity|]. done.
Qed.

End Engine.

(** ** The engine on the sample payloads *)

Lemma unmatched_documents_leave_declared_values_witness :
  exists vr,
    Sample.reconcile Sample.declared Upload.text_only = Ok vr /\
    conflicts vr = [] /\
    is_valid vr = true /\
    (vr_confidence_score vr == 1)%Q /\
    forall fld sources, (fld, sources) ∈ field_priorities ->
      Dict.get fld (resolved_data vr)
      = Some (PyDict (declared_only fld Sample.declared)).
Proof.
  apply (unmatched_documents_leave_declared_values Sample.re_search
           Sample.py_float Sample.py_repr Sample.py_lower Sample.py_strip
           Sample.declared Upload.text_only
           ["text"]).
  - reflexivity.
  - intros s doc Hs Hdoc. apply list_elem_of_singleton in Hdoc as ->.
    unfold table_sources in Hs.
    repeat (apply elem_of_cons in Hs as [->|Hs]; [reflexivity|]).
    by apply elem_of_nil in Hs.
Defined.

End ReconciliationExtras.

(** * Further properties of the pipeline *)

Module PipelineExtras.
Import MasterAgent Vocabulary DictFacts PipelineProperties.

Ltac split_call a x :=
  let inp := fresh "inp" in
  let ok := fresh "ok" in
  set (inp := x) in *; clearbody inp;
  repeat match goal with H : context [a inp] |- _ => revert H end;
  destruct (a inp) as [[ok ? ? ?]|?]; [destruct ok|].

Ltac split_call_keep a x :=
  let ok := fresh "ok" in
  destruct (a x) as [[ok ? ? ?]|?]; [destruct ok|].

Ltac run_agents se sv sg e v g :=
  unfold stage_succeeded, stage_failed, invoked;
  match goal with
  | |- context [MasterAgent.final_state ?e' ?v' ?g' ?u ?t ?i] =>
      let st := fresh "st" in
      let Hst := fresh "Hst" in
      remember (MasterAgent.final_state e' v' g' u t i) as st eqn:Hst;
      revert Hst
  end;
  unfold MasterAgent.final_state, enumerate;
  cbn -[run_step];
  repeat (first
    [ match goal with
      | |- context [e ?x] => se e x
      | |- context [v ?x] => sv v x
      | |- context [g ?x] => sg g x
      | |- context [data_value (mkProcessingResult _ ?d _ _)] =>
          is_var d; destruct d
      | |- context [Dict.mem "resolved_data" ?d] =>
          unfold Dict.mem; destruct (Dict.get "resolved_data" d)
      end
    | unfold run_step at 1, _execute_agent_step ];
    cbn -[run_step]);
  intros; simplify_eq; cbn in *.

Section Runs.

Context (py_repr : pyval -> string) (format_percent : Q -> string).
Context (extraction_agent validation_agent eligibility_agent
         : pydict -> exn ProcessingResult).
Context (uuid4 utcnow : string).

Local Abbreviation final_state :=
  (final_state extraction_agent validation_agent eligibility_agent
     uuid4 utcnow).
Local Abbreviation process :=
  (process py_repr format_percent extraction_agent validation_agent
     eligibility_agent uuid4 utcnow).

Ltac run := run_agents split_call split_call split_call
              extraction_agent validation_agent eligibility_agent.
Ltac run_keeping_inputs :=
  run_agents split_call_keep split_call_keep split_call_keep
    extraction_agent validation_agent eligibility_agent.

Lemma str_in_false k l : str_in k l = false -> Forall (fun x => k <> x) l.
Proof.
  unfold str_in. induction l as [|x l IH]; cbn; [by constructor|].
  intros [Hx Hl]%orb_false_elim. constructor; [|auto].
  by apply String.eqb_neq.
Qed.

(** X9. The terminal status of a run is determined by what happened:
    it is "failed" exactly when the extraction stage failed,
    "completed_successfully" exactly when no error was recorded, and
    "completed_with_errors" exactly when extraction succeeded and an
    error was recorded. *)
Theorem terminal_status_determined input :
  let st := final_state input in
  (status st = "failed" <-> stage_failed "extraction" st = true) /\
  (status st = "completed_successfully" <-> errors st = []) /\
  (status st = "completed_with_errors" <->
     stage_succeeded "extraction" st = true /\ errors st <> []).
Proof.
  cbv zeta. run; split_and!; split; try done; try by intros [? ?].
Qed.

(** X10. Bookkeeping of a run: [results] has one entry per stage that
    succeeded, in the order the stages ran; every stage that failed has
    an error record; every error record names a stage that was invoked;
    [current_step] counts the stages invoked; and there are never more
    errors than invocations. *)
Theorem results_and_errors_bookkeeping input :
  let st := final_state input in
  Dict.keys (results st)
    = call_step <$>
        List.filter (fun c => negb (stage_fails (call_outcome c))) (calls st)
  /\
  (forall c, c ∈ calls st -> stage_fails (call_outcome c) = true ->
     call_step c ∈ step <$> errors st) /\
  (forall e, e ∈ errors st -> step e ∈ invoked st) /\
  current_step st = length (calls st) /\
  length (errors st) <= length (calls st).
Proof.
  cbv zeta. run.
  all: split_and!; [done| | |done|lia].
  all: intros x Hx;
    repeat (apply elem_of_cons in Hx as [->|Hx];
            [cbn; intros; try done; repeat constructor|]);
    by apply elem_of_nil in Hx.
Qed.

Lemma process_failure_inv input :
  success (process input) = false ->
  data (process input) = None /\
  confidence_score (process input) = 0%Q /\
  exists msg, error (process input) = Some msg.
Proof.
  unfold MasterAgent.process.
  assert (forall msg,
            data (BaseAgent.create_error_result msg) = None /\
            confidence_score (BaseAgent.create_error_result msg) = 0%Q /\
            exists m, error (BaseAgent.create_error_result msg) = Some m)
    as Herr by (intros msg; split_and!; [done..|by eexists]).
  destruct (_aggregate_workflow_results _ _ _) as [agg|];
    cbn [mbind exn_bind try_except]; [|intros _; apply Herr].
  destruct (str_in _ _); [intros _; apply Herr|].
  destruct (_calculate_workflow_confidence _) as [q|];
    cbn [mbind exn_bind try_except]; [done|intros _; apply Herr].
Qed.

(** X11. A run that is answered with [success = False] carries no
    payload ([data] is [None], so the aggregated stage results are not
    returned), confidence 0 and an error message. *)
Theorem failure_result_has_no_payload input :
  success (process input) = false ->
  data (process input) = None /\
  confidence_score (process input) = 0%Q /\
  exists msg, error (process input) = Some msg.
Proof. apply process_failure_inv. Qed.

Lemma process_success_inv input :
  success (process input) = true ->
  exists agg q,
    _aggregate_workflow_results py_repr format_percent (final_state input)
      = Ok agg /\
    str_in (status (final_state input)) ["failed"; "completed_with_errors"]
      = false /\
    _calculate_workflow_confidence (final_state input) = Ok q /\
    process input = BaseAgent.create_success_result agg q.
Proof.
  unfold MasterAgent.process.
  destruct (_aggregate_workflow_results _ _ _) as [agg|];
    cbn [mbind exn_bind try_except]; [|done].
  destruct (str_in _ _) eqn:Hst; [done|].
  destruct (_calculate_workflow_confidence _) as [q|];
    cbn [mbind exn_bind try_except]; [|done].
  intros _. by exists agg, q.
Qed.

Lemma sum_confidences_payloads rs acc res :
  sum_confidences rs acc = Ok res ->
  Forall (fun kv => kv.2 <> PyNone) rs.
Proof.
  revert acc. induction rs as [|[k v] rs IH]; intros acc; [by constructor|].
  cbn [sum_confidences].
  destruct (py_in "confidence" v) as [has|] eqn:Hin;
    cbn [mbind exn_bind]; [|done].
  assert (v <> PyNone) as Hv by (by intros ->).
  destruct has.
  - destruct (py_getitem v "confidence") as [c|]; cbn [mbind exn_bind];
      [|done].
    destruct (py_num c) as [x|]; cbn [mbind exn_bind]; [|done].
    intros ?%IH. by constructor.
  - intros ?%IH. by constructor.
Qed.

Lemma workflow_confidence_payloads st q :
  _calculate_workflow_confidence st = Ok q ->
  Forall (fun kv => kv.2 <> PyNone) (results st).
Proof.
  unfold _calculate_workflow_confidence.
  destruct (results st) as [|kv rs] eqn:Hrs; [by constructor|].
  destruct (sum_confidences _ _) as [res|] eqn:Hsum; [|done].
  intros _. by apply sum_confidences_payloads in Hsum.
Qed.

(** What a run that is answered with success looks like. *)
Lemma successful_state input agg :
  _aggregate_workflow_results py_repr format_percent (final_state input)
    = Ok agg ->
  str_in (status (final_state input)) ["failed"; "completed_with_errors"]
    = false ->
  Forall (fun kv => kv.2 <> PyNone) (results (final_state input)) ->
  let st := final_state input in
  status st = "completed_successfully" /\
  errors st = [] /\
  invoked st = workflow_steps /\
  exists d1 d2 d3,
    results st = [("extraction", PyDict d1); ("validation", PyDict d2);
                  ("eligibility", PyDict d3)] /\
    agg = [("workflow_id", PyStr uuid4);
           ("status", PyStr "completed_successfully");
           ("start_time", PyStr utcnow);
           ("end_time", PyStr utcnow);
           ("total_steps", PyInt 3);
           ("completed_steps", PyInt 3);
           ("errors", PyList []);
           ("extraction_result", PyDict d1);
           ("validation_result", PyDict d2);
           ("eligibility_result", PyDict d3)].
Proof.
  cbv zeta. intros Hagg Hst Hnn. revert Hagg Hst Hnn.
  set (P := fun st : WorkflowState => forall
    (Hagg : _aggregate_workflow_results py_repr format_percent st = Ok agg)
    (Hst : str_in (status st) ["failed"; "completed_with_errors"] = false)
    (Hnn : Forall (fun kv => kv.2 <> PyNone) (results st)),
    status st = "completed_successfully" /\
    errors st = [] /\
    invoked st = workflow_steps /\
    exists d1 d2 d3,
      results st = [("extraction", PyDict d1); ("validation", PyDict d2);
                    ("eligibility", PyDict d3)] /\
      agg = [("workflow_id", PyStr uuid4);
             ("status", PyStr "completed_successfully");
             ("start_time", PyStr utcnow);
             ("end_time", PyStr utcnow);
             ("total_steps", PyInt 3);
             ("completed_steps", PyInt 3);
             ("errors", PyList []);
             ("extraction_result", PyDict d1);
             ("validation_result", PyDict d2);
             ("eligibility_result", PyDict d3)]).
  enough (P (final_state input)) as HP by exact HP.
  run; subst P; cbn; intros Hagg Hst Hnn; vm_compute in Hst; try done;
    try (repeat (apply Forall_cons in Hnn as [? Hnn]); done);
    vm_compute in Hagg; simplify_eq;
    (split_and!; [done..|by eexists _, _, _]).
Qed.

(** X12. A run is answered with [success = True] only if all three
    stages were invoked and each left a dict payload: the status is
    "completed_successfully", no error was recorded, and the returned
    payload is exactly the ten entries [workflow_id], [status],
    [start_time], [end_time], [total_steps] 3, [completed_steps] 3, an
    empty [errors] list and the three stage payloads under
    [extraction_result], [validation_result] and
    [eligibility_result]. *)
Theorem success_means_three_payloads input :
  success (process input) = true ->
  let st := final_state input in
  status st = "completed_successfully" /\
  errors st = [] /\
  invoked st = workflow_steps /\
  exists d1 d2 d3,
    results st = [("extraction", PyDict d1); ("validation", PyDict d2);
                  ("eligibility", PyDict d3)] /\
    data (process input)
    = Some [("workflow_id", PyStr uuid4);
            ("status", PyStr "completed_successfully");
            ("start_time", PyStr utcnow);
            ("end_time", PyStr utcnow);
            ("total_steps", PyInt 3);
            ("completed_steps", PyInt 3);
            ("errors", PyList []);
            ("extraction_result", PyDict d1);
            ("validation_result", PyDict d2);
            ("eligibility_result", PyDict d3)].
Proof.
  intros (agg & q & Hagg & Hst & Hq & Hproc)%process_success_inv.
  apply workflow_confidence_payloads in Hq.
  destruct (successful_state input agg Hagg Hst Hq)
    as (H1 & H2 & H3 & d1 & d2 & d3 & H4 & H5).
  cbv zeta. split_and!; [done..|].
  exists d1, d2, d3. split; [done|]. rewrite Hproc. cbn. by rewrite H5.
Qed.

Lemma clamp01_bounds x : (0 <= clamp01 x <= 1)%Q.
Proof.
  unfold clamp01. split; [apply Q.le_max_l|].
  apply Q.max_lub; [done|apply Q.le_min_l].
Qed.

(** X13. The confidence of a run answered with [success = True] has no
    error penalty: it is the mean of the ['confidence'] entries of the
    stage payloads clamped to [0, 1] (0 when no payload has such an
    entry), and lies between 0 and 1. *)
Theorem success_confidence_has_no_penalty input :
  success (process input) = true ->
  let st := final_state input in
  (error_penalty st == 0)%Q /\
  (0 <= confidence_score (process input) <= 1)%Q /\
  (confidence_score (process input)
   == match payload_confidences st with
      | [] => 0
      | cs => clamp01 (mean cs)
      end)%Q.
Proof.
  intros (agg & q & Hagg & Hst & Hq & ->)%process_success_inv.
  destruct (successful_state input agg Hagg Hst
              (workflow_confidence_payloads _ _ Hq)) as (_ & Herr & _).
  cbv zeta. cbn [confidence_score BaseAgent.create_success_result].
  apply workflow_confidence_spec in Hq as ->.
  assert (error_penalty (final_state input) == 0)%Q as Hpen.
  { unfold error_penalty. rewrite Herr. cbn [length]. by vm_compute. }
  split; [done|]. unfold penalised_mean.
  destruct (payload_confidences _) as [|c cs]; [by split|].
  split; [apply clamp01_bounds|].
  assert (forall x, x - 0 == x)%Q as Hminus by (intros; ring).
  unfold clamp01. by rewrite Hpen, Hminus.
Qed.

Lemma caller_entries_preserved input k c :
  str_in k orchestrator_keys = false ->
  c ∈ calls (final_state input) ->
  Dict.get k (call_input c) = Dict.get k input.
Proof.
  intros Hk%str_in_false. unfold orchestrator_keys in Hk.
  repeat (apply Forall_cons in Hk as [? Hk]). clear Hk.
  revert c. run_keeping_inputs.
  all: match goal with
       | H : _ ∈ _ |- _ =>
           repeat (apply elem_of_cons in H as [->|H]);
           try (by apply elem_of_nil in H)
       end.
  all: cbn [call_input].
  all: change ("extraction" +:+ "_result") with "extraction_result";
    change ("validation" +:+ "_result") with "validation_result".
  all: repeat (rewrite ?get_set_ne by done;
               match goal with
               | |- context [if ?b then _ else _] => destruct b
               end).
  all: by rewrite ?get_set_ne by done.
Qed.

(** X14. Every entry of the caller's input whose key is not one the
    orchestrator writes itself reaches every stage unchanged:
    [_prepare_step_input] and [_prepare_input_for_next_step] only add or
    overwrite the orchestrator's own keys. *)
Theorem caller_entries_reach_every_stage input k c :
  str_in k orchestrator_keys = false ->
  c ∈ calls (final_state input) ->
  Dict.get k (call_input c) = Dict.get k input.
Proof. apply caller_entries_preserved. Qed.

(** X15. Whenever the validation stage is invoked, the extraction stage
    has succeeded before it, and the validation input carries the
    extraction payload under both ['extracted_data'] and
    ['extraction_result'], with [workflow_context.current_step] set to
    "validation" and [workflow_context.previous_results] holding the
    extraction payload only. *)
Theorem validation_receives_extraction_payload input c :
  c ∈ calls (final_state input) ->
  call_step c = "validation" ->
  exists c0 r,
    c0 ∈ calls (final_state input) /\
    call_step c0 = "extraction" /\
    call_outcome c0 = Ok r /\
    success r = true /\
    Dict.get "extracted_data" (call_input c) = Some (data_value r) /\
    Dict.get "extraction_result" (call_input c) = Some (data_value r) /\
    lookup_path ["workflow_context"; "current_step"] (PyDict (call_input c))
      = Some (PyStr "validation") /\
    lookup_path ["workflow_context"; "previous_results"]
      (PyDict (call_input c))
      = Some (PyDict [("extraction", data_value r)]).
Proof.
  revert c.
  run_agents split_call split_call_keep split_call
    extraction_agent validation_agent eligibility_agent.
  all: match goal with
       | H : _ ∈ _ |- _ =>
           repeat (apply elem_of_cons in H as [->|H]);
           try (by apply elem_of_nil in H)
       end; try done.
  all: eexists _, _; split; [apply list_elem_of_here|].
  all: split_and!; try done; cbn [call_input].
  all: change ("extraction" +:+ "_result") with "extraction_result".
  all: repeat (first
         [ progress rewrite get_set
         | progress cbn
         | match goal with
           | |- context [if Dict.mem ?k ?d then _ else _] =>
               destruct (Dict.mem k d)
           | |- context [match Dict.get ?k ?d with _ => _ end] =>
               destruct (Dict.get k d)
           end ]).
  all: done.
Qed.

End Runs.

(** ** The pipeline on the sample application *)

Lemma failure_result_has_no_payload_witness :
  let r := Sample.process Sample.no_documents Sample.approved
             Sample.application in
  success r = false /\
  data r = None /\
  confidence_score r = 0%Q /\
  exists msg, error r = Some msg.
Proof.
  split; [vm_compute; reflexivity|].
  apply (failure_result_has_no_payload Sample.py_repr Sample.format_percent
           Sample.no_documents Sample.validation_agent Sample.approved).
  vm_compute. reflexivity.
Defined.

Lemma success_means_three_payloads_witness :
  let r := Sample.process Sample.extracted Sample.approved
             Sample.application in
  let st := Sample.final_state Sample.extracted Sample.approved
              Sample.application in
  success r = true /\
  status st = "completed_successfully" /\
  errors st = [] /\
  invoked st = workflow_steps /\
  exists d1 d2 d3,
    results st = [("extraction", PyDict d1); ("validation", PyDict d2);
                  ("eligibility", PyDict d3)] /\
    data r
    = Some [("workflow_id", PyStr "workflow-1");
            ("status", PyStr "completed_successfully");
            ("start_time", PyStr "2024-01-01T00:00:00");
            ("end_time", PyStr "2024-01-01T00:00:00");
            ("total_steps", PyInt 3);
            ("completed_steps", PyInt 3);
            ("errors", PyList []);
            ("extraction_result", PyDict d1);
            ("validation_result", PyDict d2);
            ("eligibility_result", PyDict d3)].
Proof.
  split; [vm_compute; reflexivity|].
  apply (success_means_three_payloads Sample.py_repr Sample.format_percent
           Sample.extracted Sample.validation_agent Sample.approved).
  vm_compute. reflexivity.
Defined.

Lemma success_confidence_has_no_penalty_witness :
  let r := Sample.process Sample.extracted Sample.approved
             Sample.application in
  let st := Sample.final_state Sample.extracted Sample.approved
              Sample.application in
  success r = true /\
  (error_penalty st == 0)%Q /\
  (0 <= confidence_score r <= 1)%Q /\
  (confidence_score r
   == match payload_confidences st with
      | [] => 0
      | cs => clamp01 (mean cs)
      end)%Q.
Proof.
  split; [vm_compute; reflexivity|].
  apply (success_confidence_has_no_penalty Sample.py_repr
           Sample.format_percent Sample.extracted Sample.validation_agent
           Sample.approved).
  vm_compute. reflexivity.
Defined.

Lemma caller_entries_reach_every_stage_witness :
  let st := MasterAgent.final_state Sample.extracted Sample.validation_agent
              Sample.approved "workflow-1" "2024-01-01T00:00:00"
              Sample.application in
  length (calls st) = 3 /\
  Forall (fun c => Dict.get "application_data" (call_input c)
                   = Some (PyDict Sample.declared))
    (calls st).
Proof.
  cbv zeta. split; [vm_compute; reflexivity|].
  apply Forall_forall. intros c Hc.
  apply (caller_entries_reach_every_stage Sample.extracted
           Sample.validation_agent Sample.approved "workflow-1"
           "2024-01-01T00:00:00" Sample.application "application_data" c).
  - vm_compute. reflexivity.
  - exact Hc.
Defined.

Lemma validation_receives_extraction_payload_witness :
  let st := MasterAgent.final_state Sample.extracted Sample.validation_agent
              Sample.approved "workflow-1" "2024-01-01T00:00:00"
              Sample.application in
  exists c,
    calls st !! 1%nat = Some c /\
    call_step c = "validation" /\
    exists c0 r,
      c0 ∈ calls st /\
      call_step c0 = "extraction" /\
      call_outcome c0 = Ok r /\
      success r = true /\
      Dict.get "extracted_data" (call_input c) = Some (data_value r) /\
      Dict.get "extraction_result" (call_input c) = Some (data_value r) /\
      lookup_path ["workflow_context"; "current_step"] (PyDict (call_input c))
        = Some (PyStr "validation") /\
      lookup_path ["workflow_context"; "previous_results"]
        (PyDict (call_input c))
        = Some (PyDict [("extraction", data_value r)]).
Proof.
  cbv zeta.
  destruct (calls (MasterAgent.final_state Sample.extracted
                     Sample.validation_agent Sample.approved "workflow-1"
                     "2024-01-01T00:00:00" Sample.application) !! 1%nat)
    as [c|] eqn:Hc;
    [|vm_compute in Hc; discriminate].
  exists c. split; [reflexivity|].
  assert (call_step c = "validation") as Hstep
    by (vm_compute in Hc; injection Hc as <-; reflexivity).
  split; [exact Hstep|].
  apply (validation_receives_extraction_payload Sample.extracted
           Sample.validation_agent Sample.approved "workflow-1"
           "2024-01-01T00:00:00" Sample.application c).
  - exact (list_elem_of_lookup_2 _ _ _ Hc).
  - exact Hstep.
Defined.

End PipelineExtras.

(** * Properties of the extraction agent *)

Module ExtractionProperties.
Import ValidationAgent ExtractionAgent Vocabulary DictFacts
  ReconciliationExtras.

Lemma consolidate_one_lengths acc data acc' :
  consolidate_one acc data = Ok acc' ->
  document_types acc' = document_types acc ++ [recorded_type data] /\
  length (all_text_content acc') = S (length (all_text_content acc)) /\
  length (confidence_scores acc') = S (length (confidence_scores acc)).
Proof.
  unfold consolidate_one. destruct data as [| | | | | |d]; try done.
  cbn [py_get py_in mbind exn_bind].
  destruct (Dict.mem "structured_data" d).
  - destruct (py_getitem _ _) as [[| | | | | |items]|];
      cbn [mbind exn_bind]; try done.
    intros [= <-]. cbn. rewrite !length_app. cbn. split_and!; [done|lia..].
  - cbn [mbind exn_bind]. intros [= <-]. cbn. rewrite !length_app. cbn.
    split_and!; [done|lia..].
Qed.

Lemma consolidate_all_lengths acc datas acc' :
  consolidate_all acc datas = Ok acc' ->
  document_types acc' = document_types acc ++ (recorded_type <$> datas) /\
  length (all_text_content acc')
    = (length (all_text_content acc) + length datas)%nat /\
  length (confidence_scores acc')
    = (length (confidence_scores acc) + length datas)%nat.
Proof.
  revert acc. induction datas as [|data datas IH]; intros acc.
  - intros [= <-]. rewrite app_nil_r. cbn. split_and!; [done|lia..].
  - cbn [consolidate_all].
    destruct (consolidate_one acc data) as [acc1|] eqn:Hone;
      cbn [mbind exn_bind]; [|done].
    apply consolidate_one_lengths in Hone as (H1 & H2 & H3).
    intros (H1' & H2' & H3')%IH.
    rewrite H1', H1, H2', H2, H3', H3, <-app_assoc. cbn.
    split_and!; [done|lia..].
Qed.

Lemma consolidate_data_inv datas c :
  _consolidate_data datas = Ok c ->
  Dict.keys c = ["total_documents"; "document_types"; "all_text_content";
                 "structured_data"; "confidence_scores"] /\
  Dict.get "total_documents" c = Some (PyInt (Z.of_nat (length datas))) /\
  Dict.get "document_types" c = Some (PyList (recorded_type <$> datas)) /\
  exists texts scores,
    Dict.get "all_text_content" c = Some (PyList texts) /\
    Dict.get "confidence_scores" c = Some (PyList scores) /\
    length texts = length datas /\
    length scores = length datas.
Proof.
  unfold _consolidate_data.
  destruct (consolidate_all _ _) as [acc|] eqn:Hall; [|done].
  apply consolidate_all_lengths in Hall as (H1 & H2 & H3).
  cbn in H1, H2, H3. intros [= <-]. cbn. rewrite H1.
  split_and!; [done..|]. by eexists _, _.
Qed.

(** X16. Whenever [_consolidate_data] returns, the consolidated payload
    has exactly the five keys [total_documents], [document_types],
    [all_text_content], [structured_data], [confidence_scores];
    [total_documents] is the number of payloads; [document_types] lists,
    in order, each payload's ['content_type'] (or 'unknown'); and the
    text and confidence lists have one entry per payload, so the three
    lists stay aligned. *)
Theorem consolidated_lists_are_aligned datas c :
  _consolidate_data datas = Ok c ->
  Dict.keys c = ["total_documents"; "document_types"; "all_text_content";
                 "structured_data"; "confidence_scores"] /\
  Dict.get "total_documents" c = Some (PyInt (Z.of_nat (length datas))) /\
  Dict.get "document_types" c = Some (PyList (recorded_type <$> datas)) /\
  exists texts scores,
    Dict.get "all_text_content" c = Some (PyList texts) /\
    Dict.get "confidence_scores" c = Some (PyList scores) /\
    length texts = length datas /\
    length scores = length datas.
Proof. apply consolidate_data_inv. Qed.

Section Extraction.

Context (re_search : string -> string -> option string).
Context (py_float : string -> option Q).
Context (py_repr : pyval -> string).
Context (py_lower py_strip : string -> string).
Context (path_exists : pyval -> exn bool).
Context (_extract_from_pdf _extract_from_image _extract_from_excel
         _extract_from_text : pyval -> ProcessingResult).

Local Abbreviation _process_document :=
  (_process_document py_repr path_exists _extract_from_pdf
     _extract_from_image _extract_from_excel _extract_from_text).
Local Abbreviation process_documents :=
  (process_documents py_repr path_exists _extract_from_pdf
     _extract_from_image _extract_from_excel _extract_from_text).
Local Abbreviation process :=
  (process py_repr path_exists _extract_from_pdf
     _extract_from_image _extract_from_excel _extract_from_text).
Local Abbreviation processed := (processed _process_document).

Lemma process_document_cases doc :
  success (_process_document doc) = true ->
  exists d path ft,
    doc = PyDict d /\
    Dict.get "file_path" d = Some path /\
    truthy path = true /\
    path_exists path = Ok true /\
    default (PyStr "") (Dict.get "file_type" d) = PyStr ft /\
    ((str_lower ft = "pdf" /\
      _process_document doc = _extract_from_pdf path) \/
     (str_lower ft ∈ ["png"; "jpg"; "jpeg"] /\
      _process_document doc = _extract_from_image path) \/
     (str_lower ft ∈ ["xlsx"; "xls"] /\
      _process_document doc = _extract_from_excel path) \/
     (str_lower ft = "txt" /\
      _process_document doc = _extract_from_text path)).
Proof.
  unfold ExtractionAgent._process_document.
  destruct doc as [| | | | | |d]; try done.
  cbn [py_get mbind exn_bind].
  destruct (default (PyStr "") (Dict.get "file_type" d))
    as [| | | |ft| |] eqn:Hft; try done.
  cbn [mbind exn_bind].
  destruct (truthy (default PyNone (Dict.get "file_path" d))) eqn:Htruthy;
    cbn [negb mbind exn_bind]; [|done].
  destruct (Dict.get "file_path" d) as [path|] eqn:Hpath; [|done].
  cbn [default from_option id] in Htruthy |- *.
  destruct (path_exists path) as [[|]|] eqn:Hexists;
    cbn [negb mbind exn_bind try_except]; try done.
  intros Hok. exists d, path, ft. split_and!; try done.
  revert Hok.
  destruct (String.eqb (str_lower ft) "pdf") eqn:Hpdf.
  { apply String.eqb_eq in Hpdf. intros _. by left. }
  destruct (str_in (str_lower ft) ["png"; "jpg"; "jpeg"]) eqn:Himg.
  { intros _. right; left. split; [|done].
    unfold str_in in Himg. apply existsb_exists in Himg as (x & Hx & Heq).
    apply String.eqb_eq in Heq as ->. by apply list_elem_of_In. }
  destruct (str_in (str_lower ft) ["xlsx"; "xls"]) eqn:Hxls.
  { intros _. right; right; left. split; [|done].
    unfold str_in in Hxls. apply existsb_exists in Hxls as (x & Hx & Heq).
    apply String.eqb_eq in Heq as ->. by apply list_elem_of_In. }
  destruct (String.eqb (str_lower ft) "txt") eqn:Htxt.
  { apply String.eqb_eq in Htxt. intros _. by right; right; right. }
  done.
Qed.

(** X17. [_process_document] succeeds only on a dict whose
    ['file_path'] is truthy and exists and whose ['file_type'] is,
    ignoring case, one of pdf, png, jpg, jpeg, xlsx, xls, txt; its
    result is then the result of the extractor for that type on the
    path. A missing file, an unsupported type or a malformed document
    never yields a success. *)
Theorem only_supported_existing_files_are_extracted doc :
  success (_process_document doc) = true ->
  exists d path ft,
    doc = PyDict d /\
    Dict.get "file_path" d = Some path /\
    truthy path = true /\
    path_exists path = Ok true /\
    default (PyStr "") (Dict.get "file_type" d) = PyStr ft /\
    ((str_lower ft = "pdf" /\
      _process_document doc = _extract_from_pdf path) \/
     (str_lower ft ∈ ["png"; "jpg"; "jpeg"] /\
      _process_document doc = _extract_from_image path) \/
     (str_lower ft ∈ ["xlsx"; "xls"] /\
      _process_document doc = _extract_from_excel path) \/
     (str_lower ft = "txt" /\
      _process_document doc = _extract_from_text path)).
Proof. apply process_document_cases. Qed.

Lemma process_documents_spec docs extracted total :
  fold_left
    (fun '(extracted_data, total_confidence) doc =>
       let doc_result := _process_document doc in
       if success doc_result
       then (extracted_data ++ [data_value doc_result],
             (total_confidence + confidence_score doc_result)%Q)
       else (extracted_data, total_confidence))
    docs (extracted, total)
  = (extracted ++ (data_value <$> processed docs),
     fold_left Qplus (confidence_score <$> processed docs) total).
Proof.
  unfold Vocabulary.processed. revert extracted total.
  induction docs as [|doc docs IH]; intros extracted total.
  - cbn. by rewrite app_nil_r.
  - cbn [fold_left fmap list_fmap List.filter]. cbv zeta.
    destruct (success (_process_document doc)).
    + rewrite IH. cbn [fmap list_fmap fold_left]. by rewrite <-app_assoc.
    + apply IH.
Qed.

Lemma process_inv input :
  let r := process input in
  let documents := default (PyList []) (Dict.get "documents" input) in
  (success r = true ->
   exists docs d,
     truthy documents = true /\
     py_iter documents = Ok docs /\
     processed docs <> [] /\
     _consolidate_data (data_value <$> processed docs) = Ok d /\
     data r = Some d /\
     confidence_score r = mean (confidence_score <$> processed docs)) /\
  (success r = false ->
   data r = None /\ confidence_score r = 0%Q /\
   (truthy documents = false -> error r = Some "No documents provided") /\
   (forall docs, py_iter documents = Ok docs -> truthy documents = true ->
      processed docs = [] ->
      error r = Some "Failed to extract data from any documents")).
Proof.
  cbv zeta. unfold ExtractionAgent.process.
  destruct (truthy (default _ _)) eqn:Htruthy; cbn [negb].
  2:{ cbn. split; [done|]. intros _. split_and!; try done. }
  destruct (py_iter _) as [docs|msg] eqn:Hiter; cbn [mbind exn_bind].
  2:{ cbn. split; [done|]. intros _. split_and!; try done. }
  unfold ExtractionAgent.process_documents.
  rewrite process_documents_spec. cbn [app].
  destruct (processed docs) as [|r0 rs] eqn:Hproc.
  { cbn. split; [done|]. intros _. split_and!; try done. }
  rewrite <-Hproc.
  assert (data_value <$> processed docs <> []) as Hne
    by (by rewrite Hproc).
  destruct (data_value <$> processed docs) as [|x xs] eqn:Hdatas; [done|].
  rewrite <-Hdatas.
  destruct (_consolidate_data _) as [d|msg] eqn:Hcons;
    cbn [mbind exn_bind try_except].
  - split; [|done]. intros _. exists docs, d. split_and!; try done.
    + by rewrite Hproc.
    + cbn. unfold mean. by rewrite !length_fmap.
  - cbn. split; [done|]. intros _. split_and!; try done.
    intros docs' [= <-] _ Hnil. by rewrite Hnil in Hproc.
Qed.

(** X18. A successful [ExtractionAgent.process] summarises the
    documents that were processed successfully (at least one):
    [total_documents] counts them, not the documents submitted;
    [document_types] lists their content types in order; and the
    reported confidence is the mean of their confidences. *)
Theorem extraction_summarises_processed_documents input :
  let r := process input in
  let documents := default (PyList []) (Dict.get "documents" input) in
  success r = true ->
  exists docs d,
    py_iter documents = Ok docs /\
    processed docs <> [] /\
    data r = Some d /\
    Dict.get "total_documents" d
    = Some (PyInt (Z.of_nat (length (processed docs)))) /\
    Dict.get "document_types" d
    = Some (PyList ((fun r => recorded_type (data_value r))
                      <$> processed docs)) /\
    confidence_score r = mean (confidence_score <$> processed docs).
Proof.
  cbv zeta. intros Hok.
  destruct (process_inv input) as [Hinv _].
  destruct (Hinv Hok) as (docs & d & _ & Hiter & Hne & Hcons & Hdata & Hc).
  apply consolidate_data_inv in Hcons as (_ & Htotal & Htypes & _).
  exists docs, d. split_and!; try done.
  - by rewrite Htotal, length_fmap.
  - by rewrite Htypes, <-list_fmap_compose.
Qed.

(** X19. [ExtractionAgent.process] without a usable document: a
    missing or empty ['documents'] entry is answered with "No documents
    provided"; documents none of which can be processed are answered
    with "Failed to extract data from any documents"; and every failure
    carries no payload and confidence 0. *)
Theorem extraction_fails_without_processed_document input :
  let r := process input in
  let documents := default (PyList []) (Dict.get "documents" input) in
  (truthy documents = false -> error r = Some "No documents provided") /\
  (forall docs, py_iter documents = Ok docs -> truthy documents = true ->
     Forall (fun doc => success (_process_document doc) = false) docs ->
     error r = Some "Failed to extract data from any documents") /\
  (success r = false -> data r = None /\ confidence_score r = 0%Q).
Proof.
  cbv zeta. destruct (process_inv input) as [Hok Hfail].
  assert (forall docs,
            Forall (fun doc => success (_process_document doc) = false)
              docs -> processed docs = []) as Hnone.
  { unfold Vocabulary.processed. induction 1 as [|doc docs Hdoc _ IH]; [done|].
    cbn [fmap list_fmap List.filter]. by rewrite Hdoc. }
  destruct (success (process input)) eqn:Hs.
  - destruct (Hok eq_refl) as (docs & d & Ht & Hiter & Hne & _).
    split_and!; [by rewrite Ht| |done].
    intros docs' Hiter' _ Hall. rewrite Hiter in Hiter'.
    injection Hiter' as <-. by apply Hnone in Hall.
  - destruct (Hfail eq_refl) as (Hd & Hc & Hnodocs & Hnoproc).
    split_and!; [done| |done].
    intros docs Hiter Ht Hall. apply (Hnoproc docs); [done..|].
    by apply Hnone.
Qed.

Lemma processed_types docs :
  tags_payloads _extract_from_pdf "pdf" ->
  tags_payloads _extract_from_image "image" ->
  tags_payloads _extract_from_excel "excel" ->
  tags_payloads _extract_from_text "text" ->
  exists cts,
    (fun r => recorded_type (data_value r)) <$> processed docs
    = PyStr <$> cts /\
    Forall (fun ct => ct ∈ content_types) cts.
Proof.
  intros Hpdf Himg Hxls Htxt. unfold Vocabulary.processed.
  induction docs as [|doc docs (cts & Heq & Hall)].
  { by exists []. }
  cbn [fmap list_fmap List.filter].
  destruct (success (_process_document doc)) eqn:Hok; [|by exists cts].
  assert (exists ct, recorded_type (data_value (_process_document doc))
                     = PyStr ct /\ ct ∈ content_types) as (ct & Hct & Hin).
  { destruct (process_document_cases doc Hok)
      as (d & path & ft & _ & _ & _ & _ & _ & Hcase).
    unfold content_types.
    destruct Hcase as [[_ Hr]|[[_ Hr]|[[_ Hr]|[_ Hr]]]];
      rewrite Hr in Hok |- *;
      [ destruct (Hpdf path Hok) as (p & Hp & Hct); exists "pdf"
      | destruct (Himg path Hok) as (p & Hp & Hct); exists "image"
      | destruct (Hxls path Hok) as (p & Hp & Hct); exists "excel"
      | destruct (Htxt path Hok) as (p & Hp & Hct); exists "text" ];
      unfold data_value; rewrite Hp; cbn [recorded_type];
      rewrite Hct; (split; [done|]); repeat constructor. }
  exists (ct :: cts). cbn [fmap list_fmap]. rewrite Hct.
  split; [by f_equal|by constructor].
Qed.

Lemma content_type_is_no_source s ct :
  s ∈ table_sources -> ct ∈ content_types -> mentions s ct = false.
Proof.
  unfold table_sources, content_types. intros Hs Hct.
  repeat (apply elem_of_cons in Hs as [->|Hs];
          [repeat (apply elem_of_cons in Hct as [->|Hct]; [done|]);
           by apply elem_of_nil in Hct|]).
  by apply elem_of_nil in Hs.
Qed.

(** X20. The extraction agent records content types (pdf, image,
    excel, text) where the reconciliation engine looks for document
    kinds (government_id, bank_statement, ...). With extractors that
    tag their payloads as the repository's do, reconciling any declared
    record against the payload of a successful extraction therefore
    reads nothing from the documents: no conflict, valid, confidence 1,
    and every field resolved to its declared value alone. *)
Theorem extracted_documents_never_contradict_the_form input a :
  tags_payloads _extract_from_pdf "pdf" ->
  tags_payloads _extract_from_image "image" ->
  tags_payloads _extract_from_excel "excel" ->
  tags_payloads _extract_from_text "text" ->
  success (process input) = true ->
  exists vr,
    reconcile re_search py_float py_repr py_lower py_strip (PyDict a)
      (data_value (process input)) = Ok vr /\
    conflicts vr = [] /\
    is_valid vr = true /\
    (vr_confidence_score vr == 1)%Q /\
    forall fld sources, (fld, sources) ∈ field_priorities ->
      Dict.get fld (resolved_data vr)
      = Some (PyDict (declared_only fld a)).
Proof.
  intros Hpdf Himg Hxls Htxt Hok.
  destruct (process_inv input) as [Hinv _].
  destruct (Hinv Hok) as (docs & d & _ & _ & _ & Hcons & Hdata & _).
  apply consolidate_data_inv in Hcons as (_ & _ & Htypes & _).
  destruct (processed_types docs Hpdf Himg Hxls Htxt)
    as (cts & Hcts & Hall).
  unfold data_value. rewrite Hdata.
  apply (no_match_no_conflict re_search py_float py_repr py_lower
           py_strip a d cts).
  - rewrite Htypes, <-Hcts, <-list_fmap_compose. done.
  - intros s ct Hs Hct. apply content_type_is_no_source; [done|].
    by apply (proj1 (Forall_forall _ _) Hall).
Qed.

End Extraction.


(** ** The extraction agent on the sample uploads *)

Lemma sample_extractors_tag_payloads :
  tags_payloads Upload._extract_from_pdf "pdf" /\
  tags_payloads Upload._extract_from_image "image" /\
  tags_payloads Upload._extract_from_excel "excel" /\
  tags_payloads Upload._extract_from_text "text".
Proof.
  split_and!; intros path Hok; try discriminate Hok;
    eexists; split; reflexivity.
Defined.

Lemma consolidated_lists_are_aligned_witness :
  match _consolidate_data [PyDict Upload.text_payload;
                           PyDict Upload.pdf_payload] with
  | Ok c =>
      Dict.keys c = ["total_documents"; "document_types"; "all_text_content";
                     "structured_data"; "confidence_scores"] /\
      Dict.get "total_documents" c = Some (PyInt 2) /\
      Dict.get "document_types" c = Some (PyList [PyStr "text"; PyStr "pdf"]) /\
      exists texts scores,
        Dict.get "all_text_content" c = Some (PyList texts) /\
        Dict.get "confidence_scores" c = Some (PyList scores) /\
        length texts = 2 /\
        length scores = 2
  | Raise _ => False
  end.
Proof.
  destruct (_consolidate_data [PyDict Upload.text_payload;
                               PyDict Upload.pdf_payload]) as [c|msg] eqn:Hc;
    [|vm_compute in Hc; discriminate].
  exact (consolidated_lists_are_aligned _ c Hc).
Defined.

Lemma only_supported_existing_files_are_extracted_witness :
  success (Upload._process_document Upload.identity_card) = true /\
  exists d path ft,
    Upload.identity_card = PyDict d /\
    Dict.get "file_path" d = Some path /\
    truthy path = true /\
    Upload.path_exists path = Ok true /\
    default (PyStr "") (Dict.get "file_type" d) = PyStr ft /\
    ((str_lower ft = "pdf" /\
      Upload._process_document Upload.identity_card
      = Upload._extract_from_pdf path) \/
     (str_lower ft ∈ ["png"; "jpg"; "jpeg"] /\
      Upload._process_document Upload.identity_card
      = Upload._extract_from_image path) \/
     (str_lower ft ∈ ["xlsx"; "xls"] /\
      Upload._process_document Upload.identity_card
      = Upload._extract_from_excel path) \/
     (str_lower ft = "txt" /\
      Upload._process_document Upload.identity_card
      = Upload._extract_from_text path)).
Proof.
  split; [vm_compute; reflexivity|].
  apply (only_supported_existing_files_are_extracted Sample.py_repr
           Upload.path_exists Upload._extract_from_pdf
           Upload._extract_from_image Upload._extract_from_excel
           Upload._extract_from_text Upload.identity_card).
  vm_compute. reflexivity.
Defined.

Lemma extraction_summarises_processed_documents_witness :
  success (Upload.process Upload.input) = true /\
  length (processed Upload._process_document Upload.documents) = 2 /\
  exists docs d,
    py_iter (default (PyList []) (Dict.get "documents" Upload.input))
      = Ok docs /\
    processed Upload._process_document docs <> [] /\
    data (Upload.process Upload.input) = Some d /\
    Dict.get "total_documents" d
    = Some (PyInt (Z.of_nat
                     (length (processed Upload._process_document docs)))) /\
    Dict.get "document_types" d
    = Some (PyList ((fun r => recorded_type (data_value r))
                      <$> processed Upload._process_document docs)) /\
    confidence_score (Upload.process Upload.input)
    = mean (confidence_score <$> processed Upload._process_document docs).
Proof.
  split; [vm_compute; reflexivity|].
  split; [vm_compute; reflexivity|].
  apply (extraction_summarises_processed_documents Sample.py_repr
           Upload.path_exists Upload._extract_from_pdf
           Upload._extract_from_image Upload._extract_from_excel
           Upload._extract_from_text Upload.input).
  vm_compute. reflexivity.
Defined.

Lemma extracted_documents_never_contradict_the_form_witness :
  success (Upload.process Upload.input) = true /\
  exists vr,
    ValidationAgent.reconcile Sample.re_search Sample.py_float Sample.py_repr
      Sample.py_lower Sample.py_strip
      (PyDict Sample.declared) (data_value (Upload.process Upload.input))
    = Ok vr /\
    conflicts vr = [] /\
    is_valid vr = true /\
    (vr_confidence_score vr == 1)%Q /\
    forall fld sources, (fld, sources) ∈ field_priorities ->
      Dict.get fld (resolved_data vr)
      = Some (PyDict (declared_only fld Sample.declared)).
Proof.
  split; [vm_compute; reflexivity|].
  apply (extracted_documents_never_contradict_the_form Sample.re_search
           Sample.py_float Sample.py_repr Sample.py_lower Sample.py_strip
           Upload.path_exists
           Upload._extract_from_pdf Upload._extract_from_image
           Upload._extract_from_excel Upload._extract_from_text
           Upload.input Sample.declared).
  - exact (proj1 sample_extractors_tag_payloads).
  - exact (proj1 (proj2 sample_extractors_tag_payloads)).
  - exact (proj1 (proj2 (proj2 sample_extractors_tag_payloads))).
  - exact (proj2 (proj2 (proj2 sample_extractors_tag_payloads))).
  - vm_compute. reflexivity.
Defined.

End ExtractionProperties.

(** * Properties of the eligibility features and labelling rules *)

Module EligibilityProperties.
Import Vocabulary DictFacts EligibilityAgent.

Lemma at_least_le bound v : at_least bound v = true <-> (bound <= v)%Q.
Proof. apply Qle_bool_iff. Qed.

Lemma at_least_trans bound v w :
  (v <= w)%Q -> at_least bound v = true -> at_least bound w = true.
Proof. rewrite !at_least_le. intros. lra. Qed.

Ltac thresholds :=
  repeat match goal with
         | |- context [at_least ?b ?v] =>
             let H := fresh "Hb" in destruct (at_least b v) eqn:H
         | H1 : (?v <= ?w)%Q, H2 : at_least ?b ?v = true,
           H3 : at_least ?b ?w = false |- _ =>
             rewrite (at_least_trans b v w H1 H2) in H3; discriminate H3
         end.

(** X21. Whenever [_estimate_credit_score] returns, the score lies
    between 650 and 730, so the clamp to [300, 850] is never active; it
    is 730 exactly when the employment length is at least 24 months and
    the monthly income at least 4000, and 650 exactly when the
    employment length is below 12 months and the income below 2500. *)
Theorem estimated_credit_score_range data score :
  _estimate_credit_score data = Ok score ->
  (650 <= score <= 730)%Z /\
  exists employment_length income,
    reading "employment_length_months" 0 data = Ok employment_length /\
    reading "monthly_income" 0 data = Ok income /\
    (score = 730%Z <->
     (24 <= employment_length)%Q /\ (4000 <= income)%Q) /\
    (score = 650%Z <->
     ~ (12 <= employment_length)%Q /\ ~ (2500 <= income)%Q).
Proof.
  unfold _estimate_credit_score, reading.
  destruct (py_num (default (PyInt 0)
                      (Dict.get "employment_length_months" data)))
    as [e|]; [|done].
  destruct (py_num (default (PyInt 0) (Dict.get "monthly_income" data)))
    as [m|]; [|done].
  cbn [mbind exn_bind]. intros [= <-].
  assert (at_least 24 e = true -> at_least 12 e = true) as He.
  { rewrite !at_least_le. intros. lra. }
  assert (at_least 4000 m = true -> at_least 2500 m = true) as Hm.
  { rewrite !at_least_le. intros. lra. }
  split.
  - destruct (at_least 24 e), (at_least 12 e), (at_least 4000 m),
      (at_least 2500 m); cbn; lia.
  - exists e, m. split_and!; try done; rewrite <-!at_least_le.
    + destruct (at_least 24 e), (at_least 12 e), (at_least 4000 m),
        (at_least 2500 m); cbn; intuition (try done; try lia).
    + destruct (at_least 24 e), (at_least 12 e), (at_least 4000 m),
        (at_least 2500 m); cbn; intuition (try done; try lia).
Qed.

(** X22. Whenever [_calculate_debt_to_income_ratio] returns, the ratio
    is at most 1; it is exactly 1 when the monthly income is not
    positive (no division takes place); and for a positive income it is
    [min(family_size * 200 / monthly_income, 1)], which is not negative
    when the family size is not. *)
Theorem debt_to_income_ratio_capped data ratio :
  _calculate_debt_to_income_ratio data = Ok ratio ->
  (ratio <= 1)%Q /\
  exists income,
    reading "monthly_income" 1 data = Ok income /\
    ((income <= 0)%Q -> ratio = 1%Q) /\
    (~ (income <= 0)%Q ->
     exists size,
       reading "family_size" 1 data = Ok size /\
       ratio = Qmin (size * 200 / income) 1 /\
       ((0 <= size)%Q -> (0 <= ratio)%Q)).
Proof.
  unfold _calculate_debt_to_income_ratio, reading.
  destruct (default (PyInt 1) (Dict.get "family_size" data))
    as [|b|n|x|s|l|d]; cbn [py_num mbind exn_bind]; try done.
  all: destruct (py_num (default (PyInt 1) (Dict.get "monthly_income" data)))
    as [m|]; cbn [mbind exn_bind]; [|done].
  all: destruct (Qle_bool m 0) eqn:Hm; cbn [negb]; try done.
  all: intros [= <-].
  all: try (split; [lra|exists m; split; [done|]; split; [done|];
                    intros Hpos; by apply Qle_bool_iff in Hm]).
  all: assert (~ (m <= 0)%Q) as Hpos
      by (intros H; apply Qle_bool_iff in H; congruence).
  all: split; [apply Q.le_min_r|].
  all: exists m; split; [done|]; split; [done|]; intros _.
  all: eexists; split; [reflexivity|]; split; [done|]; intros Hsize.
  all: apply Q.min_glb; [|lra].
  all: apply Qle_shift_div_l; [lra|]; nra.
Qed.

(** X23. The derived features are monotone: for two inputs whose
    employment lengths and monthly incomes are numbers, a longer
    employment and a higher income never raise the income-stability or
    employment-stability scores (lower is more stable) and never lower
    the balance consistency or the estimated credit score; the four
    helpers return on both inputs. *)
Theorem longer_employment_never_worsens_features data data' e e' m m' :
  reading "employment_length_months" 0 data = Ok e ->
  reading "employment_length_months" 0 data' = Ok e' ->
  reading "monthly_income" 0 data = Ok m ->
  reading "monthly_income" 0 data' = Ok m' ->
  (e <= e')%Q -> (m <= m')%Q ->
  exists i i' s s' b b' c c',
    _calculate_income_stability data = Ok i /\
    _calculate_income_stability data' = Ok i' /\
    _calculate_employment_stability data = Ok s /\
    _calculate_employment_stability data' = Ok s' /\
    _calculate_balance_consistency data = Ok b /\
    _calculate_balance_consistency data' = Ok b' /\
    _estimate_credit_score data = Ok c /\
    _estimate_credit_score data' = Ok c' /\
    (i' <= i)%Q /\ (s' <= s)%Q /\ (b <= b')%Q /\ (c <= c')%Z.
Proof.
  unfold reading, _calculate_income_stability,
    _calculate_employment_stability, _calculate_balance_consistency,
    _estimate_credit_score.
  intros -> -> -> -> He Hm. cbn [mbind exn_bind].
  do 8 eexists. split_and!; try reflexivity.
  all: thresholds; cbn; try lra; try lia.
Qed.

Lemma Qle_bool_trans a b c :
  (b <= c)%Q -> Qle_bool c a = true -> Qle_bool b a = true.
Proof. rewrite !Qle_bool_iff. lra. Qed.

Lemma rule_score_range f : (0 <= rule_score f <= 9)%Z.
Proof.
  unfold rule_score.
  repeat match goal with
         | |- context [if ?b then _ else _] => destruct b
         end; lia.
Qed.

Lemma rule_score_monotone f f' :
  at_least_as_good f f' -> (rule_score f <= rule_score f')%Z.
Proof.
  intros (Hi & He & Hc & Hd & Hb). unfold rule_score.
  assert (forall bound, at_least bound (debt_to_income_ratio f') = true ->
            at_least bound (debt_to_income_ratio f) = true) as Hdebt.
  { intros bound. by apply at_least_trans. }
  assert (Qle_bool (monthly_balance_consistency f') 0.7 = true ->
          Qle_bool (monthly_balance_consistency f) 0.7 = true) as Hbal.
  { by apply Qle_bool_trans. }
  assert (forall bound, at_least bound (monthly_income f) = true ->
            at_least bound (monthly_income f') = true) as Hinc.
  { intros bound. by apply at_least_trans. }
  assert (forall bound, at_least bound (employment_length_months f) = true ->
            at_least bound (employment_length_months f') = true) as Hemp.
  { intros bound. by apply at_least_trans. }
  assert (forall bound, at_least bound (credit_score f) = true ->
            at_least bound (credit_score f') = true) as Hcred.
  { intros bound. by apply at_least_trans. }
  assert (forall x y : Z, forall b1 b2 b1' b2' : bool,
            (b1 = true -> b1' = true) -> (b2 = true -> b2' = true) ->
            (x <= y)%Z ->
            ((if b1 then x + 2 else if b2 then x + 1 else x)
             <= (if b1' then y + 2 else if b2' then y + 1 else y))%Z)
    as Hstep.
  { intros x y [] [] [] [] H1 H2 Hxy;
      try (specialize (H1 eq_refl)); try (specialize (H2 eq_refl));
      try done; lia. }
  assert (forall x y : Z, forall b b' : bool,
            (b = true -> b' = true) -> (x <= y)%Z ->
            ((if b then x + 1 else x) <= (if b' then y + 1 else y))%Z)
    as Hlast.
  { intros x y [] [] H1 Hxy; try (specialize (H1 eq_refl));
      try done; lia. }
  cbv zeta. apply Hlast.
  { intros H. apply negb_true_iff in H. apply negb_true_iff.
    destruct (Qle_bool (monthly_balance_consistency f') 0.7) eqn:H';
      [|done].
    rewrite Hbal in H; done. }
  apply Hstep.
  { intros H. apply negb_true_iff in H. apply negb_true_iff.
    destruct (at_least 0.3 (debt_to_income_ratio f')) eqn:H'; [|done].
    rewrite Hdebt in H; done. }
  { intros H. apply negb_true_iff in H. apply negb_true_iff.
    destruct (at_least 0.5 (debt_to_income_ratio f')) eqn:H'; [|done].
    rewrite Hdebt in H; done. }
  apply Hstep; [apply Hcred..|].
  apply Hstep; [apply Hemp..|].
  apply Hstep; [apply Hinc..|]. done.
Qed.

(** X24. The labelling rules of [_generate_labels] give a label among
    0, 1, 2, and are monotone: a row that is at least as good in income,
    employment length, credit score, debt-to-income ratio and balance
    consistency never gets a lower label. *)
Theorem label_is_monotone f f' :
  at_least_as_good f f' ->
  (0 <= label f)%Z /\ (label f <= label f')%Z /\ (label f' <= 2)%Z.
Proof.
  intros Hle%rule_score_monotone. unfold label.
  destruct (Z.leb_spec 6 (rule_score f)), (Z.leb_spec 4 (rule_score f)),
    (Z.leb_spec 6 (rule_score f')), (Z.leb_spec 4 (rule_score f')); lia.
Qed.

(** X25. An applicant with a monthly income below 1500 and less than 12
    months of employment is never labelled "approve" (2) by the rules of
    [_generate_labels], whatever the credit score, debt ratio and balance
    consistency: the remaining criteria give at most 5 of the 6 points
    needed. *)
Theorem approval_label_needs_income_or_employment f :
  label f = 2%Z ->
  (1500 <= monthly_income f)%Q \/ (12 <= employment_length_months f)%Q.
Proof.
  unfold label.
  destruct (Z.leb_spec 6 (rule_score f)) as [Hs|];
    [intros _|by destruct (4 <=? rule_score f)%Z].
  revert Hs. unfold rule_score.
  destruct (at_least 1500 (monthly_income f)) eqn:Hi.
  { intros _. left. by apply at_least_le. }
  destruct (at_least 12 (employment_length_months f)) eqn:He.
  { intros _. right. by apply at_least_le. }
  assert (at_least 2500 (monthly_income f) = false) as ->.
  { destruct (at_least 2500 (monthly_income f)) eqn:H; [|done].
    apply at_least_le in H.
    assert (at_least 1500 (monthly_income f) = true) as H'
      by (apply at_least_le; lra).
    congruence. }
  assert (at_least 24 (employment_length_months f) = false) as ->.
  { destruct (at_least 24 (employment_length_months f)) eqn:H; [|done].
    apply at_least_le in H.
    assert (at_least 12 (employment_length_months f) = true) as H'
      by (apply at_least_le; lra).
    congruence. }
  cbv zeta.
  repeat match goal with
         | |- context [if ?b then _ else _] => destruct b
         end; lia.
Qed.

Section Conversions.

Context (py_float : string -> option Q) (py_int : string -> option Z).

Local Abbreviation _engineer_features :=
  (_engineer_features py_float py_int).

Lemma engineer_features_reads_feature_keys data data' :
  (forall k, k ∈ feature_keys -> Dict.get k data = Dict.get k data') ->
  _engineer_features data = _engineer_features data'.
Proof.
  intros Hsame. unfold EligibilityAgent._engineer_features,
    _calculate_income_stability, _calculate_employment_stability,
    _calculate_debt_to_income_ratio, _estimate_credit_score,
    _calculate_balance_consistency.
  rewrite !(Hsame "monthly_income"), !(Hsame "employment_length_months"),
    !(Hsame "family_size"), !(Hsame "dependents");
    [done|unfold feature_keys; repeat constructor..].
Qed.

Lemma engineer_features_default data :
  (forall k, k ∈ feature_keys -> Dict.get k data = None) ->
  _engineer_features data = Ok default_features.
Proof.
  intros Hnone.
  rewrite (engineer_features_reads_feature_keys data []); [done|].
  intros k Hk. by rewrite Hnone.
Qed.

(** X26. [_engineer_features] depends on the four top-level entries
    [monthly_income], [employment_length_months], [family_size] and
    [dependents] of its input only: two inputs that agree on them give
    the same outcome, and an input with none of them gives the fixed
    row 0, 0, 1, 0, 0.8, 0.9, 1.0, 650, 0.4, whatever else it
    holds. *)
Theorem features_read_top_level_entries_only data data' :
  (forall k, k ∈ feature_keys -> Dict.get k data = Dict.get k data') ->
  _engineer_features data = _engineer_features data' /\
  ((forall k, k ∈ feature_keys -> Dict.get k data = None) ->
   _engineer_features data = Ok default_features).
Proof.
  intros Hsame. split; [by apply engineer_features_reads_feature_keys|].
  apply engineer_features_default.
Qed.

(** X27. Whenever [_engineer_features] returns, the
    ['employment_length_months'] and ['monthly_income'] entries are
    numbers: a numeral string, which [int()] and [float()] accept, makes
    the comparisons of the helper functions raise. The income feature
    is the income entry and the employment feature is the employment
    entry truncated towards zero. *)
Theorem features_need_numbers_not_numerals data features :
  _engineer_features data = Ok features ->
  exists e m,
    reading "employment_length_months" 0 data = Ok e /\
    reading "monthly_income" 0 data = Ok m /\
    monthly_income features = m /\
    employment_length_months features
    = inject_Z (Z.quot (Qnum e) (Z.pos (Qden e))).
Proof.
  unfold EligibilityAgent._engineer_features, reading,
    _calculate_income_stability, _estimate_credit_score.
  destruct (default (PyInt 0) (Dict.get "monthly_income" data))
    as [|b|n|x|s|l|d];
    destruct (default (PyInt 0)
                (Dict.get "employment_length_months" data))
    as [|b'|n'|x'|s'|l'|d'];
    cbn [float_of int_of py_num mbind exn_bind]; try done.
  all: repeat match goal with
              | |- context [py_float ?s] =>
                  destruct (py_float s); cbn [mbind exn_bind]; [|done]
              | |- context [py_int ?s] =>
                  destruct (py_int s); cbn [mbind exn_bind]; [|done]
              | |- context [int_of ?pi ?v] =>
                  destruct (int_of pi v); cbn [mbind exn_bind]; [|done]
              | |- context [_calculate_employment_stability ?v] =>
                  destruct (_calculate_employment_stability v);
                  cbn [mbind exn_bind]; [|done]
              | |- context [_calculate_debt_to_income_ratio ?v] =>
                  destruct (_calculate_debt_to_income_ratio v);
                  cbn [mbind exn_bind]; [|done]
              | |- context [_calculate_balance_consistency ?v] =>
                  destruct (_calculate_balance_consistency v);
                  cbn [mbind exn_bind]; [|done]
              end.
  all: try done.
  all: intros [= <-]; cbn [monthly_income employment_length_months].
  all: eexists _, _; split_and!; try reflexivity.
  all: try (by destruct b'); by rewrite Z.quot_1_r.
Qed.

End Conversions.



(** ** The feature helpers on the sample applicants *)

Lemma estimated_credit_score_range_witness :
  _estimate_credit_score Upload.established_applicant = Ok 730%Z /\
  (650 <= 730 <= 730)%Z /\
  exists employment_length income,
    reading "employment_length_months" 0 Upload.established_applicant
      = Ok employment_length /\
    reading "monthly_income" 0 Upload.established_applicant = Ok income /\
    (730%Z = 730%Z <->
     (24 <= employment_length)%Q /\ (4000 <= income)%Q) /\
    (730%Z = 650%Z <->
     ~ (12 <= employment_length)%Q /\ ~ (2500 <= income)%Q).
Proof.
  split; [vm_compute; reflexivity|].
  apply (estimated_credit_score_range Upload.established_applicant 730).
  vm_compute. reflexivity.
Defined.

Lemma debt_to_income_ratio_capped_witness :
  match _calculate_debt_to_income_ratio Upload.established_applicant with
  | Ok ratio =>
      (ratio == 0.125)%Q /\
      (ratio <= 1)%Q /\
      exists income,
        reading "monthly_income" 1 Upload.established_applicant = Ok income /\
        ((income <= 0)%Q -> ratio = 1%Q) /\
        (~ (income <= 0)%Q ->
         exists size,
           reading "family_size" 1 Upload.established_applicant = Ok size /\
           ratio = Qmin (size * 200 / income) 1 /\
           ((0 <= size)%Q -> (0 <= ratio)%Q))
  | Raise _ => False
  end.
Proof.
  destruct (_calculate_debt_to_income_ratio Upload.established_applicant)
    as [ratio|msg] eqn:Hratio; [|vm_compute in Hratio; discriminate].
  split.
  - vm_compute in Hratio. injection Hratio as <-. reflexivity.
  - exact (debt_to_income_ratio_capped _ ratio Hratio).
Defined.

Lemma longer_employment_never_worsens_features_witness :
  exists i i' s s' b b' c c',
    _calculate_income_stability Upload.applicant = Ok i /\
    _calculate_income_stability Upload.established_applicant = Ok i' /\
    _calculate_employment_stability Upload.applicant = Ok s /\
    _calculate_employment_stability Upload.established_applicant = Ok s' /\
    _calculate_balance_consistency Upload.applicant = Ok b /\
    _calculate_balance_consistency Upload.established_applicant = Ok b' /\
    _estimate_credit_score Upload.applicant = Ok c /\
    _estimate_credit_score Upload.established_applicant = Ok c' /\
    (i' <= i)%Q /\ (s' <= s)%Q /\ (b <= b')%Q /\ (c <= c')%Z.
Proof.
  apply (longer_employment_never_worsens_features Upload.applicant
           Upload.established_applicant 14 30 2600 4800);
    vm_compute; first [reflexivity | discriminate].
Defined.

Lemma label_is_monotone_witness :
  label Upload.modest_row = 1%Z /\
  label Upload.strong_row = 2%Z /\
  (0 <= label Upload.modest_row)%Z /\
  (label Upload.modest_row <= label Upload.strong_row)%Z /\
  (label Upload.strong_row <= 2)%Z.
Proof.
  split; [vm_compute; reflexivity|].
  split; [vm_compute; reflexivity|].
  apply (label_is_monotone Upload.modest_row Upload.strong_row).
  unfold at_least_as_good. split_and!; vm_compute; discriminate.
Defined.

Lemma approval_label_needs_income_or_employment_witness :
  label Upload.strong_row = 2%Z /\
  ((1500 <= monthly_income Upload.strong_row)%Q \/
   (12 <= employment_length_months Upload.strong_row)%Q).
Proof.
  split; [vm_compute; reflexivity|].
  apply (approval_label_needs_income_or_employment Upload.strong_row).
  vm_compute. reflexivity.
Defined.

Lemma features_read_top_level_entries_only_witness :
  let nested := ("application_data", PyDict Upload.applicant)
                  :: Upload.applicant in
  Upload._engineer_features Upload.applicant
    = Upload._engineer_features nested /\
  ((forall k, k ∈ feature_keys -> Dict.get k Upload.applicant = None) ->
   Upload._engineer_features Upload.applicant = Ok default_features).
Proof.
  apply (features_read_top_level_entries_only Sample.py_float Upload.py_int
           Upload.applicant
           (("application_data", PyDict Upload.applicant)
              :: Upload.applicant)).
  intros k Hk. unfold feature_keys in Hk.
  repeat (apply elem_of_cons in Hk as [->|Hk]; [reflexivity|]).
  by apply elem_of_nil in Hk.
Defined.

Lemma features_need_numbers_not_numerals_witness :
  match Upload._engineer_features Upload.established_applicant with
  | Ok features =>
      exists e m,
        reading "employment_length_months" 0 Upload.established_applicant
          = Ok e /\
        reading "monthly_income" 0 Upload.established_applicant = Ok m /\
        monthly_income features = m /\
        employment_length_months features
        = inject_Z (Z.quot (Qnum e) (Z.pos (Qden e)))
  | Raise _ => False
  end.
Proof.
  destruct (Upload._engineer_features Upload.established_applicant)
    as [features|msg] eqn:Hf; [|vm_compute in Hf; discriminate].
  exact (features_need_numbers_not_numerals Sample.py_float Upload.py_int
           _ features Hf).
Defined.

End EligibilityProperties.

(** * Properties of the application endpoint *)

Module ApiProperties.
Import MasterAgent Vocabulary DictFacts PipelineExtras Api.

Section Endpoint.

Context (py_repr : pyval -> string) (format_percent : Q -> string).
Context (py_float : string -> option Q) (py_int : string -> option Z).
Context (extraction_agent validation_agent eligibility_agent
         : pydict -> exn ProcessingResult).
Context (uuid4 utcnow : string).

Local Abbreviation final_state :=
  (final_state extraction_agent validation_agent eligibility_agent
     uuid4 utcnow).
Local Abbreviation process :=
  (process py_repr format_percent extraction_agent validation_agent
     eligibility_agent uuid4 utcnow).

(** X28. The endpoint nests the form fields under ['application_data']
    while [_engineer_features] reads the top level of the stage input,
    and the orchestrator passes the caller's entries on unchanged: for
    every submitted form and every stage of the run, the features
    engineered from the stage's input are the fixed default row, so
    they do not depend on the form. *)
Theorem submitted_form_never_reaches_the_features form documents c :
  c ∈ calls (final_state (processing_data form documents)) ->
  EligibilityAgent._engineer_features py_float py_int (call_input c)
  = Ok default_features.
Proof.
  intros Hc. apply EligibilityProperties.engineer_features_default.
  intros k Hk.
  rewrite (caller_entries_preserved extraction_agent validation_agent
             eligibility_agent uuid4 utcnow
             (processing_data form documents) k c); [| |done].
  - unfold feature_keys in Hk.
    repeat (apply elem_of_cons in Hk as [->|Hk]; [done|]).
    by apply elem_of_nil in Hk.
  - unfold feature_keys in Hk.
    repeat (apply elem_of_cons in Hk as [->|Hk]; [done|]).
    by apply elem_of_nil in Hk.
Qed.

(** X29. What the endpoint reads from the pipeline's answer: for a run
    answered with success the error test is false and the ["decision"]
    entry of the response is always 'unknown' (the payload has no
    ['final_decision'] entry); for a run answered with failure the
    error test itself raises, since the answer carries no payload, so
    the branch for a workflow with errors is never taken. *)
Theorem endpoint_never_reports_the_decision input :
  let r := process input in
  (success r = true ->
   workflow_has_errors r = Ok false /\
   reported_decision r = Ok (Some (PyStr "unknown"))) /\
  (success r = false -> exists msg, reported_decision r = Raise msg).
Proof.
  cbv zeta. split.
  - intros Hok.
    destruct (process_success_inv _ _ _ _ _ _ _ _ Hok)
      as (agg & q & Hagg & Hst & Hq & Hproc).
    apply workflow_confidence_payloads in Hq.
    destruct (successful_state _ _ _ _ _ _ _ _ _ Hagg Hst Hq)
      as (_ & _ & _ & d1 & d2 & d3 & _ & ->).
    rewrite Hproc. done.
  - intros Hfail.
    destruct (process_failure_inv _ _ _ _ _ _ _ _ Hfail) as (Hdata & _).
    unfold reported_decision, workflow_has_errors, data_value.
    rewrite Hdata. by eexists.
Qed.

End Endpoint.


(** ** The endpoint on the sample form *)

Lemma submitted_form_never_reaches_the_features_witness :
  let st := MasterAgent.final_state Sample.extracted Sample.validation_agent
              Sample.approved "workflow-1" "2024-01-01T00:00:00"
              (processing_data Upload.form Upload.documents) in
  exists c,
    calls st !! 2%nat = Some c /\
    call_step c = "eligibility" /\
    Upload._engineer_features (call_input c) = Ok default_features.
Proof.
  cbv zeta.
  destruct (calls (MasterAgent.final_state Sample.extracted
                     Sample.validation_agent Sample.approved "workflow-1"
                     "2024-01-01T00:00:00"
                     (processing_data Upload.form Upload.documents))
              !! 2%nat) as [c|] eqn:Hc;
    [|vm_compute in Hc; discriminate].
  exists c. split; [reflexivity|].
  split; [vm_compute in Hc; injection Hc as <-; reflexivity|].
  apply (submitted_form_never_reaches_the_features Sample.py_float
           Upload.py_int Sample.extracted Sample.validation_agent
           Sample.approved "workflow-1" "2024-01-01T00:00:00" Upload.form
           Upload.documents c).
  exact (list_elem_of_lookup_2 _ _ _ Hc).
Defined.

End ApiProperties.
